(** * st_dashboard: the Streamlit dashboard of [src/app.py]

    A shallow embedding of the loader, the sidebar, the filter block, the
    brand restriction and the TF-IDF ranking of [app.py], followed by the
    properties the specification states about them.

    Conventions of the embedding.
    - A Python [str] is its sequence of Unicode code points ([pystr]).
      Column labels are the ASCII identifiers the script writes and are kept
      as Rocq strings.
    - A [DataFrame] is its ordered column labels and its rows; a row maps a
      label to a cell, and a cell that a row does not hold reads as NaN (what
      [pd.concat] fills in for a column a frame lacks).
    - Python exceptions are values of [exn]; code that can raise lives in the
      [result] monad and [try ... except] is a match on the result.
    - What the Python runtime decides and the script does not (Unicode
      character classes, [str.lower], the date parser behind
      [pd.to_datetime], the order in which numpy's default sort leaves equal
      keys) is a [Runtime]; [ascii_runtime] is an executable instance. *)

From stdpp Require Import gmap strings list sorting.
From Stdlib Require Import Reals Lra.

Open Scope Z_scope.

(* ================================================================== *)
(** ** Exceptions *)

Inductive exn :=
  | KeyError (label : string)
  | AttributeError
  | TypeError
  | ValueError (msg : string)
  | ReadError.

Inductive result (A : Type) :=
  | Ok (a : A)
  | Raise (e : exn).
Arguments Ok {A} a.
Arguments Raise {A} e.

Global Instance result_ret : MRet result := λ A a, Ok a.
Global Instance result_bind : MBind result := λ A B f m,
  match m with Ok a => f a | Raise e => Raise e end.
Global Instance result_fmap : FMap result := λ A B f m,
  match m with Ok a => Ok (f a) | Raise e => Raise e end.

(* ================================================================== *)
(** ** Python strings *)

Definition pystr := list N.

(** A source literal (ASCII) as a Python string. *)
Definition py (lit : string) : pystr :=
  Ascii.N_of_ascii <$> String.list_ascii_of_string lit.

Fixpoint startswith (pre s : pystr) : bool :=
  match pre, s with
  | [], _ => true
  | _ :: _, [] => false
  | a :: pre', b :: s' => (a =? b)%N && startswith pre' s'
  end.

(** [sub in s] *)
Fixpoint contains (sub s : pystr) : bool :=
  startswith sub s ||
  match s with
  | [] => false
  | _ :: s' => contains sub s'
  end.

(** [s.replace(old, new)] for a non-empty [old] (every call of the script
    passes a non-empty literal): occurrences are taken left to right and do
    not overlap.  [skip] counts the characters of a match still to drop. *)
Fixpoint replace_from (old new : pystr) (skip : nat) (s : pystr) : pystr :=
  match s with
  | [] => []
  | c :: s' =>
      match skip with
      | S k => replace_from old new k s'
      | O =>
          if startswith old s
          then new ++ replace_from old new (pred (length old)) s'
          else c :: replace_from old new O s'
      end
  end.

Definition replace (old new s : pystr) : pystr := replace_from old new O s.

(** The part of [s] before the last [sep], when [s] holds one. *)
Fixpoint before_last (sep : N) (s : pystr) : option pystr :=
  match s with
  | [] => None
  | c :: s' =>
      match before_last sep s' with
      | Some h => Some (c :: h)
      | None => if (c =? sep)%N then Some [] else None
      end
  end.

(** [s.rsplit(sep, 1)[0]] for a one-character [sep]. *)
Definition rsplit1_head (sep : N) (s : pystr) : pystr :=
  default s (before_last sep s).

Definition underscore : N := 95.

(** Code-point order, the order of Python's [sorted] on strings. *)
Fixpoint str_leb (a b : pystr) : bool :=
  match a, b with
  | [], _ => true
  | _ :: _, [] => false
  | x :: a', y :: b' => (x <? y)%N || ((x =? y)%N && str_leb a' b')
  end.

Definition str_le (a b : pystr) : Prop := str_leb a b = true.

Global Instance str_le_dec a b : Decision (str_le a b).
Proof. unfold str_le. apply _. Defined.

Definition sorted (l : list pystr) : list pystr := merge_sort str_le l.

(* ================================================================== *)
(** ** Dates and cells *)

(** A [datetime.date] is its day number; a pandas [Timestamp] is a day and
    the nanoseconds into it, and [.dt.date] keeps the day. *)
Record Timestamp := { ts_day : Z; ts_nanos : Z }.

Inductive cell :=
  | VStr (s : pystr)
  | VInt (z : Z)
  | VTime (t : Timestamp)
  | VNaT
  | VNaN.

Global Instance Timestamp_eq_dec : EqDecision Timestamp.
Proof. solve_decision. Defined.
Global Instance cell_eq_dec : EqDecision cell.
Proof. solve_decision. Defined.

Definition isna (v : cell) : bool :=
  match v with VNaT | VNaN => true | _ => false end.

(* ================================================================== *)
(** ** The runtime the script runs on *)

Class Runtime := {
  (** [str.isalnum] of a one-character string; with the underscore these are
      the characters [\w] matches *)
  is_alnum : N → bool;
  (** [str.isspace] of a one-character string *)
  is_space : N → bool;
  (** [str.lower] *)
  str_lower : pystr → pystr;
  (** [pd.to_datetime(..., format=fmt, errors='coerce')] on one value;
      [None] is NaT *)
  to_datetime : option string → cell → option Timestamp;
  (** [ndarray.argsort()] with the default kind: the positions of the keys
      in ascending order of key *)
  argsort : list Z → list nat;
}.

(** What is known of every runtime: blank characters are not word
    characters and lowering keeps a blank string blank; [argsort] returns a
    permutation of the positions that puts the keys in ascending order
    (equal keys in an order of its choosing). *)
Class RuntimeLaws (rt : Runtime) : Prop := {
  space_not_word : ∀ c, is_space c = true → is_alnum c = false ∧ c ≠ underscore;
  lower_blank : ∀ s, forallb is_space s = true → forallb is_space (str_lower s) = true;
  argsort_perm : ∀ keys, argsort keys ≡ₚ seq 0 (length keys);
  argsort_sorted : ∀ keys,
    StronglySorted Z.le ((λ i, nth i keys 0) <$> argsort keys);
}.

(* ================================================================== *)
(** ** DataFrames *)

Record DataFrame := {
  df_columns : list string;
  df_rows : list (gmap string cell);
}.

(** [pd.DataFrame()] *)
Definition empty_frame : DataFrame := {| df_columns := []; df_rows := [] |}.

(** [df.empty]: some axis has length 0 *)
Definition empty (df : DataFrame) : bool :=
  bool_decide (df_columns df = []) || bool_decide (df_rows df = []).

Definition cell_at (label : string) (r : gmap string cell) : cell :=
  default VNaN (r !! label).

(** [df[label]] *)
Definition getitem (df : DataFrame) (label : string) : result (list cell) :=
  if decide (label ∈ df_columns df)
  then Ok (cell_at label <$> df_rows df)
  else Raise (KeyError label).

(** [df[[l1, l2, ...]]]: every label has to be a column *)
Definition getitems (df : DataFrame) (labels : list string) : result DataFrame :=
  match filter (λ l, l ∉ df_columns df) labels with
  | [] => Ok {| df_columns := labels;
                df_rows := (λ r, filter (λ kv, kv.1 ∈ labels) r) <$> df_rows df |}
  | l :: _ => Raise (KeyError l)
  end.

Definition add_label (cols : list string) (label : string) : list string :=
  if decide (label ∈ cols) then cols else cols ++ [label].

(** [df[label] = v] for a scalar [v] *)
Definition setitem_scalar (df : DataFrame) (label : string) (v : cell) : DataFrame :=
  {| df_columns := add_label (df_columns df) label;
     df_rows := (λ r, <[label := v]> r) <$> df_rows df |}.

(** [df[label] = s] for a series [s] over the rows of [df] *)
Definition setitem_series (df : DataFrame) (label : string) (s : list cell) : DataFrame :=
  {| df_columns := add_label (df_columns df) label;
     df_rows := zip_with (λ r v, <[label := v]> r) (df_rows df) s |}.

(** [pd.concat(frames, ignore_index=True)]: the rows in order, the columns
    in order of first appearance *)
Definition concat_frames (frames : list DataFrame) : DataFrame :=
  {| df_columns := foldl add_label [] (concat (df_columns <$> frames));
     df_rows := concat (df_rows <$> frames) |}.

(** [s.isin(values)] *)
Definition isin (s : list cell) (values : list cell) : list bool :=
  (λ v, bool_decide (v ∈ values)) <$> s.

(** [s.dt.date]: only a datetime column has the accessor *)
Fixpoint dt_date (s : list cell) : result (list (option Z)) :=
  match s with
  | [] => Ok []
  | VTime t :: s' => ds ← dt_date s'; Ok (Some (ts_day t) :: ds)
  | VNaT :: s' => ds ← dt_date s'; Ok (None :: ds)
  | _ :: _ => Raise AttributeError
  end.

(** [dates >= d] and [dates <= d]: NaT compares false *)
Definition date_ge (dates : list (option Z)) (d : Z) : list bool :=
  (λ x, match x with Some v => bool_decide (d ≤ v) | None => false end) <$> dates.
Definition date_le (dates : list (option Z)) (d : Z) : list bool :=
  (λ x, match x with Some v => bool_decide (v ≤ d) | None => false end) <$> dates.

(** [m1 & m2] *)
Definition mask_and (m1 m2 : list bool) : list bool := zip_with andb m1 m2.

(** [df[mask]] *)
Definition select (df : DataFrame) (mask : list bool) : DataFrame :=
  {| df_columns := df_columns df;
     df_rows := (filter (λ rb, rb.2 = true) (zip (df_rows df) mask)).*1 |}.

(** [acc] with [x] appended unless it is there: first appearances, in
    order.  [uniq] is [Series.unique()]. *)
Definition add_new {A} `{EqDecision A} (acc : list A) (x : A) : list A :=
  if decide (x ∈ acc) then acc else acc ++ [x].

Definition uniq {A} `{EqDecision A} (l : list A) : list A := foldl add_new [] l.

(* ================================================================== *)
(** ** The loader: [load_and_preprocess_data] *)

Inductive category := Blog | Shop | Trend | News.

Global Instance category_eq_dec : EqDecision category.
Proof. solve_decision. Defined.

(** Lines 25-35: the keyword of a file name; [None] is the [continue]. *)
Definition keyword_of (filename : pystr) : option pystr :=
  if contains (py "blog_") filename then
    Some (rsplit1_head underscore (replace (py "blog_") [] filename))
  else if contains (py "shopping_trend_") filename then
    Some (rsplit1_head underscore (replace (py "shopping_trend_") [] filename))
  else if contains (py "shop_") filename then
    Some (rsplit1_head underscore (replace (py "shop_") [] filename))
  else if contains (py "news_") filename then
    Some (rsplit1_head underscore (replace (py "news_") [] filename))
  else None.

(** Lines 41-51: the list a frame is appended to; [None] when no branch of
    the chain is taken. *)
Definition category_of (filename : pystr) : option category :=
  if contains (py "blog_") filename then Some Blog
  else if contains (py "shopping_trend") filename then Some Trend
  else if contains (py "shop_") filename then Some Shop
  else if contains (py "news_") filename then Some News
  else None.

Record load_state := {
  blog_list : list DataFrame;
  shop_list : list DataFrame;
  trend_list : list DataFrame;
  news_list : list DataFrame;
  (** the files [st.error] has reported *)
  load_errors : list (pystr * exn);
}.

Definition no_frames : load_state :=
  {| blog_list := []; shop_list := []; trend_list := []; news_list := [];
     load_errors := [] |}.

Definition append_to (c : category) (df : DataFrame) (st : load_state) : load_state :=
  match c with
  | Blog => {| blog_list := blog_list st ++ [df]; shop_list := shop_list st;
               trend_list := trend_list st; news_list := news_list st;
               load_errors := load_errors st |}
  | Shop => {| blog_list := blog_list st; shop_list := shop_list st ++ [df];
               trend_list := trend_list st; news_list := news_list st;
               load_errors := load_errors st |}
  | Trend => {| blog_list := blog_list st; shop_list := shop_list st;
                trend_list := trend_list st ++ [df]; news_list := news_list st;
                load_errors := load_errors st |}
  | News => {| blog_list := blog_list st; shop_list := shop_list st;
               trend_list := trend_list st; news_list := news_list st ++ [df];
               load_errors := load_errors st |}
  end.

Definition report_error (filename : pystr) (e : exn) (st : load_state) : load_state :=
  {| blog_list := blog_list st; shop_list := shop_list st;
     trend_list := trend_list st; news_list := news_list st;
     load_errors := load_errors st ++ [(filename, e)] |}.

Definition datetime_cell (o : option Timestamp) : cell :=
  match o with Some t => VTime t | None => VNaT end.

(** [df[label] = pd.to_datetime(df[label], format=fmt, errors='coerce')] *)
Definition parse_column {rt : Runtime} (df : DataFrame) (label : string)
    (fmt : option string) : result DataFrame :=
  col ← getitem df label;
  Ok (setitem_series df label ((λ v, datetime_cell (to_datetime fmt v)) <$> col)).

(** Lines 38-51, the body of the [try]: the frame as it is appended, and
    the list it goes to. *)
Definition preprocess {rt : Runtime} (filename keyword : pystr) (csv : result DataFrame)
    : result (option (category * DataFrame)) :=
  df ← csv;
  let df := setitem_scalar df "target_keyword" (VStr keyword) in
  match category_of filename with
  | Some Blog => df' ← parse_column df "postdate" (Some "%Y%m%d"); Ok (Some (Blog, df'))
  | Some Trend => df' ← parse_column df "period" None; Ok (Some (Trend, df'))
  | Some Shop => Ok (Some (Shop, df))
  | Some News => df' ← parse_column df "pubDate" None; Ok (Some (News, df'))
  | None => Ok None
  end.

(** One turn of the loop of lines 21-53.  A file is its base name and what
    [pd.read_csv] makes of it. *)
Definition load_file {rt : Runtime} (st : load_state) (f : pystr * result DataFrame)
    : load_state :=
  match keyword_of f.1 with
  | None => st
  | Some keyword =>
      match preprocess f.1 keyword f.2 with
      | Ok (Some (c, df)) => append_to c df st
      | Ok None => st
      | Raise e => report_error f.1 e st
      end
  end.

(** [pd.concat(l, ignore_index=True) if l else pd.DataFrame()] *)
Definition concat_or_empty (l : list DataFrame) : DataFrame :=
  match l with
  | [] => empty_frame
  | _ :: _ => concat_frames l
  end.

Record loaded := {
  blog_df : DataFrame;
  shop_df : DataFrame;
  trend_df : DataFrame;
  news_df : DataFrame;
  reported : list (pystr * exn);
}.

Definition load_and_preprocess_data {rt : Runtime} (files : list (pystr * result DataFrame))
    : loaded :=
  let st := foldl load_file no_frames files in
  {| blog_df := concat_or_empty (blog_list st);
     shop_df := concat_or_empty (shop_list st);
     trend_df := concat_or_empty (trend_list st);
     news_df := concat_or_empty (news_list st);
     reported := load_errors st |}.

(* ================================================================== *)
(** ** The sidebar (lines 63-74) *)

(** The widgets of one run: what the user has picked in the multiselect
    ([None] before any interaction) and the tuple [st.sidebar.date_input]
    returns (zero, one or two dates; at first its default, the smallest and
    the largest period). *)
Record session := {
  picked_keywords : option (list pystr);
  date_input_value : list Z;
}.

Fixpoint as_strs (l : list cell) : result (list pystr) :=
  match l with
  | [] => Ok []
  | VStr s :: l' => ss ← as_strs l'; Ok (s :: ss)
  | _ :: _ => Raise TypeError
  end.

(** Line 65.  The column holds the strings line 39 wrote; [sorted] of
    anything else is taken to raise. *)
Definition all_keywords (trend : DataFrame) : result (list pystr) :=
  if empty trend then Ok []
  else col ← getitem trend "target_keyword";
       ks ← as_strs (uniq col);
       Ok (sorted ks).

(** [st.sidebar.multiselect(label, options, default=default)]: the picks
    are among the options. *)
Definition multiselect (options default : list pystr) (picked : option (list pystr))
    : list pystr :=
  match picked with
  | None => default
  | Some l => filter (λ k, k ∈ options) l
  end.

Definition default_keywords (ks : list pystr) : list pystr :=
  if decide (3 < length ks)%nat then take 3 ks else ks.

Record sidebar_values := {
  offered_keywords : list pystr;
  selected_keywords : list pystr;
  date_range : list Z;
}.

(** Lines 65-74.  Of lines 70-72 the lookup of [period] and the answer of
    the widget are kept: [min_date] and [max_date] only give the widget its
    default and its bounds.  What [.min()], [.max()] and [date_input] do on
    a [period] column that is not of one datetime64 dtype (periods with and
    without offset in one table) is not described, so a run of [sidebar]
    that returns stands for a run of the script in which these calls
    returned. *)
Definition sidebar (trend : DataFrame) (ui : session) : result sidebar_values :=
  ks ← all_keywords trend;
  let selected := multiselect ks (default_keywords ks) (picked_keywords ui) in
  dr ← (if negb (empty trend)
        then _ ← getitem trend "period"; Ok (date_input_value ui)
        else Ok []);
  Ok {| offered_keywords := ks; selected_keywords := selected; date_range := dr |}.

(* ================================================================== *)
(** ** The filter block (lines 76-88) *)

(** [df[df['target_keyword'].isin(selected)] *)
Definition filter_keyword (df : DataFrame) (selected : list pystr) : result DataFrame :=
  kw ← getitem df "target_keyword";
  Ok (select df (isin kw (VStr <$> selected))).

(** [df[(df['target_keyword'].isin(selected)) &
        (df[label].dt.date >= start_date) & (df[label].dt.date <= end_date)]] *)
Definition filter_keyword_date (df : DataFrame) (label : string)
    (selected : list pystr) (start_date end_date : Z) : result DataFrame :=
  kw ← getitem df "target_keyword";
  d1 ← getitem df label ≫= dt_date;
  d2 ← getitem df label ≫= dt_date;
  Ok (select df (mask_and (mask_and (isin kw (VStr <$> selected))
                                    (date_ge d1 start_date))
                          (date_le d2 end_date))).

Record filtered := {
  f_trend : DataFrame;
  f_blog : DataFrame;
  f_shop : DataFrame;
  f_news : DataFrame;
}.

Definition filter_block (trend blog shop news : DataFrame)
    (selected : list pystr) (dr : list Z) : result filtered :=
  match dr with
  | [start_date; end_date] =>
      ft ← filter_keyword_date trend "period" selected start_date end_date;
      fb ← filter_keyword_date blog "postdate" selected start_date end_date;
      fn ← filter_keyword news selected;
      fs ← filter_keyword shop selected;
      Ok {| f_trend := ft; f_blog := fb; f_shop := fs; f_news := fn |}
  | _ => Ok {| f_trend := trend; f_blog := blog; f_shop := shop; f_news := news |}
  end.

(* ================================================================== *)
(** ** The brand restriction of the shop tab (lines 154-155) *)

Definition count_of {A} `{EqDecision A} (x : A) (l : list A) : Z :=
  Z.of_nat (length (filter (λ y, y = x) l)).

(** [s.value_counts()]: the values that are not missing, each with the
    number of its rows, by falling count; values of equal count come in the
    order the runtime's sort leaves them. *)
Definition value_counts {rt : Runtime} (s : list cell) : list (cell * Z) :=
  let values := uniq (filter (λ v, isna v = false) s) in
  let counts := (λ v, count_of v s) <$> values in
  (λ i, (nth i values VNaN, nth i counts 0)) <$> argsort (Z.opp <$> counts).

(** [f_shop['brand'].value_counts().head(10).index] *)
Definition top_brands {rt : Runtime} (shop : DataFrame) : result (list cell) :=
  brand ← getitem shop "brand";
  Ok ((take 10 (value_counts brand)).*1).

(** [f_shop[f_shop['brand'].isin(top_brands)]] *)
Definition brand_restriction {rt : Runtime} (shop : DataFrame) : result DataFrame :=
  top ← top_brands shop;
  brand ← getitem shop "brand";
  Ok (select shop (isin brand top)).

(* ================================================================== *)
(** ** The TF-IDF ranking (lines 127-129 and 175-177)

    [TfidfVectorizer(max_features=k)] with every other parameter at its
    default: lower-cased input, tokens matching [(?u)\b\w\w+\b], unigrams,
    [max_df=1.0], [min_df=1], smoothed idf, rows normalised to unit
    Euclidean length.  Counts are integers; weights and scores are real
    numbers. *)

Definition is_word {rt : Runtime} (c : N) : bool := is_alnum c || (c =? underscore)%N.

(** A run of word characters is a token when it has two or more. *)
Definition emit (run : pystr) : list pystr :=
  if decide (2 ≤ length run)%nat then [run] else [].

(** [re.findall] of the token pattern: the maximal runs of word characters
    of length two or more; [run] is the run being read. *)
Fixpoint tokens_from {rt : Runtime} (run s : pystr) : list pystr :=
  match s with
  | [] => emit run
  | c :: s' =>
      if is_word c then tokens_from (run ++ [c]) s'
      else emit run ++ tokens_from [] s'
  end.

Definition tokenize {rt : Runtime} (doc : pystr) : list pystr := tokens_from [] doc.

(** The analyzer: lower-case, then tokenize. *)
Definition analyze {rt : Runtime} (doc : pystr) : list pystr := tokenize (str_lower doc).

(** [Series.fillna('')] *)
Definition fillna_str (s : list cell) : list cell :=
  (λ v, if isna v then VStr [] else v) <$> s.

(** What the analyzer is handed: a value that is no string has no
    [lower]. *)
Definition document (v : cell) : result pystr :=
  match v with
  | VStr s => Ok s
  | VNaN => Raise (ValueError "np.nan is an invalid document")
  | _ => Raise AttributeError
  end.

Fixpoint documents (s : list cell) : result (list pystr) :=
  match s with
  | [] => Ok []
  | v :: s' => d ← document v; ds ← documents s'; Ok (d :: ds)
  end.

(** The vocabulary as [_count_vocab] grows it: every token, at its first
    appearance. *)
Definition first_seen (docs : list (list pystr)) : list pystr :=
  foldl (foldl add_new) [] docs.

(** The count matrix: a row for each document, a column for each term. *)
Definition count_matrix (vocabulary : list pystr) (docs : list (list pystr))
    : list (list Z) :=
  (λ d, (λ t, count_of t d) <$> vocabulary) <$> docs.

Definition column {A} (d : A) (X : list (list A)) (j : nat) : list A :=
  (λ row, nth j row d) <$> X.

Definition sum_Z (l : list Z) : Z := foldr Z.add 0 l.

(** [_document_frequency(X)]: the documents in which a term occurs *)
Definition document_frequency (X : list (list Z)) (n_features : nat) : list Z :=
  (λ j, Z.of_nat (length (filter (λ x, x ≠ 0) (column 0 X j)))) <$> seq 0 n_features.

(** [X.sum(axis=0)]: the occurrences of a term in the whole collection *)
Definition term_frequency (X : list (list Z)) (n_features : nat) : list Z :=
  (λ j, sum_Z (column 0 X j)) <$> seq 0 n_features.

(** [np.where(mask)[0]] *)
Definition where_ (mask : list bool) : list nat :=
  filter (λ j, nth j mask false = true) (seq 0 (length mask)).

(** [_limit_features(X, vocabulary, high, low, limit)]: the mask of the
    terms kept.  Past [limit] surviving terms, the [limit] first in
    [(-tfs[mask]).argsort()] stay. *)
Definition limit_mask {rt : Runtime} (X : list (list Z)) (n_features : nat)
    (high low : Z) (limit : nat) : list bool :=
  let dfs := document_frequency X n_features in
  let mask := (λ d, bool_decide (d ≤ high) && bool_decide (low ≤ d)) <$> dfs in
  if decide (limit < length (where_ mask))%nat then
    let tfs := term_frequency X n_features in
    let surviving := where_ mask in
    let mask_inds := take limit (argsort ((λ i, - nth i tfs 0) <$> surviving)) in
    let chosen := (λ i, nth i surviving O) <$> mask_inds in
    (λ j, bool_decide (j ∈ chosen)) <$> seq 0 n_features
  else mask.

Definition limit_features {rt : Runtime} (X : list (list Z)) (vocabulary : list pystr)
    (high low : Z) (limit : nat) : result (list (list Z) * list pystr) :=
  let kept_indices := where_ (limit_mask X (length vocabulary) high low limit) in
  if decide (kept_indices = []) then Raise (ValueError "After pruning, no terms remain")
  else Ok ((λ row, (λ j, nth j row 0) <$> kept_indices) <$> X,
           (λ j, nth j vocabulary []) <$> kept_indices).

(** [CountVectorizer.fit_transform]: the vocabulary sorted, its count
    matrix, and the cut to [max_features] terms. *)
Definition count_fit_transform {rt : Runtime} (max_features : nat) (docs : list pystr)
    : result (list (list Z) * list pystr) :=
  if decide (max_features = O) then Raise (ValueError "max_features must be positive")
  else
    let analyzed := analyze <$> docs in
    let vocabulary := first_seen analyzed in
    if decide (vocabulary = []) then Raise (ValueError "empty vocabulary")
    else
      let n_doc := Z.of_nat (length docs) in
      let max_doc_count := n_doc in
      let min_doc_count := 1 in
      if decide (max_doc_count < min_doc_count)
      then Raise (ValueError "max_df corresponds to < documents than min_df")
      else
        let vocabulary := sorted vocabulary in
        let X := count_matrix vocabulary analyzed in
        limit_features X vocabulary max_doc_count min_doc_count max_features.

Open Scope R_scope.

(** The smoothed inverse document frequency, [ln((1 + n) / (1 + df)) + 1] *)
Definition idf (n_samples df : Z) : R :=
  ln ((1 + IZR n_samples) / (1 + IZR df)) + 1.

Definition sum_R (l : list R) : R := foldr Rplus 0 l.

Definition l2_norm (row : list R) : R := sqrt (sum_R ((λ x, x * x) <$> row)).

(** [normalize(row, norm='l2')]: a row of norm zero is left as it is *)
Definition l2_normalize (row : list R) : list R :=
  if Req_dec_T (l2_norm row) 0 then row
  else (λ x, x / l2_norm row) <$> row.

(** [TfidfTransformer().fit_transform(X)] *)
Definition tfidf_transform (X : list (list Z)) (n_features : nat) : list (list R) :=
  let n_samples := Z.of_nat (length X) in
  let idfs := idf n_samples <$> document_frequency X n_features in
  (λ row, l2_normalize (zip_with (λ x w, IZR x * w) row idfs)) <$> X.

(** [np.asarray(tfidf_mat.sum(axis=0)).flatten()] *)
Definition column_sums (M : list (list R)) (n_features : nat) : list R :=
  (λ j, sum_R (column 0 M j)) <$> seq 0 n_features.

Close Scope R_scope.

(** The ranking frame: [get_feature_names_out()] beside the summed
    weights. *)
Definition scored (fit : list (list Z) * list pystr) : list (pystr * R) :=
  zip fit.2 (column_sums (tfidf_transform fit.1 (length fit.2)) (length fit.2)).

Definition tfidf_ranking {rt : Runtime} (max_features : nat) (texts : list cell)
    : result (list (pystr * R)) :=
  docs ← documents texts;
  fit ← count_fit_transform max_features docs;
  Ok (scored fit).

(** The [try ... except] around the ranking and its chart. *)
Inductive panel :=
  | Chart (ranking : list (pystr * R))
  | NotEnoughData.

Definition tfidf_panel {rt : Runtime} (max_features : nat) (df : DataFrame) (label : string)
    : panel :=
  match (texts ← getitem df label; tfidf_ranking max_features (fillna_str texts)) with
  | Ok ranking => Chart ranking
  | Raise _ => NotEnoughData
  end.

(* ================================================================== *)
(** ** The four tabs (lines 96-187) and the script

    The charts and tables themselves are plotly's and Streamlit's and are
    not modelled; what is kept of each tab is the branch it takes, the
    columns it asks for (a missing one raises), the brand restriction and
    the two ranking panels.  The sorts of the tables of lines 138 and 185
    are not part of [tab2] and [tab4]: a tab that returns here stands for a
    run in which its sort returned.  The sort of the blog table is
    [latest_posts]; the one of the news table, whose [pubDate] may carry
    offsets, is not described. *)

Inductive notice := SelectKeywords | NoData | NoNewsData.

Inductive view (A : Type) :=
  | Info (n : notice)
  | Shown (a : A).
Arguments Info {A} n.
Arguments Shown {A} a.

(** A plotly express figure over [df]: every column it is given by name has
    to be there. *)
Definition chart_needs (df : DataFrame) (labels : list string) : result unit :=
  match filter (λ l, l ∉ df_columns df) labels with
  | [] => Ok ()
  | _ :: _ => Raise (ValueError "not the name of a column")
  end.

Definition tab1 (trend : DataFrame) : result (view unit) :=
  if negb (empty trend) then
    _ ← chart_needs trend ["period"; "ratio"; "target_keyword"];
    _ ← getitem trend "target_keyword";
    _ ← getitem trend "ratio";
    Ok (Shown ())
  else Ok (Info SelectKeywords).

Record blog_view := {
  blogger_top : list (cell * Z);
  blog_keywords : panel;
}.

Definition tab2 {rt : Runtime} (blog : DataFrame) : result (view blog_view) :=
  if negb (empty blog) then
    bloggers ← getitem blog "bloggername";
    let top := take 20 (value_counts bloggers) in
    let keywords := tfidf_panel 30 blog "description" in
    _ ← getitems blog ["postdate"; "bloggername"; "title"; "target_keyword"];
    Ok (Shown {| blogger_top := top; blog_keywords := keywords |})
  else Ok (Info NoData).

Definition tab3 {rt : Runtime} (shop : DataFrame) : result (view DataFrame) :=
  if negb (empty shop) then
    _ ← chart_needs shop ["lprice"; "target_keyword"];
    f_brand ← brand_restriction shop;
    _ ← chart_needs f_brand ["brand"; "lprice"; "target_keyword"];
    _ ← getitem shop "brand";
    _ ← getitem shop "target_keyword";
    _ ← getitem shop "lprice";
    Ok (Shown f_brand)
  else Ok (Info NoData).

Definition tab4 {rt : Runtime} (news : DataFrame) : result (view panel) :=
  if negb (empty news) then
    let keywords := tfidf_panel 25 news "title" in
    _ ← getitems news ["target_keyword"; "title"; "pubDate"];
    Ok (Shown keywords)
  else Ok (Info NoNewsData).

Record page := {
  trend_tab : view unit;
  blog_tab : view blog_view;
  shop_tab : view DataFrame;
  news_tab : view panel;
}.

Definition render {rt : Runtime} (f : filtered) : result page :=
  t1 ← tab1 (f_trend f);
  t2 ← tab2 (f_blog f);
  t3 ← tab3 (f_shop f);
  t4 ← tab4 (f_news f);
  Ok {| trend_tab := t1; blog_tab := t2; shop_tab := t3; news_tab := t4 |}.

(** The tables the tabs are given: the loader, the sidebar, the filter
    block. *)
Definition filtered_tables {rt : Runtime} (files : list (pystr * result DataFrame))
    (ui : session) : result filtered :=
  let data := load_and_preprocess_data files in
  sb ← sidebar (trend_df data) ui;
  filter_block (trend_df data) (blog_df data) (shop_df data) (news_df data)
               (selected_keywords sb) (date_range sb).

(** One run of the script. *)
Definition dashboard {rt : Runtime} (files : list (pystr * result DataFrame))
    (ui : session) : result page :=
  filtered_tables files ui ≫= render.

(* ================================================================== *)
(** ** An executable runtime for ASCII text *)

Definition ascii_alnum (c : N) : bool :=
  ((48 <=? c) && (c <=? 57) || (65 <=? c) && (c <=? 90)
   || (97 <=? c) && (c <=? 122))%N.

Definition ascii_space (c : N) : bool :=
  ((9 <=? c) && (c <=? 13) || (28 <=? c) && (c <=? 32))%N.

Definition ascii_lower (s : pystr) : pystr :=
  (λ c, if ((65 <=? c) && (c <=? 90))%N then (c + 32)%N else c) <$> s.

Definition leap (y : Z) : bool :=
  (y mod 4 =? 0) && (negb (y mod 100 =? 0) || (y mod 400 =? 0)).

Definition days_in_month (y m : Z) : Z :=
  if m =? 2 then (if leap y then 29 else 28)
  else if (m =? 4) || (m =? 6) || (m =? 9) || (m =? 11) then 30
  else 31.

(** The day number of a civil date, counted from 1970-01-01. *)
Definition days_from_civil (y m d : Z) : Z :=
  let y' := if m <=? 2 then y - 1 else y in
  let era := y' / 400 in
  let yoe := y' - era * 400 in
  let mp := if 2 <? m then m - 3 else m + 9 in
  let doy := (153 * mp + 2) / 5 + d - 1 in
  let doe := yoe * 365 + yoe / 4 - yoe / 100 + doy in
  era * 146097 + doe - 719468.

Definition civil (y m d : Z) : option Timestamp :=
  if (1 <=? m) && (m <=? 12) && (1 <=? d) && (d <=? days_in_month y m)
  then Some {| ts_day := days_from_civil y m d; ts_nanos := 0 |}
  else None.

Definition yyyymmdd (z : Z) : option Timestamp :=
  if (10000101 <=? z) && (z <=? 99991231)
  then civil (z / 10000) (z / 100 mod 100) (z mod 100)
  else None.

Definition digits (s : pystr) : option Z :=
  foldl (λ acc c, a ← acc;
                  if ((48 <=? c) && (c <=? 57))%N
                  then Some (10 * a + (Z.of_N c - 48)) else None)
        (Some 0) s.

(** Dates written [YYYYMMDD] (a number or a string) under a format, and
    [YYYY-MM-DD] without one. *)
Definition ascii_to_datetime (fmt : option string) (v : cell) : option Timestamp :=
  match fmt, v with
  | _, VTime t => Some t
  | Some _, VInt z => yyyymmdd z
  | Some _, VStr s => if decide (length s = 8%nat) then digits s ≫= yyyymmdd else None
  | None, VStr [y1; y2; y3; y4; 45%N; m1; m2; 45%N; d1; d2] =>
      y ← digits [y1; y2; y3; y4]; m ← digits [m1; m2]; d ← digits [d1; d2];
      civil y m d
  | _, _ => None
  end.

Definition key_le (keys : list Z) (i j : nat) : Prop := nth i keys 0 ≤ nth j keys 0.

Global Instance key_le_dec keys i j : Decision (key_le keys i j).
Proof. unfold key_le. apply _. Defined.

(** A stable sort of the positions. *)
Definition ascii_argsort (keys : list Z) : list nat :=
  merge_sort (key_le keys) (seq 0 (length keys)).

Definition ascii_runtime : Runtime :=
  {| is_alnum := ascii_alnum; is_space := ascii_space; str_lower := ascii_lower;
     to_datetime := ascii_to_datetime; argsort := ascii_argsort |}.

(* ================================================================== *)
(** ** Vocabulary of the statements *)

Definition is_datetime (v : cell) : bool :=
  match v with VTime _ | VNaT => true | _ => false end.

(** The [datetime.date] of a cell of a datetime column; NaT has none. *)
Definition date_of (v : cell) : option Z :=
  match v with VTime t => Some (ts_day t) | _ => None end.

(** [label] is a column of [df] and holds timestamps and NaT only. *)
Definition datetime_column (df : DataFrame) (label : string) : Prop :=
  label ∈ df_columns df ∧
  Forall (λ r, is_datetime (cell_at label r) = true) (df_rows df).

(** The four tables have the columns the filter block reads. *)
Definition filter_ready (trend blog shop news : DataFrame) : Prop :=
  "target_keyword" ∈ df_columns trend ∧ datetime_column trend "period" ∧
  "target_keyword" ∈ df_columns blog ∧ datetime_column blog "postdate" ∧
  "target_keyword" ∈ df_columns news ∧ "target_keyword" ∈ df_columns shop.

Definition keyword_selected (selected : list pystr) (r : gmap string cell) : bool :=
  bool_decide (cell_at "target_keyword" r ∈ VStr <$> selected).

Definition in_range (label : string) (a b : Z) (r : gmap string cell) : bool :=
  match date_of (cell_at label r) with
  | Some d => bool_decide (a ≤ d) && bool_decide (d ≤ b)
  | None => false
  end.

(** What the two filters compute, when they do not raise. *)
Definition kept_by_keyword (df : DataFrame) (selected : list pystr) : DataFrame :=
  {| df_columns := df_columns df;
     df_rows := filter (λ r, keyword_selected selected r = true) (df_rows df) |}.

Definition kept_by_keyword_date (df : DataFrame) (label : string)
    (selected : list pystr) (a b : Z) : DataFrame :=
  {| df_columns := df_columns df;
     df_rows := filter (λ r, keyword_selected selected r && in_range label a b r = true)
                       (df_rows df) |}.

(** The tables the tabs are given when nothing is filtered. *)
Definition unfiltered (trend blog shop news : DataFrame) : filtered :=
  {| f_trend := trend; f_blog := blog; f_shop := shop; f_news := news |}.

(** The sentence of the specification on keyword filtering, for one run of
    the script: a record whose keyword is not selected is in none of the
    tables the tabs are given. *)
Definition keyword_filter_claim {rt : Runtime} (files : list (pystr * result DataFrame))
    (ui : session) : Prop :=
  let data := load_and_preprocess_data files in
  ∀ sb f r,
    sidebar (trend_df data) ui = Ok sb →
    filtered_tables files ui = Ok f →
    cell_at "target_keyword" r ∉ VStr <$> selected_keywords sb →
    (r ∈ df_rows (trend_df data) → r ∉ df_rows (f_trend f))
    ∧ (r ∈ df_rows (blog_df data) → r ∉ df_rows (f_blog f))
    ∧ (r ∈ df_rows (shop_df data) → r ∉ df_rows (f_shop f))
    ∧ (r ∈ df_rows (news_df data) → r ∉ df_rows (f_news f)).

(** *** Sample directories *)

Definition jan_2024 (d : Z) : Z := days_from_civil 2024 1 d.

(** A widget state before any interaction, with the date picker at the
    given value. *)
Definition first_run (dates : list Z) : session :=
  {| picked_keywords := None; date_input_value := dates |}.

Definition blog_row (postdate : Z) (blogger title description : string) : gmap string cell :=
  {[ "postdate" := VInt postdate; "bloggername" := VStr (py blogger);
     "title" := VStr (py title); "description" := VStr (py description) ]}.

Definition blog_csv (rows : list (gmap string cell)) : DataFrame :=
  {| df_columns := ["postdate"; "bloggername"; "title"; "description"]; df_rows := rows |}.

Definition trend_csv (rows : list (gmap string cell)) : DataFrame :=
  {| df_columns := ["period"; "ratio"]; df_rows := rows |}.

Definition trend_row (period : string) (ratio : Z) : gmap string cell :=
  {[ "period" := VStr (py period); "ratio" := VInt ratio ]}.

(** A directory with one blog file and nothing else. *)
Definition only_blog_files : list (pystr * result DataFrame) :=
  [(py "blog_aviator_20240101.csv",
    Ok (blog_csv [blog_row 20240101 "kim" "summer shades" "aviator frames for summer"]))].

(** A directory with one trend file and nothing else. *)
Definition only_trend_files : list (pystr * result DataFrame) :=
  [(py "shopping_trend_foo_20240101.csv", Ok (trend_csv [trend_row "2024-01-01" 57]))].

Definition shop_csv (rows : list (gmap string cell)) : DataFrame :=
  {| df_columns := ["lprice"; "brand"]; df_rows := rows |}.

Definition shop_row (lprice : Z) (brand : string) : gmap string cell :=
  {[ "lprice" := VInt lprice; "brand" := VStr (py brand) ]}.

Definition news_csv (rows : list (gmap string cell)) : DataFrame :=
  {| df_columns := ["pubDate"; "title"]; df_rows := rows |}.

Definition news_row (pubDate title : string) : gmap string cell :=
  {[ "pubDate" := VStr (py pubDate); "title" := VStr (py title) ]}.

(** A directory with files of each kind. *)
Definition full_files : list (pystr * result DataFrame) :=
  [(py "shopping_trend_foo_20240101.csv",
    Ok (trend_csv [trend_row "2024-01-01" 57; trend_row "2024-01-05" 60]));
   (py "shopping_trend_bar_20240101.csv",
    Ok (trend_csv [trend_row "2024-01-03" 12]));
   (py "blog_foo_20240101.csv",
    Ok (blog_csv [blog_row 20240101 "kim" "new year" "foo frames for winter";
                  blog_row 20240105 "lee" "review" "foo lens review";
                  blog_row 20240109 "kim" "late" "foo again"]));
   (py "blog_bar_20240101.csv",
    Ok (blog_csv [blog_row 20240103 "park" "bar" "bar frames"]));
   (py "shop_foo_20240101.csv", Ok (shop_csv [shop_row 1000 "acme"]));
   (py "news_bar_20240101.csv", Ok (news_csv [news_row "2024-01-02" "bar in the news"]))].

(** A text that is missing, empty or made of blanks only. *)
Definition blank_text {rt : Runtime} (v : cell) : bool :=
  match v with
  | VStr s => forallb is_space s
  | VNaN | VNaT => true
  | _ => false
  end.









(** The brands of a shop table, the values of its brand column that are not
    missing, and the number of rows of a brand. *)
Definition brands_of (shop : DataFrame) : list cell :=
  uniq (filter (λ v, isna v = false) (cell_at "brand" <$> df_rows shop)).

Definition brand_rows (shop : DataFrame) (b : cell) : Z :=
  count_of b (cell_at "brand" <$> df_rows shop).

(** Eleven brands, no two with as many rows, and a shop file holding
    them. *)
Definition eleven_brands : list (string * nat) :=
  [("acme", 12%nat); ("bolt", 8%nat); ("coast", 3%nat); ("dune", 5%nat);
   ("echo", 1%nat); ("fjord", 7%nat); ("glint", 2%nat); ("halo", 9%nat);
   ("iris", 4%nat); ("jade", 6%nat); ("kite", 10%nat)].

Definition eleven_brand_table : DataFrame :=
  shop_csv (eleven_brands ≫= λ bn, replicate bn.2 (shop_row 1000 bn.1)).

(** The occurrences of a term in a collection of analyzed documents (its
    term frequency), and the documents it occurs in (its document
    frequency). *)
Definition occurrences (t : pystr) (docs : list (list pystr)) : Z :=
  sum_Z ((λ d, count_of t d) <$> docs).

Definition containing (t : pystr) (docs : list (list pystr)) : Z :=
  Z.of_nat (length (filter (λ d, t ∈ d) docs)).

(** [kept] are [k] terms of the vocabulary of [docs], or all of it when it
    has fewer, and no term left out has a larger [measure] than a term
    kept. *)
Definition highest_by {rt : Runtime} (measure : pystr → list (list pystr) → Z)
    (k : nat) (docs : list pystr) (kept : list pystr) : Prop :=
  let analyzed := analyze <$> docs in
  let vocabulary := first_seen analyzed in
  (∀ t, t ∈ kept → t ∈ vocabulary)
  ∧ length kept = (k `min` length vocabulary)%nat
  ∧ ∀ t u, t ∈ kept → u ∈ vocabulary → u ∉ kept → measure u analyzed ≤ measure t analyzed.

(** The sentence of the specification on the vocabulary cut: the terms kept
    are those of highest document frequency. *)
Definition document_frequency_claim {rt : Runtime} (k : nat) (docs : list pystr) : Prop :=
  ∀ X kept, count_fit_transform k docs = Ok (X, kept) → highest_by containing k docs kept.

(** *** Sample texts *)

Definition sample_descriptions : list cell :=
  [VStr (py "Round sunglasses for summer"); VNaN;
   VStr (py "summer sale: sunglasses, sunglasses and more"); VStr (py "a b c")].

(** [aa] occurs three times in one document, [bb] once in each of two. *)
Definition skewed_documents : list pystr := [py "aa aa aa"; py "bb"; py "cc bb"].

(* ================================================================== *)
(** ** Vocabulary of the further properties *)

(** The date column the loader parses in a file of a category. *)
Definition date_label (c : category) : option string :=
  match c with
  | Blog => Some "postdate"
  | Trend => Some "period"
  | News => Some "pubDate"
  | Shop => None
  end.

(** Every row carries a keyword, a string, in a column of the frame. *)
Definition labelled (df : DataFrame) : Prop :=
  "target_keyword" ∈ df_columns df ∧
  Forall (λ r, ∃ k, cell_at "target_keyword" r = VStr k) (df_rows df).

(** A frame as the loader appends it to the list of category [c]. *)
Definition well_loaded (c : category) (df : DataFrame) : Prop :=
  labelled df ∧
  match date_label c with
  | Some label => datetime_column df label
  | None => True
  end.

(** The four tables of a loader state, without the errors. *)
Definition frames_of (st : load_state) (c : category) : list DataFrame :=
  match c with
  | Blog => blog_list st
  | Shop => shop_list st
  | Trend => trend_list st
  | News => news_list st
  end.

Definition table_of (d : loaded) (c : category) : DataFrame :=
  match c with
  | Blog => blog_df d
  | Shop => shop_df d
  | Trend => trend_df d
  | News => news_df d
  end.

(** The prefix a file name of a category starts with. *)
Definition prefix_of_category (c : category) : pystr :=
  match c with
  | Blog => py "blog_"
  | Trend => py "shopping_trend_"
  | Shop => py "shop_"
  | News => py "news_"
  end.

(** None of the four markers of the two chains occurs in [s]. *)
Definition marker_free (s : pystr) : Prop :=
  contains (py "blog_") s = false ∧ contains (py "shopping_trend") s = false
  ∧ contains (py "shop_") s = false ∧ contains (py "news_") s = false.

(** Two loader states, one after the other. *)
Definition merge_states (a b : load_state) : load_state :=
  {| blog_list := blog_list a ++ blog_list b;
     shop_list := shop_list a ++ shop_list b;
     trend_list := trend_list a ++ trend_list b;
     news_list := news_list a ++ news_list b;
     load_errors := load_errors a ++ load_errors b |}.

(** A shop file with two brands and a row without brand. *)
Definition few_brand_table : DataFrame :=
  shop_csv [shop_row 1000 "acme"; {[ "lprice" := VInt 700 ]};
            shop_row 900 "bolt"; shop_row 950 "acme"].

(** A cell the ranking can read: a string, or a missing value, which
    [fillna('')] turns into the empty string. *)
Definition text_or_missing (v : cell) : bool :=
  match v with
  | VStr _ | VNaN | VNaT => true
  | _ => false
  end.

Definition text_of (v : cell) : pystr :=
  match v with VStr s => s | _ => [] end.

(* ================================================================== *)
(** ** The table of the latest posts (line 138)

    [f_blog[[...]].sort_values('postdate', ascending=False).head(20)].
    The loader has made [postdate] a datetime64 column (line 42), and
    [sort_values] orders such a column by its integers, through
    [nargsort]. *)

(** The integer of a timestamp: the nanoseconds since the epoch. *)
Definition ts_value (t : Timestamp) : Z := ts_day t * 86400000000000 + ts_nanos t.

(** A cell of a datetime64 column: its integer, or [None] for NaT.  Other
    cells do not belong to such a column. *)
Definition datetime_value (v : cell) : option (option Z) :=
  match v with
  | VTime t => Some (Some (ts_value t))
  | VNaT => Some None
  | _ => None
  end.

Definition datetime_values (s : list cell) : option (list (option Z)) :=
  mapM datetime_value s.

(** [nargsort(items, kind='quicksort', ascending=False, na_position='last')]:
    the values that are not missing are taken in reverse, sorted by
    [argsort], and the outcome reversed; the positions of the missing values
    come last. *)
Definition nargsort_descending {rt : Runtime} (items : list (option Z)) : list nat :=
  let mask := (λ v, bool_decide (v = None)) <$> items in
  let non_nan_idx := reverse (where_ (negb <$> mask)) in
  let non_nans := (λ i, default 0 (nth i items None)) <$> non_nan_idx in
  let indexer := reverse ((λ p, nth p non_nan_idx O) <$> argsort non_nans) in
  indexer ++ where_ mask.

(** [df.take(indexer)]: the rows at the positions of [indexer]. *)
Definition df_take (df : DataFrame) (indexer : list nat) : DataFrame :=
  {| df_columns := df_columns df;
     df_rows := (λ i, nth i (df_rows df) ∅) <$> indexer |}.

(** [df.head(n)] *)
Definition df_head (n : nat) (df : DataFrame) : DataFrame :=
  {| df_columns := df_columns df; df_rows := take n (df_rows df) |}.

(** [df.sort_values(label, ascending=False)] on a datetime64 column.  The
    answer is [None] for a column of another kind, whose order is not
    described here. *)
Definition sort_values_descending {rt : Runtime} (df : DataFrame) (label : string)
    : result (option DataFrame) :=
  col ← getitem df label;
  Ok (match datetime_values col with
      | Some items => Some (df_take df (nargsort_descending items))
      | None => None
      end).

Definition latest_posts {rt : Runtime} (blog : DataFrame) : result (option DataFrame) :=
  chosen ← getitems blog ["postdate"; "bloggername"; "title"; "target_keyword"];
  ordered ← sort_values_descending chosen "postdate";
  Ok (match ordered with
      | Some table => Some (df_head 20 table)
      | None => None
      end).

(** [a] may stand above [b] in a table of the latest first: [b] has no date,
    or both have one and the one of [a] is not the earlier. *)
Definition not_older (a b : cell) : Prop :=
  match b with
  | VNaT => True
  | VTime y => match a with VTime x => ts_value y ≤ ts_value x | _ => False end
  | _ => False
  end.

(** The same on the integers of a datetime64 column. *)
Definition not_less (a b : option Z) : Prop :=
  match b with
  | None => True
  | Some y => match a with Some x => y ≤ x | None => False end
  end.

(** Five posts, two of a day and one without date. *)
Definition dated_post (day : option Z) (blogger : string) : gmap string cell :=
  {[ "postdate" := match day with
                   | Some d => VTime {| ts_day := d; ts_nanos := 0 |}
                   | None => VNaT
                   end;
     "bloggername" := VStr (py blogger); "title" := VStr (py "frames");
     "description" := VStr (py "round frames");
     "target_keyword" := VStr (py "foo") ]}.

Definition five_posts : DataFrame :=
  {| df_columns := ["postdate"; "bloggername"; "title"; "description"; "target_keyword"];
     df_rows := [dated_post (Some 19724) "kim"; dated_post None "lee";
                 dated_post (Some 19730) "park"; dated_post (Some 19724) "choi";
                 dated_post (Some 19700) "kim"] |}.


(* ================================================================== *)
(** * Properties *)

(** ** The error monad *)

Lemma bind_Ok {A B} (a : A) (f : A → result B) : Ok a ≫= f = f a.
Proof. done. Qed.

Lemma bind_Ok_inv {A B} (m : result A) (f : A → result B) b :
  m ≫= f = Ok b → ∃ a, m = Ok a ∧ f a = Ok b.
Proof. destruct m; simpl; [eauto | done]. Qed.

Ltac bind_inv H :=
  let a := fresh "a" in
  let Ha := fresh "Ha" in
  apply bind_Ok_inv in H as (a & Ha & H).

(** ** Strings and file names *)

Lemma startswith_app a b s : startswith (a ++ b) s = true → startswith a s = true.
Proof.
  revert s; induction a as [|x a IH]; intros [|y s]; simpl; try done.
  rewrite !andb_true_iff. intros [? ?]; split; auto.
Qed.

Lemma contains_app a b s : contains (a ++ b) s = true → contains a s = true.
Proof.
  induction s as [|y s IH]; simpl.
  - rewrite !orb_false_r. apply startswith_app.
  - rewrite !orb_true_iff. intros [?|?]; [left; by eapply startswith_app | right; auto].
Qed.

Example keyword_of_blog_file :
  keyword_of (py "blog_sunglasses_20240101.csv") = Some (py "sunglasses").
Proof. by vm_compute. Qed.

Example keyword_with_underscore :
  keyword_of (py "shop_cat_eye_20240101.csv") = Some (py "cat_eye").
Proof. by vm_compute. Qed.

Example other_file_skipped : keyword_of (py "readme.csv") = None.
Proof. by vm_compute. Qed.

Example tokens_of_a_line :
  analyze (rt := ascii_runtime) (py "Ray-Ban x UV400, a b cc_d")
  = [py "ray"; py "ban"; py "uv400"; py "cc_d"].
Proof. by vm_compute. Qed.

Section Loader.
Context {rt : Runtime}.

Lemma preprocess_category filename keyword csv c df :
  preprocess filename keyword csv = Ok (Some (c, df)) → category_of filename = Some c.
Proof.
  unfold preprocess. destruct csv as [d|]; simpl; [|done].
  destruct (category_of filename) as [[]|]; simpl; last done;
  try (destruct (parse_column _ _ _); simpl); congruence.
Qed.

Lemma load_file_cases st f :
  load_file st f = st
  ∨ (∃ e, load_file st f = report_error f.1 e st)
  ∨ (∃ c df, category_of f.1 = Some c ∧ load_file st f = append_to c df st).
Proof.
  unfold load_file. destruct (keyword_of f.1); [|by left].
  destruct (preprocess _ _ _) as [[[c df]|]|e] eqn:E; [|by left|right; left; eauto].
  right; right. exists c, df. split; [by eapply preprocess_category|done].
Qed.

(** A file [pd.read_csv] fails on is reported and skipped. *)
Lemma unreadable_file_reported st filename keyword :
  keyword_of filename = Some keyword →
  load_file st (filename, Raise ReadError) = report_error filename ReadError st.
Proof. intros Hk. unfold load_file. simpl. by rewrite Hk. Qed.

Lemma shopping_trend_not_shop filename :
  contains (py "shopping_trend_") filename = true → category_of filename ≠ Some Shop.
Proof.
  intros Hc. unfold category_of.
  destruct (contains (py "blog_") filename); [done|].
  rewrite (contains_app (py "shopping_trend") (py "_") filename Hc). done.
Qed.

(** C5. The file [shopping_trend_foo_20240101.csv] has keyword [foo] and goes
    to the trend list, never to the shop list; more generally a name holding
    [shopping_trend_] is never a shop file and, unless it also holds [blog_],
    is a trend file; and one turn of the loop leaves the lists as they are,
    reports an error, or appends one frame to the one list its name
    selects. *)
Theorem shopping_trend_precedes_shop :
  keyword_of (py "shopping_trend_foo_20240101.csv") = Some (py "foo")
  ∧ category_of (py "shopping_trend_foo_20240101.csv") = Some Trend
  ∧ (∀ st csv,
       shop_list (load_file st (py "shopping_trend_foo_20240101.csv", csv)) = shop_list st)
  ∧ (∀ st df df',
       parse_column (setitem_scalar df "target_keyword" (VStr (py "foo"))) "period" None
         = Ok df' →
       load_file st (py "shopping_trend_foo_20240101.csv", Ok df) = append_to Trend df' st)
  ∧ (∀ filename, contains (py "shopping_trend_") filename = true →
       category_of filename ≠ Some Shop
       ∧ (contains (py "blog_") filename = false →
          category_of filename = Some Trend
          ∧ keyword_of filename =
              Some (rsplit1_head underscore (replace (py "shopping_trend_") [] filename))))
  ∧ (∀ st f, load_file st f = st
             ∨ (∃ e, load_file st f = report_error f.1 e st)
             ∨ (∃ c df, category_of f.1 = Some c ∧ load_file st f = append_to c df st)).
Proof.
  split; [by vm_compute|]. split; [by vm_compute|].
  split.
  { intros st csv.
    destruct (load_file_cases st (py "shopping_trend_foo_20240101.csv", csv))
      as [->|[[e ->]|(c & df & Hc & ->)]]; try done.
    simpl in Hc. assert (c = Trend) as -> by (vm_compute in Hc; congruence). done. }
  split.
  { intros st df df' Hp. unfold load_file. simpl fst. simpl snd.
    assert (keyword_of (py "shopping_trend_foo_20240101.csv") = Some (py "foo")) as ->
      by (by vm_compute).
    unfold preprocess. rewrite bind_Ok. cbv zeta.
    assert (category_of (py "shopping_trend_foo_20240101.csv") = Some Trend) as ->
      by (by vm_compute).
    by rewrite Hp. }
  split; [|apply load_file_cases].
  intros filename Hc. split; [by apply shopping_trend_not_shop|].
  intros Hb. unfold category_of, keyword_of. rewrite Hb, Hc.
  by rewrite (contains_app (py "shopping_trend") (py "_") filename Hc).
Qed.

End Loader.

(** ** Masks and row selection *)

Lemma select_fmap df (p : gmap string cell → bool) :
  select df (p <$> df_rows df)
  = {| df_columns := df_columns df; df_rows := filter (λ r, p r = true) (df_rows df) |}.
Proof.
  unfold select. f_equal.
  induction (df_rows df) as [|r l IH]; [done|].
  cbn [fmap list_fmap zip zip_with]. rewrite !filter_cons. simpl.
  destruct (decide (p r = true)); simpl; by rewrite <- IH.
Qed.

Lemma mask_and_fmap {A} (p q : A → bool) (l : list A) :
  mask_and (p <$> l) (q <$> l) = (λ x, p x && q x) <$> l.
Proof. unfold mask_and. induction l; simpl; [done|]. by f_equal. Qed.

Lemma dt_date_inv s ds :
  dt_date s = Ok ds → forallb is_datetime s = true ∧ ds = date_of <$> s.
Proof.
  revert ds; induction s as [|v s IH]; intros ds; simpl.
  - by intros [= <-].
  - destruct v; try done; intros H; bind_inv H; injection H as <-;
      destruct (IH _ Ha) as [-> ->]; done.
Qed.

Lemma dt_date_Ok s : forallb is_datetime s = true → dt_date s = Ok (date_of <$> s).
Proof.
  induction s as [|v s IH]; simpl; [done|].
  rewrite andb_true_iff. intros [Hv Hs]. rewrite (IH Hs).
  destruct v; done.
Qed.

Lemma getitem_Ok df label :
  label ∈ df_columns df → getitem df label = Ok (cell_at label <$> df_rows df).
Proof. intros. unfold getitem. by rewrite decide_True. Qed.

Lemma getitem_inv df label s :
  getitem df label = Ok s → label ∈ df_columns df ∧ s = cell_at label <$> df_rows df.
Proof. unfold getitem. case_decide; [|done]. by intros [= <-]. Qed.

Lemma datetime_column_forallb df label :
  datetime_column df label ↔
  label ∈ df_columns df ∧ forallb is_datetime (cell_at label <$> df_rows df) = true.
Proof.
  unfold datetime_column. rewrite forallb_forall, Forall_forall.
  split; intros [? H]; split; try done.
  - intros v Hv%list_elem_of_In. apply list_elem_of_fmap in Hv as (r & -> & Hr). auto.
  - intros r Hr. apply H, list_elem_of_In, list_elem_of_fmap. eauto.
Qed.

Lemma filter_keyword_spec df selected f :
  filter_keyword df selected = Ok f ↔
  "target_keyword" ∈ df_columns df ∧ f = kept_by_keyword df selected.
Proof.
  unfold filter_keyword, kept_by_keyword. split.
  - intros H. bind_inv H. apply getitem_inv in Ha as [? ->]. injection H as <-.
    split; [done|]. unfold isin. rewrite <- list_fmap_compose. apply select_fmap.
  - intros [Hc ->]. rewrite (getitem_Ok _ _ Hc), bind_Ok.
    unfold isin. rewrite <- list_fmap_compose. f_equal. apply select_fmap.
Qed.

Lemma date_masks df label selected a b :
  mask_and (mask_and (isin (cell_at "target_keyword" <$> df_rows df) (VStr <$> selected))
                     (date_ge (date_of <$> (cell_at label <$> df_rows df)) a))
           (date_le (date_of <$> (cell_at label <$> df_rows df)) b)
  = (λ r, keyword_selected selected r && in_range label a b r) <$> df_rows df.
Proof.
  unfold isin, date_ge, date_le. rewrite <- !list_fmap_compose.
  rewrite !mask_and_fmap. apply list_fmap_ext. intros _ r _. simpl.
  unfold keyword_selected, in_range. destruct (date_of _); simpl.
  - by rewrite andb_assoc.
  - by rewrite !andb_false_r.
Qed.

Lemma filter_keyword_date_spec df label selected a b f :
  filter_keyword_date df label selected a b = Ok f ↔
  "target_keyword" ∈ df_columns df ∧ datetime_column df label
  ∧ f = kept_by_keyword_date df label selected a b.
Proof.
  unfold filter_keyword_date, kept_by_keyword_date. rewrite datetime_column_forallb. split.
  - intros H. apply bind_Ok_inv in H as (kw & Hkw & H).
    apply getitem_inv in Hkw as [? ->].
    apply bind_Ok_inv in H as (d1 & Hd1 & H).
    apply bind_Ok_inv in Hd1 as (c1 & Hc1 & Hd1).
    apply getitem_inv in Hc1 as [? ->]. apply dt_date_inv in Hd1 as [? ->].
    apply bind_Ok_inv in H as (d2 & Hd2 & H).
    apply bind_Ok_inv in Hd2 as (c2 & Hc2 & Hd2).
    apply getitem_inv in Hc2 as [? ->]. apply dt_date_inv in Hd2 as [? ->].
    injection H as <-.
    repeat split; try done. rewrite date_masks. apply select_fmap.
  - intros (Hk & [Hl Hd] & ->).
    rewrite (getitem_Ok _ _ Hk), bind_Ok, (getitem_Ok _ _ Hl), !bind_Ok.
    rewrite (dt_date_Ok _ Hd), !bind_Ok. rewrite date_masks. f_equal. apply select_fmap.
Qed.

(** ** The filter block *)

Lemma filter_block_active trend blog shop news selected a b f :
  filter_block trend blog shop news selected [a; b] = Ok f ↔
  filter_ready trend blog shop news
  ∧ f = {| f_trend := kept_by_keyword_date trend "period" selected a b;
           f_blog := kept_by_keyword_date blog "postdate" selected a b;
           f_shop := kept_by_keyword shop selected;
           f_news := kept_by_keyword news selected |}.
Proof.
  unfold filter_block, filter_ready. split.
  - intros H.
    apply bind_Ok_inv in H as (ft & Hft & H). apply filter_keyword_date_spec in Hft.
    apply bind_Ok_inv in H as (fb & Hfb & H). apply filter_keyword_date_spec in Hfb.
    apply bind_Ok_inv in H as (fn & Hfn & H). apply filter_keyword_spec in Hfn.
    apply bind_Ok_inv in H as (fs & Hfs & H). apply filter_keyword_spec in Hfs.
    injection H as <-.
    destruct Hft as (? & ? & ->), Hfb as (? & ? & ->), Hfn as (? & ->), Hfs as (? & ->).
    done.
  - intros ((? & ? & ? & ? & ? & ?) & ->).
    rewrite (proj2 (filter_keyword_date_spec trend "period" selected a b _)) by done.
    rewrite bind_Ok.
    rewrite (proj2 (filter_keyword_date_spec blog "postdate" selected a b _)) by done.
    rewrite bind_Ok.
    rewrite (proj2 (filter_keyword_spec news selected _)) by done.
    rewrite bind_Ok.
    rewrite (proj2 (filter_keyword_spec shop selected _)) by done.
    by rewrite bind_Ok.
Qed.

Lemma filter_block_inactive trend blog shop news selected dr :
  length dr ≠ 2%nat →
  filter_block trend blog shop news selected dr = Ok (unfiltered trend blog shop news).
Proof. destruct dr as [|a [|b [|c dr]]]; simpl; done. Qed.

Lemma keyword_selected_true selected r :
  keyword_selected selected r = true ↔ cell_at "target_keyword" r ∈ VStr <$> selected.
Proof. unfold keyword_selected. by rewrite bool_decide_eq_true. Qed.

(** C6, as amended. While a date range of two dates is active, a record
    whose keyword is not selected is in none of the four filtered tables,
    whatever its date. *)
Theorem unselected_keyword_excluded trend blog shop news selected a b f r :
  filter_block trend blog shop news selected [a; b] = Ok f →
  cell_at "target_keyword" r ∉ VStr <$> selected →
  (r ∉ df_rows (f_trend f)) ∧ (r ∉ df_rows (f_blog f))
  ∧ (r ∉ df_rows (f_shop f)) ∧ (r ∉ df_rows (f_news f)).
Proof.
  intros [_ ->]%filter_block_active Hr. simpl.
  repeat split; intros [Hk _]%list_elem_of_filter; apply Hr, keyword_selected_true;
    try done; by apply andb_true_iff in Hk as [? _].
Qed.

(** C7. With the columns the filter block reads in place and a range
    [start_date, end_date], the block returns, and a record of the trend
    table (by its period) or of the blog table (by its postdate) with a
    selected keyword and dated exactly [start_date] or exactly [end_date] is
    in the filtered table. *)
Theorem date_range_inclusive trend blog shop news selected start_date end_date :
  filter_ready trend blog shop news →
  start_date ≤ end_date →
  ∃ f, filter_block trend blog shop news selected [start_date; end_date] = Ok f
    ∧ ∀ r k t,
        cell_at "target_keyword" r = VStr k → k ∈ selected →
        ts_day t = start_date ∨ ts_day t = end_date →
        (r ∈ df_rows trend → cell_at "period" r = VTime t → r ∈ df_rows (f_trend f))
        ∧ (r ∈ df_rows blog → cell_at "postdate" r = VTime t → r ∈ df_rows (f_blog f)).
Proof.
  intros Hready Hle. eexists. split.
  { apply filter_block_active. split; [done|reflexivity]. }
  intros r k t Hk Hsel Ht. simpl.
  assert (keyword_selected selected r = true) as Hks.
  { apply keyword_selected_true. rewrite Hk. apply list_elem_of_fmap. eauto. }
  split; intros Hr Hd; apply list_elem_of_filter; (split; [|done]);
    rewrite Hks; unfold in_range; rewrite Hd; simpl;
    rewrite andb_true_iff, !bool_decide_eq_true; lia.
Qed.

(** ** The sidebar *)

Lemma sidebar_empty_trend trend ui :
  empty trend = true →
  sidebar trend ui
  = Ok {| offered_keywords := []; selected_keywords := []; date_range := [] |}.
Proof.
  intros He. unfold sidebar, all_keywords. rewrite He. simpl.
  unfold multiselect. destruct (picked_keywords ui) as [l|]; [|done].
  do 2 f_equal. induction l as [|k l IH]; [done|].
  rewrite filter_cons. rewrite decide_False; [done|]. by intros ?%elem_of_nil.
Qed.

(** C10. When the trend table is empty, the sidebar offers no keyword, none
    is selected, the date range is empty, and the four tables reach the tabs
    as they were loaded, whatever the widgets hold. *)
Theorem empty_trend_disables_filtering {rt : Runtime}
    (files : list (pystr * result DataFrame)) (ui : session) :
  let data := load_and_preprocess_data files in
  empty (trend_df data) = true →
  sidebar (trend_df data) ui
    = Ok {| offered_keywords := []; selected_keywords := []; date_range := [] |}
  ∧ filtered_tables files ui
    = Ok (unfiltered (trend_df data) (blog_df data) (shop_df data) (news_df data))
  ∧ ∀ selected,
      filter_block (trend_df data) (blog_df data) (shop_df data) (news_df data) selected []
      = Ok (unfiltered (trend_df data) (blog_df data) (shop_df data) (news_df data)).
Proof.
  intros data He. split; [by apply sidebar_empty_trend|]. split; [|done].
  unfold filtered_tables. fold data. by rewrite (sidebar_empty_trend _ _ He).
Qed.

(** ** Runs on the sample directories *)

Ltac by_computation := apply (bool_decide_unpack _); vm_compute; exact I.

Lemma full_files_ready :
  let data := load_and_preprocess_data (rt := ascii_runtime) full_files in
  filter_ready (trend_df data) (blog_df data) (shop_df data) (news_df data).
Proof. unfold filter_ready, datetime_column. by_computation. Qed.

Lemma unselected_keyword_excluded_witness :
  let data := load_and_preprocess_data (rt := ascii_runtime) full_files in
  let f := {| f_trend := kept_by_keyword_date (trend_df data) "period" [py "foo"] (jan_2024 1) (jan_2024 5);
              f_blog := kept_by_keyword_date (blog_df data) "postdate" [py "foo"] (jan_2024 1) (jan_2024 5);
              f_shop := kept_by_keyword (shop_df data) [py "foo"];
              f_news := kept_by_keyword (news_df data) [py "foo"] |} in
  let r := default ∅ (df_rows (blog_df data) !! 3%nat) in
  filter_block (trend_df data) (blog_df data) (shop_df data) (news_df data)
               [py "foo"] [jan_2024 1; jan_2024 5] = Ok f
  ∧ cell_at "target_keyword" r = VStr (py "bar")
  ∧ r ∈ df_rows (blog_df data)
  ∧ (r ∉ df_rows (f_trend f)) ∧ (r ∉ df_rows (f_blog f))
  ∧ (r ∉ df_rows (f_shop f)) ∧ (r ∉ df_rows (f_news f)).
Proof.
  intros data f r.
  assert (filter_block (trend_df data) (blog_df data) (shop_df data) (news_df data)
                       [py "foo"] [jan_2024 1; jan_2024 5] = Ok f) as Hf
    by (apply filter_block_active; split; [apply full_files_ready|done]).
  split; [exact Hf|]. split; [by vm_compute|]. split; [by_computation|].
  apply (unselected_keyword_excluded _ _ _ _ _ _ _ _ r Hf). by_computation.
Defined.

(** C6, as the specification words it, fails: in a directory with blog files
    only nothing can be selected, and every blog record reaches the blog
    tab. *)
Lemma keyword_filter_claim_fails :
  ¬ keyword_filter_claim (rt := ascii_runtime) only_blog_files (first_run []).
Proof.
  intros Hclaim. red in Hclaim.
  set (data := load_and_preprocess_data (rt := ascii_runtime) only_blog_files) in *.
  set (r := default ∅ (df_rows (blog_df data) !! 0%nat)).
  destruct (Hclaim {| offered_keywords := []; selected_keywords := []; date_range := [] |}
                   (unfiltered (trend_df data) (blog_df data) (shop_df data) (news_df data))
                   r) as (_ & Hblog & _).
  - by vm_compute.
  - by vm_compute.
  - simpl. apply not_elem_of_nil.
  - apply Hblog; by_computation.
Qed.

Lemma date_range_inclusive_witness :
  let data := load_and_preprocess_data (rt := ascii_runtime) full_files in
  filter_ready (trend_df data) (blog_df data) (shop_df data) (news_df data)
  ∧ jan_2024 1 ≤ jan_2024 5
  ∧ ∃ f, filter_block (trend_df data) (blog_df data) (shop_df data) (news_df data)
                      [py "foo"] [jan_2024 1; jan_2024 5] = Ok f
      ∧ ∀ r k t,
          cell_at "target_keyword" r = VStr k → k ∈ [py "foo"] →
          ts_day t = jan_2024 1 ∨ ts_day t = jan_2024 5 →
          (r ∈ df_rows (trend_df data) → cell_at "period" r = VTime t →
           r ∈ df_rows (f_trend f))
          ∧ (r ∈ df_rows (blog_df data) → cell_at "postdate" r = VTime t →
             r ∈ df_rows (f_blog f)).
Proof.
  intros data. split; [apply full_files_ready|]. split; [by vm_compute|].
  apply date_range_inclusive; [apply full_files_ready|by vm_compute].
Defined.

Lemma empty_trend_disables_filtering_witness :
  let data := load_and_preprocess_data (rt := ascii_runtime) only_blog_files in
  empty (trend_df data) = true
  ∧ sidebar (trend_df data) (first_run [jan_2024 1; jan_2024 5])
    = Ok {| offered_keywords := []; selected_keywords := []; date_range := [] |}
  ∧ filtered_tables (rt := ascii_runtime) only_blog_files (first_run [jan_2024 1; jan_2024 5])
    = Ok (unfiltered (trend_df data) (blog_df data) (shop_df data) (news_df data))
  ∧ ∀ selected,
      filter_block (trend_df data) (blog_df data) (shop_df data) (news_df data) selected []
      = Ok (unfiltered (trend_df data) (blog_df data) (shop_df data) (news_df data)).
Proof.
  intros data. split; [by vm_compute|].
  apply (empty_trend_disables_filtering (rt := ascii_runtime) only_blog_files).
  by vm_compute.
Defined.

(** ** A category without files *)

Lemma filter_empty_frame_raises label selected a b :
  filter_keyword_date empty_frame label selected a b = Raise (KeyError "target_keyword").
Proof. done. Qed.

(** C1. In a directory with trend files only, the blog table is
    [pd.DataFrame()]; on the first run the date picker holds two dates and
    the filter block raises [KeyError: 'target_keyword'] on the blog table,
    so the script stops before any tab is drawn.  Under a range of two dates
    the block raises whenever one of the tables is [pd.DataFrame()].  The
    notice of the blog tab is what an empty table would get, had it reached
    the tab. *)
Theorem missing_category_breaks_filter :
  blog_df (load_and_preprocess_data (rt := ascii_runtime) only_trend_files) = empty_frame
  ∧ dashboard (rt := ascii_runtime) only_trend_files (first_run [jan_2024 1; jan_2024 1])
    = Raise (KeyError "target_keyword")
  ∧ (∀ trend blog shop news selected a b,
       trend = empty_frame ∨ blog = empty_frame ∨ shop = empty_frame ∨ news = empty_frame →
       ∃ e, filter_block trend blog shop news selected [a; b] = Raise e)
  ∧ (∀ rt : Runtime, tab2 empty_frame = Ok (Info NoData)).
Proof.
  split; [by vm_compute|]. split; [by vm_compute|]. split; [|done].
  intros trend blog shop news selected a b Hempty.
  destruct (filter_block trend blog shop news selected [a; b]) as [f|e] eqn:E; [|eauto].
  apply filter_block_active in E as [(Ht & _ & Hb & _ & Hn & Hs) _].
  destruct Hempty as [->|[->|[->| ->]]]; simpl in *;
    [by apply elem_of_nil in Ht | by apply elem_of_nil in Hb
    | by apply elem_of_nil in Hs | by apply elem_of_nil in Hn].
Qed.

(** ** The ASCII runtime keeps the laws *)

Lemma key_le_trans keys : Transitive (key_le keys).
Proof. unfold key_le. intros i j k. lia. Qed.

Lemma key_le_total keys : Total (key_le keys).
Proof. unfold key_le. intros i j. lia. Qed.

Lemma ascii_space_not_word c :
  ascii_space c = true → ascii_alnum c = false ∧ c ≠ underscore.
Proof.
  unfold ascii_space, ascii_alnum, underscore.
  rewrite orb_true_iff, !andb_true_iff, !N.leb_le. intros Hc. split; [|lia].
  apply not_true_is_false. rewrite !orb_true_iff, !andb_true_iff, !N.leb_le. lia.
Qed.

Lemma ascii_lower_blank s :
  forallb ascii_space s = true → forallb ascii_space (ascii_lower s) = true.
Proof.
  induction s as [|c s IH]; [done|]. simpl. rewrite !andb_true_iff.
  intros [Hc Hs]. split; [|auto].
  destruct ((65 <=? c)%N && (c <=? 90)%N) eqn:E; [|done].
  exfalso. revert Hc E. unfold ascii_space.
  rewrite orb_true_iff, !andb_true_iff, !N.leb_le. lia.
Qed.

Global Instance ascii_laws : RuntimeLaws ascii_runtime.
Proof.
  split; simpl.
  - apply ascii_space_not_word.
  - apply ascii_lower_blank.
  - intros keys. apply merge_sort_Permutation.
  - intros keys. unfold ascii_argsort.
    apply (StronglySorted_fmap _ (key_le keys)); [done|].
    apply StronglySorted_merge_sort; [apply key_le_trans|apply key_le_total].
Qed.

(** ** Tokens of blank text *)

Section Ranking.
Context {rt : Runtime} {laws : RuntimeLaws rt}.

Lemma space_is_not_word c : is_space c = true → is_word c = false.
Proof.
  intros [Ha Hu]%space_not_word. unfold is_word. rewrite Ha. simpl.
  by apply N.eqb_neq.
Qed.

Lemma tokens_from_no_word s :
  forallb (λ c, negb (is_word c)) s = true → tokens_from [] s = [].
Proof.
  induction s as [|c s IH]; simpl; [done|].
  rewrite andb_true_iff, negb_true_iff. intros [-> Hs]. by rewrite IH.
Qed.

Lemma analyze_blank doc : forallb is_space doc = true → analyze doc = [].
Proof.
  intros Hb%lower_blank. unfold analyze, tokenize. apply tokens_from_no_word.
  rewrite forallb_forall in *. intros c Hc. by rewrite space_is_not_word by auto.
Qed.

Lemma first_seen_nothing (docs : list (list pystr)) :
  Forall (λ d, d = []) docs → first_seen docs = [].
Proof.
  unfold first_seen. induction 1 as [|d docs -> _ IH]; simpl; done.
Qed.

Lemma documents_blank texts :
  Forall (λ v, blank_text v = true) texts →
  ∃ docs, documents (fillna_str texts) = Ok docs
          ∧ Forall (λ d, forallb is_space d = true) docs.
Proof.
  induction 1 as [|v texts Hv _ (docs & Hd & Hb)]; simpl.
  - by exists [].
  - fold (fillna_str texts). rewrite Hd.
    destruct v; simpl in *; try done; eexists; (split; [done|]); by constructor.
Qed.

Lemma count_fit_transform_blank max_features docs :
  max_features ≠ O →
  Forall (λ d, forallb is_space d = true) docs →
  count_fit_transform max_features docs = Raise (ValueError "empty vocabulary").
Proof.
  intros Hk Hb. unfold count_fit_transform. rewrite decide_False by done.
  rewrite first_seen_nothing; [done|].
  apply Forall_fmap. eapply Forall_impl; [exact Hb|]. intros d. apply analyze_blank.
Qed.

(** C2. For a collection whose texts are all missing, empty or blank (the
    empty collection among them) the ranking raises, the empty-vocabulary
    error whenever the term bound is positive; it returns no ranking; and
    the panel built around it shows the not-enough-data notice. *)
Theorem blank_collection_not_ranked (max_features : nat) (texts : list cell) :
  Forall (λ v, blank_text v = true) texts →
  (∃ e, tfidf_ranking max_features (fillna_str texts) = Raise e)
  ∧ (max_features ≠ O →
     tfidf_ranking max_features (fillna_str texts) = Raise (ValueError "empty vocabulary"))
  ∧ (∀ ranking, tfidf_ranking max_features (fillna_str texts) ≠ Ok ranking)
  ∧ (∀ df label, getitem df label = Ok texts →
       tfidf_panel max_features df label = NotEnoughData).
Proof.
  intros (docs & Hd & Hb)%documents_blank.
  assert (∃ e, tfidf_ranking max_features (fillna_str texts) = Raise e) as [e He].
  { unfold tfidf_ranking. rewrite Hd, bind_Ok.
    destruct (decide (max_features = O)) as [->|Hk]; [by eexists|].
    rewrite count_fit_transform_blank by done. by eexists. }
  split; [by eexists|]. split; [|split].
  - intros Hk. unfold tfidf_ranking. rewrite Hd, bind_Ok.
    by rewrite count_fit_transform_blank.
  - intros ranking. by rewrite He.
  - intros df label Hg. unfold tfidf_panel. by rewrite Hg, bind_Ok, He.
Qed.

End Ranking.

Lemma blank_collection_not_ranked_witness :
  let texts := [VStr (py "   "); VNaN; VStr []; VStr [9%N; 10%N]] in
  Forall (λ v, blank_text (rt := ascii_runtime) v = true) texts
  ∧ tfidf_ranking (rt := ascii_runtime) 30 (fillna_str texts)
    = Raise (ValueError "empty vocabulary")
  ∧ tfidf_panel (rt := ascii_runtime) 30
      {| df_columns := ["description"];
         df_rows := [ {[ "description" := VStr (py "   ") ]}; ∅;
                      {[ "description" := VStr [] ]};
                      {[ "description" := VStr [9%N; 10%N] ]} ] |}
      "description" = NotEnoughData.
Proof.
  intros texts.
  assert (Forall (λ v, blank_text (rt := ascii_runtime) v = true) texts) as Hb
    by (repeat constructor).
  destruct (blank_collection_not_ranked (rt := ascii_runtime) 30 texts Hb)
    as (_ & He & _ & Hp).
  split; [exact Hb|]. split; [by apply He|]. by apply Hp.
Defined.

(** ** Loading blog files *)

Lemma filter_all {A} (P : A → Prop) `{∀ x, Decision (P x)} (l : list A) :
  Forall P l → filter P l = l.
Proof.
  induction 1 as [|x l Hx _ IH]; [done|]. by rewrite filter_cons, decide_True, IH.
Qed.

Lemma filter_none {A} (P : A → Prop) `{∀ x, Decision (P x)} (l : list A) :
  Forall (λ x, ¬ P x) l → filter P l = [].
Proof.
  induction 1 as [|x l Hx _ IH]; [done|]. by rewrite filter_cons, decide_False, IH.
Qed.

Lemma elem_of_add_label cols label x :
  x ∈ add_label cols label ↔ x ∈ cols ∨ x = label.
Proof.
  unfold add_label. case_decide.
  - split; [auto|]. intros [?| ->]; done.
  - by rewrite elem_of_app, list_elem_of_singleton.
Qed.

Lemma elem_of_foldl_add_label l acc x :
  x ∈ foldl add_label acc l ↔ x ∈ acc ∨ x ∈ l.
Proof.
  revert acc; induction l as [|c l IH]; intros acc; simpl.
  - rewrite elem_of_nil. tauto.
  - rewrite IH, elem_of_add_label, elem_of_cons. tauto.
Qed.

Lemma zip_with_fmap_same {A B C} (g : A → B → C) (h : A → B) (l : list A) :
  zip_with g l (h <$> l) = (λ x, g x (h x)) <$> l.
Proof. induction l; simpl; [done|]. by f_equal. Qed.

Section Blog.
Context {rt : Runtime}.

Lemma parse_column_Ok df label fmt :
  label ∈ df_columns df →
  parse_column df label fmt
  = Ok {| df_columns := df_columns df;
          df_rows := (λ r, <[label := datetime_cell (to_datetime fmt (cell_at label r))]> r)
                     <$> df_rows df |}.
Proof.
  intros Hl. unfold parse_column. rewrite (getitem_Ok _ _ Hl), bind_Ok.
  unfold setitem_series, add_label. rewrite decide_True by done.
  do 2 f_equal. rewrite <- list_fmap_compose. apply zip_with_fmap_same.
Qed.





End Blog.

(** ** First appearances *)

Section Uniq.
Context {A : Type} `{EqDecision A}.
Implicit Types l acc : list A.

Lemma elem_of_add_new acc x y : y ∈ add_new acc x ↔ y ∈ acc ∨ y = x.
Proof.
  unfold add_new. case_decide.
  - split; [auto|]. intros [?| ->]; done.
  - by rewrite elem_of_app, list_elem_of_singleton.
Qed.

Lemma NoDup_add_new acc x : NoDup acc → NoDup (add_new acc x).
Proof.
  intros Hacc. unfold add_new. case_decide; [done|].
  apply NoDup_app. split; [done|]. split; [|apply NoDup_singleton].
  intros y Hy ->%list_elem_of_singleton. done.
Qed.

Lemma elem_of_foldl_add_new l acc y : y ∈ foldl add_new acc l ↔ y ∈ acc ∨ y ∈ l.
Proof.
  revert acc; induction l as [|x l IH]; intros acc; simpl.
  - rewrite elem_of_nil. tauto.
  - rewrite IH, elem_of_add_new, elem_of_cons. tauto.
Qed.

Lemma NoDup_foldl_add_new l acc : NoDup acc → NoDup (foldl add_new acc l).
Proof. revert acc; induction l; simpl; auto using NoDup_add_new. Qed.

Lemma elem_of_uniq l y : y ∈ uniq l ↔ y ∈ l.
Proof. unfold uniq. rewrite elem_of_foldl_add_new, elem_of_nil. tauto. Qed.

Lemma NoDup_uniq l : NoDup (uniq l).
Proof. apply NoDup_foldl_add_new, NoDup_nil_2. Qed.

End Uniq.

(** ** The first [k] positions of an [argsort] *)

Lemma nth_fmap_lt {A B} (f : A → B) (l : list A) i d d' :
  (i < length l)%nat → nth i (f <$> l) d' = f (nth i l d).
Proof.
  intros Hi. rewrite !nth_lookup, list_lookup_fmap.
  destruct (lookup_lt_is_Some_2 l i Hi) as [x ->]. done.
Qed.

Lemma elem_of_nth_lt {A} (l : list A) x d :
  x ∈ l ↔ ∃ i, (i < length l)%nat ∧ nth i l d = x.
Proof.
  rewrite list_elem_of_lookup. split; intros [i Hi].
  - exists i. split; [by eapply lookup_lt_Some|]. by apply nth_lookup_Some.
  - destruct Hi as [Hi <-]. exists i. rewrite nth_lookup.
    destruct (lookup_lt_is_Some_2 l i Hi) as [x ->]. done.
Qed.

Lemma NoDup_nth_inj {A} (l : list A) i j d :
  NoDup l → (i < length l)%nat → (j < length l)%nat → nth i l d = nth j l d → i = j.
Proof.
  intros Hl Hi Hj. rewrite !nth_lookup.
  destruct (lookup_lt_is_Some_2 l i Hi) as [x Hx], (lookup_lt_is_Some_2 l j Hj) as [y Hy].
  rewrite Hx, Hy. simpl. intros ->. by eapply NoDup_lookup.
Qed.

Section Argsort.
Context {rt : Runtime} {laws : RuntimeLaws rt}.

Lemma argsort_elem keys i : i ∈ argsort keys ↔ (i < length keys)%nat.
Proof. rewrite (argsort_perm keys), elem_of_seq. lia. Qed.

Lemma argsort_NoDup keys : NoDup (argsort keys).
Proof. rewrite (argsort_perm keys). apply NoDup_seq. Qed.

Lemma argsort_length keys : length (argsort keys) = length keys.
Proof. by rewrite (argsort_perm keys), length_seq. Qed.

Lemma argsort_take_le_drop keys k i j :
  i ∈ take k (argsort keys) → j ∈ drop k (argsort keys) →
  nth i keys 0 ≤ nth j keys 0.
Proof.
  intros Hi Hj. pose proof (argsort_sorted keys) as Hs.
  rewrite <- (take_drop k (argsort keys)), fmap_app in Hs.
  apply (StronglySorted_app_1_elem_of _ _ _ (nth i keys 0) (nth j keys 0)) in Hs;
    [done| |]; apply list_elem_of_fmap; eauto.
Qed.

Lemma argsort_take_not_drop keys k i :
  i ∈ take k (argsort keys) → i ∉ drop k (argsort keys).
Proof.
  intros Hi Hj. pose proof (argsort_NoDup keys) as Hn.
  rewrite <- (take_drop k (argsort keys)) in Hn.
  apply NoDup_app in Hn as (_ & Hn & _). by apply (Hn i).
Qed.

Lemma argsort_take_or_drop keys k i :
  (i < length keys)%nat → i ∈ take k (argsort keys) ∨ i ∈ drop k (argsort keys).
Proof.
  intros Hi%argsort_elem. rewrite <- (take_drop k (argsort keys)) in Hi.
  by apply elem_of_app in Hi.
Qed.

(** ** The ten brands with the most rows *)

(** C9. In a shop table with eleven brands whose row counts differ from one
    another, the restriction to the ten most frequent brands drops the rows
    of one brand, the one with the fewest rows, and keeps every row of the
    other ten. *)
Theorem top_ten_excludes_lowest (shop : DataFrame) :
  "brand" ∈ df_columns shop →
  length (brands_of shop) = 11%nat →
  (∀ a b, a ∈ brands_of shop → b ∈ brands_of shop → a ≠ b →
          brand_rows shop a ≠ brand_rows shop b) →
  ∃ lowest f_brand,
    lowest ∈ brands_of shop
    ∧ (∀ b, b ∈ brands_of shop → b ≠ lowest → brand_rows shop lowest < brand_rows shop b)
    ∧ brand_restriction shop = Ok f_brand
    ∧ df_columns f_brand = df_columns shop
    ∧ df_rows f_brand
      = filter (λ r, cell_at "brand" r ∈ brands_of shop ∧ cell_at "brand" r ≠ lowest)
               (df_rows shop).
Proof.
  intros Hcol Hlen Hdist.
  set (brand := cell_at "brand" <$> df_rows shop).
  set (values := brands_of shop) in *.
  set (counts := (λ v, count_of v brand) <$> values).
  set (keys := Z.opp <$> counts).
  set (order := argsort keys).
  assert (NoDup values) as Hnd by apply NoDup_uniq.
  assert (length keys = 11%nat) as Hkeys by (unfold keys, counts; by rewrite !length_fmap).
  assert (∀ i, (i < 11)%nat → nth i keys 0 = - brand_rows shop (nth i values VNaN)) as Hkey.
  { intros i Hi. unfold keys. rewrite (nth_fmap_lt _ _ _ 0).
    - f_equal. unfold counts. by rewrite (nth_fmap_lt _ _ _ VNaN) by lia.
    - unfold counts. rewrite length_fmap. lia. }
  assert (∃ last, drop 10 order = [last]) as [last Hlast].
  { pose proof (length_drop order 10) as Hd. unfold order in Hd at 2.
    rewrite argsort_length, Hkeys in Hd.
    destruct (drop 10 order) as [|x [|y l]]; simpl in Hd; try lia. by eexists. }
  assert ((last < 11)%nat) as Hlast11.
  { rewrite <- Hkeys. apply argsort_elem. fold order.
    rewrite <- (take_drop 10 order), Hlast, elem_of_app, list_elem_of_singleton. auto. }
  assert (∀ i, (i < 11)%nat → i ≠ last → i ∈ take 10 order) as Htake.
  { intros i Hi Hne. rewrite <- Hkeys in Hi.
    destruct (argsort_take_or_drop keys 10 i Hi) as [?|Hd]; [done|].
    fold order in Hd. rewrite Hlast in Hd. by apply list_elem_of_singleton in Hd. }
  assert (∀ i, i ∈ take 10 order → (i < 11)%nat ∧ i ≠ last) as Htake'.
  { intros i Hi. split.
    - rewrite <- Hkeys. apply argsort_elem. fold order.
      rewrite <- (take_drop 10 order), elem_of_app. auto.
    - intros ->. apply (argsort_take_not_drop keys 10 last Hi). fold order.
      rewrite Hlast. apply list_elem_of_here. }
  set (lowest := nth last values VNaN).
  assert (top_brands shop = Ok ((λ i, nth i values VNaN) <$> take 10 order)) as Htop.
  { unfold top_brands. rewrite (getitem_Ok _ _ Hcol), bind_Ok. f_equal.
    unfold value_counts. fold brand. fold values. fold counts. fold keys. fold order.
    rewrite <- fmap_take, <- list_fmap_compose. done. }
  assert (∀ v, v ∈ (λ i, nth i values VNaN) <$> take 10 order ↔ v ∈ values ∧ v ≠ lowest)
    as Hmem.
  { intros v. rewrite list_elem_of_fmap. split.
    - intros (i & -> & [Hi Hne]%Htake'). split.
      + apply (elem_of_nth_lt _ _ VNaN). exists i. by rewrite Hlen.
      + intros Heq. apply Hne. apply (NoDup_nth_inj values i last VNaN); by rewrite ?Hlen.
    - intros [(i & Hi & <-)%(elem_of_nth_lt _ _ VNaN) Hne]. rewrite Hlen in Hi.
      exists i. split; [done|]. apply Htake; [done|]. by intros ->. }
  exists lowest. eexists. split; [|split; [|split; [|split]]].
  - apply (elem_of_nth_lt _ _ VNaN). exists last. by rewrite Hlen.
  - intros b (i & Hi & <-)%(elem_of_nth_lt _ _ VNaN) Hne. rewrite Hlen in Hi.
    assert (i ≠ last) as Hil by (by intros ->).
    pose proof (argsort_take_le_drop keys 10 i last (Htake i Hi Hil)) as Hle.
    fold order in Hle. rewrite Hlast in Hle. specialize (Hle (list_elem_of_here _ _)).
    rewrite !Hkey in Hle by done. fold lowest in Hle.
    assert (brand_rows shop lowest ≠ brand_rows shop (nth i values VNaN)); [|lia].
    apply Hdist; [| |done].
    + apply (elem_of_nth_lt _ _ VNaN). exists last. by rewrite Hlen.
    + apply (elem_of_nth_lt _ _ VNaN). exists i. by rewrite Hlen.
  - unfold brand_restriction. rewrite Htop, bind_Ok, (getitem_Ok _ _ Hcol), bind_Ok.
    reflexivity.
  - done.
  - unfold isin. rewrite <- list_fmap_compose, select_fmap. simpl.
    apply list_filter_iff. intros r. simpl. by rewrite bool_decide_eq_true, Hmem.
Qed.

End Argsort.

Lemma top_ten_excludes_lowest_witness :
  "brand" ∈ df_columns eleven_brand_table
  ∧ length (brands_of eleven_brand_table) = 11%nat
  ∧ ∃ lowest f_brand,
      lowest ∈ brands_of eleven_brand_table
      ∧ (∀ b, b ∈ brands_of eleven_brand_table → b ≠ lowest →
              brand_rows eleven_brand_table lowest < brand_rows eleven_brand_table b)
      ∧ brand_restriction (rt := ascii_runtime) eleven_brand_table = Ok f_brand
      ∧ df_columns f_brand = df_columns eleven_brand_table
      ∧ df_rows f_brand
        = filter (λ r, cell_at "brand" r ∈ brands_of eleven_brand_table
                       ∧ cell_at "brand" r ≠ lowest)
                 (df_rows eleven_brand_table).
Proof.
  split; [by_computation|]. split; [by vm_compute|].
  apply (top_ten_excludes_lowest (rt := ascii_runtime) eleven_brand_table).
  - by_computation.
  - by vm_compute.
  - assert (Forall (λ a, Forall (λ b, a ≠ b → brand_rows eleven_brand_table a
                                               ≠ brand_rows eleven_brand_table b)
                                (brands_of eleven_brand_table))
                   (brands_of eleven_brand_table)) as Hall by by_computation.
    intros a b Ha Hb. rewrite Forall_forall in Hall. specialize (Hall a Ha).
    rewrite Forall_forall in Hall. exact (Hall b Hb).
Defined.

(** ** Weights are not negative *)

Section Weights.
Local Open Scope R_scope.

Lemma idf_nonneg (n_samples df : Z) : (0 ≤ df ≤ n_samples)%Z → 0 <= idf n_samples df.
Proof.
  intros [H0 Hn]. unfold idf.
  apply IZR_le in H0, Hn.
  assert (0 < 1 + IZR df) by lra.
  assert (1 <= (1 + IZR n_samples) / (1 + IZR df)) as H1.
  { apply (Rmult_le_reg_r (1 + IZR df)); [done|].
    unfold Rdiv. rewrite Rmult_assoc, Rinv_l by lra. lra. }
  destruct H1 as [H1| <-].
  - pose proof (ln_increasing 1 _ Rlt_0_1 H1) as Hln. rewrite ln_1 in Hln. lra.
  - rewrite ln_1. lra.
Qed.

Lemma sum_R_nonneg (l : list R) : Forall (λ x, 0 <= x) l → 0 <= sum_R l.
Proof. induction 1 as [|x l Hx _ IH]; simpl; lra. Qed.

Lemma l2_normalize_nonneg (row : list R) :
  Forall (λ x, 0 <= x) row → Forall (λ x, 0 <= x) (l2_normalize row).
Proof.
  intros Hrow. unfold l2_normalize. destruct (Req_dec_T _ _) as [|Hne]; [done|].
  apply Forall_fmap. eapply Forall_impl; [exact Hrow|]. intros x Hx. simpl.
  apply Rle_mult_inv_pos; [done|].
  pose proof (sqrt_pos (sum_R ((λ x, x * x) <$> row))). unfold l2_norm in *. lra.
Qed.

Lemma nth_nonneg (row : list R) j : Forall (λ x, 0 <= x) row → 0 <= nth j row 0.
Proof.
  intros Hrow. rewrite nth_lookup. destruct (row !! j) as [x|] eqn:E; simpl; [|lra].
  by eapply (Forall_lookup_1 _ _ _ _ Hrow).
Qed.

Lemma column_sums_nonneg (M : list (list R)) n_features :
  Forall (Forall (λ x, 0 <= x)) M → Forall (λ x, 0 <= x) (column_sums M n_features).
Proof.
  intros HM. unfold column_sums. apply Forall_fmap, Forall_forall. intros j _. simpl.
  apply sum_R_nonneg. unfold column. apply Forall_fmap.
  eapply Forall_impl; [exact HM|]. intros row. apply nth_nonneg.
Qed.

Lemma document_frequency_bounds (X : list (list Z)) n_features :
  Forall (λ df, (0 ≤ df ≤ Z.of_nat (length X))%Z) (document_frequency X n_features).
Proof.
  unfold document_frequency. apply Forall_fmap, Forall_forall. intros j _. simpl.
  split; [lia|]. apply inj_le. etrans; [apply length_filter|].
  unfold column. by rewrite length_fmap.
Qed.

Lemma tfidf_transform_nonneg (X : list (list Z)) n_features :
  Forall (Forall (λ x, (0 ≤ x)%Z)) X →
  Forall (Forall (λ x, 0 <= x)) (tfidf_transform X n_features).
Proof.
  intros HX. unfold tfidf_transform. apply Forall_fmap.
  eapply Forall_impl; [exact HX|]. intros row Hrow. simpl.
  apply l2_normalize_nonneg.
  eapply Forall_zip_with_fst; [exact Hrow|].
  apply Forall_fmap.
  eapply Forall_impl; [apply document_frequency_bounds|].
  intros df Hdf x Hx. simpl. apply Rmult_le_pos; [by apply IZR_le|by apply idf_nonneg].
Qed.

End Weights.

(** ** The vocabulary and the terms kept *)

Lemma filter_ext_elem {A} (P Q : A → Prop) `{∀ x, Decision (P x)} `{∀ x, Decision (Q x)}
    (l : list A) :
  (∀ x, x ∈ l → (P x ↔ Q x)) → filter P l = filter Q l.
Proof.
  induction l as [|x l IH]; intros HPQ; [done|].
  rewrite !filter_cons.
  rewrite IH by (intros y Hy; apply HPQ; by right).
  pose proof (HPQ x (list_elem_of_here _ _)) as Hx.
  destruct (decide (P x)), (decide (Q x)); tauto.
Qed.

Lemma nth_seq_lt i n : (i < n)%nat → nth i (seq 0 n) O = i.
Proof. intros Hi. rewrite nth_lookup, lookup_seq_lt by done. done. Qed.

Lemma nth_fmap_seq {B} (f : nat → B) n i d : (i < n)%nat → nth i (f <$> seq 0 n) d = f i.
Proof.
  intros Hi. rewrite nth_lookup, list_lookup_fmap, lookup_seq_lt by done. done.
Qed.

Lemma elem_of_where mask j :
  j ∈ where_ mask ↔ (j < length mask)%nat ∧ nth j mask false = true.
Proof. unfold where_. rewrite list_elem_of_filter, elem_of_seq. intuition lia. Qed.

Lemma NoDup_where mask : NoDup (where_ mask).
Proof. unfold where_. apply NoDup_filter, NoDup_seq. Qed.

Lemma where_fmap_seq (f : nat → bool) n :
  where_ (f <$> seq 0 n) = filter (λ j, f j = true) (seq 0 n).
Proof.
  unfold where_. rewrite length_fmap, length_seq.
  apply filter_ext_elem. intros j [_ Hj]%elem_of_seq. by rewrite nth_fmap_seq by lia.
Qed.

Lemma NoDup_first_seen (docs : list (list pystr)) : NoDup (first_seen docs).
Proof.
  unfold first_seen. generalize (NoDup_nil_2 (A := pystr)). generalize (@nil pystr).
  induction docs as [|d docs IH]; intros acc Hacc; simpl; [done|].
  by apply IH, NoDup_foldl_add_new.
Qed.

Lemma elem_of_first_seen (docs : list (list pystr)) t :
  t ∈ first_seen docs ↔ ∃ d, d ∈ docs ∧ t ∈ d.
Proof.
  unfold first_seen.
  assert (∀ acc, t ∈ foldl (foldl add_new) acc docs ↔ t ∈ acc ∨ ∃ d, d ∈ docs ∧ t ∈ d) as H.
  { induction docs as [|d docs IH]; intros acc; simpl.
    - split; [auto|]. intros [?|(d & []%elem_of_nil & _)]; done.
    - rewrite IH, elem_of_foldl_add_new. split.
      + intros [[?|?]|(d' & ? & ?)]; [by left|right..].
        * exists d. split; [apply list_elem_of_here|done].
        * exists d'. split; [by apply list_elem_of_further|done].
      + intros [?|(d' & [->|?]%elem_of_cons & ?)]; eauto. }
  rewrite H, elem_of_nil. tauto.
Qed.

Lemma sorted_Permutation l : sorted l ≡ₚ l.
Proof. apply merge_sort_Permutation. Qed.

Section Kept.
Context {rt : Runtime} {laws : RuntimeLaws rt}.

Lemma limit_mask_length X n high low limit : length (limit_mask X n high low limit) = n.
Proof.
  unfold limit_mask. case_decide; rewrite !length_fmap; [apply length_seq|].
  unfold document_frequency. by rewrite length_fmap, length_seq.
Qed.

Lemma kept_at_most_limit X n high low limit :
  (length (where_ (limit_mask X n high low limit)) ≤ limit)%nat.
Proof.
  unfold limit_mask. case_decide as Hlim; [|lia].
  rewrite where_fmap_seq.
  match goal with |- context [bool_decide (_ ∈ ?c)] => set (chosen := c) end.
  trans (length chosen).
  - apply submseteq_length, NoDup_submseteq; [apply NoDup_filter, NoDup_seq|].
    intros j [Hj _]%list_elem_of_filter. by apply bool_decide_eq_true in Hj.
  - unfold chosen. rewrite length_fmap, length_take. lia.
Qed.

Lemma kept_in_range X n high low limit j :
  j ∈ where_ (limit_mask X n high low limit) → (j < n)%nat.
Proof. intros [Hj _]%elem_of_where. by rewrite limit_mask_length in Hj. Qed.

Lemma count_of_nonneg {A} `{EqDecision A} (x : A) l : 0 ≤ count_of x l.
Proof. unfold count_of. lia. Qed.

Lemma count_matrix_nonneg vocabulary docs :
  Forall (Forall (λ x, 0 ≤ x)) (count_matrix vocabulary docs).
Proof.
  unfold count_matrix. apply Forall_fmap, Forall_forall. intros d _. simpl.
  apply Forall_fmap, Forall_forall. intros t _. apply count_of_nonneg.
Qed.

(** What [count_fit_transform] returns, when it returns. *)
Lemma count_fit_transform_inv max_features docs X' terms :
  count_fit_transform max_features docs = Ok (X', terms) →
  let vocabulary := sorted (first_seen (analyze <$> docs)) in
  let X := count_matrix vocabulary (analyze <$> docs) in
  let kept := where_ (limit_mask X (length vocabulary) (Z.of_nat (length docs)) 1
                                 max_features) in
  X' = (λ row, (λ j, nth j row 0) <$> kept) <$> X
  ∧ terms = (λ j, nth j vocabulary []) <$> kept.
Proof.
  unfold count_fit_transform. repeat case_decide; try done.
  unfold limit_features. case_decide; [done|]. by intros [= <- <-].
Qed.

Lemma ranking_terms fit : (scored fit).*1 = fit.2.
Proof.
  unfold scored. apply fst_zip. unfold column_sums. by rewrite length_fmap, length_seq.
Qed.

Lemma tfidf_ranking_facts (max_features : nat) (texts : list cell)
    (ranking : list (pystr * R)) :
  tfidf_ranking max_features texts = Ok ranking →
  (length ranking ≤ max_features)%nat
  ∧ NoDup ranking.*1
  ∧ Forall (λ entry, (0 <= entry.2)%R) ranking.
Proof.
  unfold tfidf_ranking. intros H.
  apply bind_Ok_inv in H as (docs & _ & H).
  apply bind_Ok_inv in H as ([X' terms] & Hfit & [= <-]).
  apply count_fit_transform_inv in Hfit as [HX Hterms]. cbv zeta in HX, Hterms.
  set (vocabulary := sorted (first_seen (analyze <$> docs))) in *.
  set (X := count_matrix vocabulary (analyze <$> docs)) in *.
  set (kept := where_ _) in *.
  assert (NoDup terms) as Hnd.
  { rewrite Hterms. apply NoDup_fmap_2_strong; [|apply NoDup_where].
    intros i j Hi%kept_in_range Hj%kept_in_range. apply NoDup_nth_inj; [|done..].
    unfold vocabulary. rewrite sorted_Permutation. apply NoDup_first_seen. }
  split; [|split].
  - rewrite <- (length_fmap fst), ranking_terms. simpl. rewrite Hterms, length_fmap.
    apply kept_at_most_limit.
  - by rewrite ranking_terms.
  - unfold scored. apply Forall_forall. intros [t w] Hin%elem_of_zip_r. simpl.
    revert w Hin. apply Forall_forall, column_sums_nonneg, tfidf_transform_nonneg.
    simpl. rewrite HX. apply Forall_fmap.
    eapply Forall_impl; [apply count_matrix_nonneg|]. intros row Hrow. simpl.
    apply Forall_fmap, Forall_forall. intros j _. simpl.
    rewrite nth_lookup. destruct (row !! j) as [x|] eqn:E; simpl; [|done].
    by eapply (Forall_lookup_1 _ _ _ _ Hrow).
Qed.


Lemma tfidf_panel_chart max_features df label ranking :
  tfidf_panel max_features df label = Chart ranking →
  ∃ texts, tfidf_ranking max_features texts = Ok ranking.
Proof.
  unfold tfidf_panel. destruct (getitem df label) as [texts|]; [|done].
  rewrite bind_Ok. destruct (tfidf_ranking _ _) eqn:E; [|done]. intros [= <-]. eauto.
Qed.

(** C3. A ranking that is returned has at most [max_features] terms, no term
    twice, and no negative score; so the chart of the blog descriptions has
    at most 30 terms and the chart of the news titles at most 25. *)
Theorem ranking_bounded_distinct_nonnegative (max_features : nat) (texts : list cell)
    (ranking : list (pystr * R)) :
  tfidf_ranking max_features texts = Ok ranking →
  ((length ranking ≤ max_features)%nat
   ∧ NoDup ranking.*1
   ∧ Forall (λ entry, (0 <= entry.2)%R) ranking)
  ∧ (∀ blog chart, tfidf_panel 30 blog "description" = Chart chart →
       (length chart ≤ 30)%nat ∧ NoDup chart.*1
       ∧ Forall (λ entry, (0 <= entry.2)%R) chart)
  ∧ (∀ news chart, tfidf_panel 25 news "title" = Chart chart →
       (length chart ≤ 25)%nat ∧ NoDup chart.*1
       ∧ Forall (λ entry, (0 <= entry.2)%R) chart).
Proof.
  intros H. split; [by eapply tfidf_ranking_facts|].
  split; intros df chart [t Ht]%tfidf_panel_chart; by eapply tfidf_ranking_facts.
Qed.

End Kept.

Lemma ranking_bounded_distinct_nonnegative_witness :
  ∃ fit ranking,
    count_fit_transform (rt := ascii_runtime) 30
      [py "Round sunglasses for summer"; [];
       py "summer sale: sunglasses, sunglasses and more"; py "a b c"] = Ok fit
    ∧ fit.2 = [py "and"; py "for"; py "more"; py "round"; py "sale"; py "summer";
               py "sunglasses"]
    ∧ ranking = scored fit
    ∧ tfidf_ranking (rt := ascii_runtime) 30 (fillna_str sample_descriptions) = Ok ranking
    ∧ (length ranking ≤ 30)%nat
    ∧ NoDup ranking.*1
    ∧ Forall (λ entry, (0 <= entry.2)%R) ranking.
Proof.
  eexists. eexists.
  split; [vm_compute; reflexivity|]. split; [by vm_compute|]. split; [reflexivity|].
  match goal with |- ?eq ∧ _ => assert eq as Heq end.
  { unfold tfidf_ranking.
    change (documents (fillna_str sample_descriptions))
      with (Ok (A := list pystr)
              [py "Round sunglasses for summer"; [];
               py "summer sale: sunglasses, sunglasses and more"; py "a b c"]).
    rewrite bind_Ok.
    match goal with |- ?c ≫= _ = _ =>
      let r := eval vm_compute in c in change c with r end.
    by rewrite bind_Ok. }
  split; [exact Heq|].
  exact (proj1 (ranking_bounded_distinct_nonnegative (rt := ascii_runtime) 30 _ _ Heq)).
Defined.

(** ** The vocabulary cut *)

Lemma column_count_matrix vocabulary docs j :
  (j < length vocabulary)%nat →
  column 0 (count_matrix vocabulary docs) j
  = (λ d, count_of (nth j vocabulary []) d) <$> docs.
Proof.
  intros Hj. unfold column, count_matrix. rewrite <- list_fmap_compose.
  apply list_fmap_ext. intros _ d _. simpl.
  exact (nth_fmap_lt (λ t, count_of t d) vocabulary j [] 0 Hj).
Qed.

Lemma count_of_pos {A} `{EqDecision A} (x : A) l : x ∈ l → count_of x l ≠ 0.
Proof.
  intros Hx. unfold count_of.
  assert (x ∈ filter (λ y, y = x) l) as Hf by (by apply list_elem_of_filter).
  destruct (filter _ l); [by apply elem_of_nil in Hf|simpl; lia].
Qed.

Section Cut.
Context {rt : Runtime} {laws : RuntimeLaws rt}.
Variable docs : list pystr.

Let analyzed := analyze <$> docs.
Let vocabulary := sorted (first_seen analyzed).
Let X := count_matrix vocabulary analyzed.
Let n := length vocabulary.
Let tfs := term_frequency X n.
Let keys := (λ i, - nth i tfs 0) <$> seq 0 n.

Lemma vocabulary_elem t : t ∈ vocabulary ↔ t ∈ first_seen analyzed.
Proof. unfold vocabulary. by rewrite sorted_Permutation. Qed.

Lemma vocabulary_length : n = length (first_seen analyzed).
Proof. unfold n, vocabulary. by rewrite sorted_Permutation. Qed.

Lemma term_frequency_occurrences j :
  (j < n)%nat → nth j tfs 0 = occurrences (nth j vocabulary []) analyzed.
Proof.
  intros Hj. unfold tfs, term_frequency. rewrite nth_fmap_seq by done.
  unfold X. by rewrite column_count_matrix.
Qed.

(** With [max_df = 1.0] and [min_df = 1] the document-frequency mask keeps
    every term. *)
Lemma default_mask_keeps_all :
  where_ ((λ d, bool_decide (d ≤ Z.of_nat (length docs)) && bool_decide (1 ≤ d))
          <$> document_frequency X n) = seq 0 n.
Proof.
  unfold document_frequency. rewrite <- list_fmap_compose, where_fmap_seq.
  apply filter_all, Forall_forall. intros j [_ Hj]%elem_of_seq. simpl in *.
  unfold X. rewrite column_count_matrix by done.
  rewrite andb_true_iff, !bool_decide_eq_true. split.
  - apply inj_le. etrans; [apply length_filter|].
    unfold analyzed. by rewrite !length_fmap.
  - assert (nth j vocabulary [] ∈ vocabulary) as Ht
      by (apply (elem_of_nth_lt _ _ []); eauto).
    apply vocabulary_elem, elem_of_first_seen in Ht as (d & Hd & Ht).
    assert (count_of (nth j vocabulary []) d
            ∈ filter (λ x, x ≠ 0) ((λ d, count_of (nth j vocabulary []) d) <$> analyzed)) as Hf.
    { apply list_elem_of_filter. split; [by apply count_of_pos|].
      apply list_elem_of_fmap. eauto. }
    destruct (filter _ _); [by apply elem_of_nil in Hf|simpl; lia].
Qed.

Lemma keys_length : length keys = n.
Proof. unfold keys. by rewrite length_fmap, length_seq. Qed.

Lemma kept_when_cut limit j :
  (limit < n)%nat →
  j ∈ where_ (limit_mask X n (Z.of_nat (length docs)) 1 limit)
  ↔ j ∈ take limit (argsort keys).
Proof.
  intros Hlim. unfold limit_mask. rewrite default_mask_keeps_all, length_seq.
  rewrite decide_True by done. rewrite where_fmap_seq.
  fold tfs. fold keys.
  assert (∀ i, i ∈ take limit (argsort keys) → (i < n)%nat) as Hin.
  { intros i Hi. rewrite <- keys_length. apply argsort_elem.
    rewrite <- (take_drop limit (argsort keys)), elem_of_app. auto. }
  assert ((λ i, nth i (seq 0 n) O) <$> take limit (argsort keys)
          = take limit (argsort keys)) as ->.
  { rewrite <- (list_fmap_id (take limit (argsort keys))) at 2.
    apply list_fmap_ext. intros _ i Hi%list_elem_of_lookup_2. simpl.
    by apply nth_seq_lt, Hin. }
  rewrite list_elem_of_filter, bool_decide_eq_true, elem_of_seq.
  split; [tauto|]. intros Hj. split; [done|]. apply Hin in Hj. lia.
Qed.

Lemma kept_when_not_cut limit :
  (n ≤ limit)%nat →
  where_ (limit_mask X n (Z.of_nat (length docs)) 1 limit) = seq 0 n.
Proof.
  intros Hlim. unfold limit_mask. rewrite default_mask_keeps_all, length_seq.
  rewrite decide_False by lia. apply default_mask_keeps_all.
Qed.

Lemma kept_length limit :
  length (where_ (limit_mask X n (Z.of_nat (length docs)) 1 limit)) = (limit `min` n)%nat.
Proof.
  destruct (decide (limit < n)%nat) as [Hlim|Hlim].
  - trans (length (take limit (argsort keys))).
    + apply Permutation_length, NoDup_Permutation; [apply NoDup_where| |].
      * pose proof (argsort_NoDup keys) as Hn.
        rewrite <- (take_drop limit (argsort keys)) in Hn.
        by apply NoDup_app in Hn as (? & _ & _).
      * intros j. by apply kept_when_cut.
    + rewrite length_take, argsort_length, keys_length. lia.
  - rewrite kept_when_not_cut, length_seq by lia. lia.
Qed.

(** C4, as amended. The cut to [max_features] terms keeps that many terms of
    the vocabulary (all of it when it has fewer), none left out occurs more
    often in the collection than a term kept, and the terms of the ranking
    are the terms kept. *)
Theorem vocabulary_cut_by_term_frequency (max_features : nat)
    (counts : list (list Z)) (kept : list pystr) :
  count_fit_transform max_features docs = Ok (counts, kept) →
  highest_by occurrences max_features docs kept
  ∧ (scored (counts, kept)).*1 = kept.
Proof.
  intros [_ Hterms]%count_fit_transform_inv. cbv zeta in Hterms.
  fold analyzed in Hterms. fold vocabulary in Hterms. fold X in Hterms. fold n in Hterms.
  split; [|apply ranking_terms].
  unfold highest_by. fold analyzed. split; [|split].
  - intros t. rewrite Hterms, list_elem_of_fmap. intros (j & -> & Hj%kept_in_range).
    apply vocabulary_elem, (elem_of_nth_lt _ _ []). eauto.
  - rewrite Hterms, length_fmap, kept_length. by rewrite vocabulary_length.
  - intros t u Ht Hu Hnu. rewrite Hterms in Ht, Hnu.
    apply list_elem_of_fmap in Ht as (j & -> & Hj).
    apply vocabulary_elem, (elem_of_nth_lt _ _ []) in Hu as (j' & Hj' & <-).
    assert (j' ∉ where_ (limit_mask X n (Z.of_nat (length docs)) 1 max_features)) as Hnj.
    { intros Hin. apply Hnu, list_elem_of_fmap. eauto. }
    destruct (decide (max_features < n)%nat) as [Hlim|Hlim].
    + pose proof (kept_in_range _ _ _ _ _ _ Hj) as Hjn.
      rewrite kept_when_cut in Hj, Hnj by done.
      destruct (argsort_take_or_drop keys max_features j') as [?|Hd];
        [by rewrite keys_length|done|].
      pose proof (argsort_take_le_drop keys max_features j j' Hj Hd) as Hle.
      unfold keys in Hle. rewrite !nth_fmap_seq in Hle by done.
      rewrite !term_frequency_occurrences in Hle by done. by apply Z.opp_le_mono.
    + exfalso. apply Hnj. rewrite kept_when_not_cut by lia. apply elem_of_seq.
      unfold n. split; [apply Nat.le_0_l|exact Hj'].
Qed.

End Cut.

Lemma vocabulary_cut_by_term_frequency_witness :
  count_fit_transform (rt := ascii_runtime) 2 skewed_documents
    = Ok ([[3; 0]; [0; 1]; [0; 1]], [py "aa"; py "bb"])
  ∧ highest_by (rt := ascii_runtime) occurrences 2 skewed_documents [py "aa"; py "bb"]
  ∧ (scored ([[3; 0]; [0; 1]; [0; 1]], [py "aa"; py "bb"])).*1 = [py "aa"; py "bb"].
Proof.
  assert (count_fit_transform (rt := ascii_runtime) 2 skewed_documents
          = Ok ([[3; 0]; [0; 1]; [0; 1]], [py "aa"; py "bb"])) as Hfit by (by vm_compute).
  split; [exact Hfit|].
  exact (vocabulary_cut_by_term_frequency (rt := ascii_runtime) skewed_documents 2 _ _ Hfit).
Defined.

(** C4, as the specification words it, fails: cut to one term, the
    collection [aa aa aa], [bb], [cc bb] keeps [aa], which is in one
    document, and leaves [bb], which is in two. *)
Lemma document_frequency_claim_fails :
  ¬ document_frequency_claim (rt := ascii_runtime) 1 skewed_documents.
Proof.
  intros Hclaim.
  destruct (Hclaim [[3]; [0]; [0]] [py "aa"]) as (_ & _ & Hdf); [by vm_compute|].
  assert (containing (py "bb") (analyze (rt := ascii_runtime) <$> skewed_documents)
          ≤ containing (py "aa") (analyze (rt := ascii_runtime) <$> skewed_documents)) as Hle
    by (apply Hdf; by_computation).
  vm_compute in Hle. by apply Hle.
Qed.


(* ================================================================== *)
(** * Further properties of the script *)

(** ** File names *)

Lemma replace_from_absent old new s :
  contains old s = false → replace_from old new O s = s.
Proof.
  induction s as [|c s IH]; [done|]. cbn [contains replace_from].
  intros [H1 H2]%orb_false_iff. rewrite H1. f_equal. auto.
Qed.

Lemma replace_from_skip old new k pre s :
  length pre = k → replace_from old new k (pre ++ s) = replace_from old new O s.
Proof.
  revert pre; induction k as [|k IH]; intros [|c pre] Hl; simpl in *; try done.
  apply IH. lia.
Qed.

Lemma startswith_app_self pre s : startswith pre (pre ++ s) = true.
Proof. induction pre as [|c pre IH]; simpl; [done|]. by rewrite N.eqb_refl. Qed.

(** [(old ++ s).replace(old, new)] when [old] does not occur in [s] *)
Lemma replace_leading c old new s :
  contains (c :: old) s = false →
  replace (c :: old) new ((c :: old) ++ s) = new ++ s.
Proof.
  intros Hs. unfold replace. cbn [app replace_from].
  pose proof (startswith_app_self (c :: old) s) as Hpre. cbn [app] in Hpre.
  rewrite Hpre. f_equal.
  cbn [length pred]. rewrite replace_from_skip by done. by apply replace_from_absent.
Qed.

Lemma before_last_app sep k stamp :
  Forall (λ c, c ≠ sep) stamp → before_last sep (k ++ sep :: stamp) = Some k.
Proof.
  intros Hst.
  assert (before_last sep stamp = None) as Hnone.
  { induction Hst as [|c stamp Hc _ IH]; simpl; [done|]. rewrite IH.
    by apply N.eqb_neq in Hc as ->. }
  induction k as [|c k IH]; simpl.
  - by rewrite Hnone, N.eqb_refl.
  - by rewrite IH.
Qed.

Lemma before_last_none sep s :
  Forall (λ c, c ≠ sep) s → before_last sep s = None.
Proof.
  induction 1 as [|c s Hc _ IH]; simpl; [done|]. rewrite IH.
  by apply N.eqb_neq in Hc as ->.
Qed.

Lemma contains_cons_false sub c s :
  startswith sub (c :: s) = false → contains sub (c :: s) = contains sub s.
Proof. intros H. cbn [contains]. by rewrite H. Qed.

Lemma contains_prefix pre s : contains pre (pre ++ s) = true.
Proof.
  destruct pre as [|c pre]; [by destruct s|].
  cbn [app contains]. pose proof (startswith_app_self (c :: pre) s) as H.
  cbn [app] in H. by rewrite H.
Qed.

Lemma contains_app_false a b s : contains a s = false → contains (a ++ b) s = false.
Proof.
  intros Ha. destruct (contains (a ++ b) s) eqn:E; [|done].
  apply contains_app in E. congruence.
Qed.

Ltac scan_for sub := repeat (rewrite (contains_cons_false sub) by reflexivity).
Ltac scan_name :=
  scan_for (py "blog_"); scan_for (py "shopping_trend_"); scan_for (py "shopping_trend");
  scan_for (py "shop_").

(** X1. A file named by the convention, a category prefix, a keyword, an
    underscore and a stamp without underscore, gets that keyword and that
    category, underscores in the keyword included, provided that the rest of
    the name after the prefix, keyword, underscore and stamp taken as one
    string, holds none of the markers the two chains look for.  A marker
    that the keyword forms with the underscore counts
    ([marker_across_underscore]). *)
Theorem keyword_recovered_from_name (c : category) (keyword stamp : pystr) :
  marker_free (keyword ++ underscore :: stamp) →
  Forall (λ x, x ≠ underscore) stamp →
  keyword_of (prefix_of_category c ++ keyword ++ underscore :: stamp) = Some keyword
  ∧ category_of (prefix_of_category c ++ keyword ++ underscore :: stamp) = Some c.
Proof.
  intros (Hblog & Htrend & Hshop & Hnews) Hstamp.
  assert (rsplit1_head underscore (keyword ++ underscore :: stamp) = keyword) as Hsplit
    by (unfold rsplit1_head; by rewrite before_last_app).
  pose proof (contains_app_false (py "shopping_trend") (py "_") _ Htrend) as Htrend'.
  change (py "shopping_trend" ++ py "_") with (py "shopping_trend_") in Htrend'.
  set (rest := keyword ++ underscore :: stamp) in *.
  unfold keyword_of, category_of. destruct c; cbn [prefix_of_category].
  - rewrite contains_prefix.
    rewrite (replace_leading 98 [108; 111; 103; 95]%N [] rest Hblog : replace (py "blog_") [] (py "blog_" ++ rest) = rest).
    by rewrite Hsplit.
  - change (py "shop_" ++ rest) with (115 :: 104 :: 111 :: 112 :: 95 :: rest)%N.
    scan_name. rewrite Hblog, Htrend', Htrend.
    change (115 :: 104 :: 111 :: 112 :: 95 :: rest)%N with (py "shop_" ++ rest).
    rewrite contains_prefix.
    rewrite (replace_leading 115 [104; 111; 112; 95]%N [] rest Hshop : replace (py "shop_") [] (py "shop_" ++ rest) = rest).
    by rewrite Hsplit.
  - change (py "shopping_trend_" ++ rest)
      with (115 :: 104 :: 111 :: 112 :: 112 :: 105 :: 110 :: 103 :: 95 :: 116 :: 114
            :: 101 :: 110 :: 100 :: 95 :: rest)%N.
    scan_name. rewrite Hblog.
    change (115 :: 104 :: 111 :: 112 :: 112 :: 105 :: 110 :: 103 :: 95 :: 116 :: 114
            :: 101 :: 110 :: 100 :: 95 :: rest)%N with (py "shopping_trend_" ++ rest).
    rewrite contains_prefix.
    rewrite (contains_app (py "shopping_trend") (py "_") _ (contains_prefix (py "shopping_trend_") rest)).
    rewrite (replace_leading 115 [104; 111; 112; 112; 105; 110; 103; 95; 116; 114; 101; 110; 100; 95]%N [] rest Htrend' : replace (py "shopping_trend_") [] (py "shopping_trend_" ++ rest) = rest).
    by rewrite Hsplit.
  - change (py "news_" ++ rest) with (110 :: 101 :: 119 :: 115 :: 95 :: rest)%N.
    scan_name. rewrite Hblog, Htrend', Htrend, Hshop.
    change (110 :: 101 :: 119 :: 115 :: 95 :: rest)%N with (py "news_" ++ rest).
    rewrite contains_prefix.
    rewrite (replace_leading 110 [101; 119; 115; 95]%N [] rest Hnews : replace (py "news_") [] (py "news_" ++ rest) = rest).
    by rewrite Hsplit.
Qed.

Lemma keyword_recovered_from_name_witness :
  marker_free (py "cat_eye" ++ underscore :: py "20240101.csv")
  ∧ Forall (λ x, x ≠ underscore) (py "20240101.csv")
  ∧ keyword_of (py "shop_cat_eye_20240101.csv") = Some (py "cat_eye")
  ∧ category_of (py "shop_cat_eye_20240101.csv") = Some Shop.
Proof.
  assert (marker_free (py "cat_eye" ++ underscore :: py "20240101.csv")) as Hfree
    by (by vm_compute).
  assert (Forall (λ x, x ≠ underscore) (py "20240101.csv")) as Hstamp
    by (apply (bool_decide_unpack _); vm_compute; exact I).
  split; [exact Hfree|]. split; [exact Hstamp|].
  exact (keyword_recovered_from_name Shop (py "cat_eye") (py "20240101.csv") Hfree Hstamp).
Defined.

(** In [shop_workshop_20240101.csv] neither the keyword [workshop] nor the
    stamp holds a marker, but the keyword and the underscore form [shop_]:
    [replace] removes that occurrence too, no underscore is left to split
    at, and the keyword comes out as [work20240101.csv]. *)
Lemma marker_across_underscore :
  marker_free (py "workshop") ∧ marker_free (py "20240101.csv")
  ∧ ¬ marker_free (py "workshop" ++ underscore :: py "20240101.csv")
  ∧ keyword_of (py "shop_workshop_20240101.csv") = Some (py "work20240101.csv").
Proof.
  split; [by vm_compute|]. split; [by vm_compute|]. split; [|by vm_compute].
  intros (_ & _ & Hshop & _). by vm_compute in Hshop.
Qed.

(** ** The loop of the loader *)

Lemma elem_of_concat {A} (x : A) (ls : list (list A)) :
  x ∈ concat ls ↔ ∃ l, l ∈ ls ∧ x ∈ l.
Proof.
  induction ls as [|l ls IH]; simpl.
  - split; [by intros ?%elem_of_nil|]. by intros (l & ?%elem_of_nil & _).
  - rewrite elem_of_app, IH. split.
    + intros [?|(l' & ? & ?)]; [exists l|exists l']; split; try done;
        [apply list_elem_of_here|by apply list_elem_of_further].
    + intros (l' & [->|?]%elem_of_cons & ?); eauto.
Qed.

Lemma Forall_concat {A} (P : A → Prop) (ls : list (list A)) :
  Forall P (concat ls) ↔ Forall (Forall P) ls.
Proof.
  induction ls as [|l ls IH]; simpl; [by split; constructor|].
  by rewrite Forall_app, Forall_cons, IH.
Qed.

Lemma keyword_category filename k :
  keyword_of filename = Some k → ∃ c, category_of filename = Some c.
Proof.
  unfold keyword_of, category_of.
  destruct (contains (py "blog_") filename); [eauto|].
  destruct (contains (py "shopping_trend_") filename) eqn:E.
  { rewrite (contains_app (py "shopping_trend") (py "_") filename E). eauto. }
  destruct (contains (py "shopping_trend") filename); [eauto|].
  destruct (contains (py "shop_") filename); [eauto|].
  destruct (contains (py "news_") filename); [eauto|done].
Qed.

Lemma append_to_neq c df st : append_to c df st ≠ st.
Proof.
  intros H.
  assert (length (frames_of (append_to c df st) c) = length (frames_of st c)) as Hl
    by (by rewrite H).
  destruct c; simpl in Hl; rewrite length_app in Hl; simpl in Hl; lia.
Qed.

Lemma report_error_neq filename e st : report_error filename e st ≠ st.
Proof.
  intros H.
  assert (length (load_errors (report_error filename e st)) = length (load_errors st)) as Hl
    by (by rewrite H).
  simpl in Hl. rewrite length_app in Hl. simpl in Hl. lia.
Qed.

Lemma merge_states_assoc a b c :
  merge_states (merge_states a b) c = merge_states a (merge_states b c).
Proof. unfold merge_states. simpl. by rewrite !app_assoc. Qed.

Lemma merge_states_no_frames_r a : merge_states a no_frames = a.
Proof. destruct a. unfold merge_states. simpl. by rewrite !app_nil_r. Qed.

Section LoaderFacts.
Context {rt : Runtime}.

Lemma preprocess_some filename k csv :
  category_of filename ≠ None → preprocess filename k csv ≠ Ok None.
Proof.
  unfold preprocess. destruct csv as [df|]; [|done]. rewrite bind_Ok. cbv zeta.
  destruct (category_of filename) as [[]|]; [| | | |done]; intros _;
    try destruct (parse_column _ _ _); done.
Qed.

(** X2. The loop passes over a file without a trace exactly when its name
    holds none of the four prefixes; any other file adds one frame to the
    list of its category or one error to the report. *)
Theorem file_skipped_iff_unrecognised (st : load_state) (f : pystr * result DataFrame) :
  (load_file st f = st ↔ keyword_of f.1 = None)
  ∧ (keyword_of f.1 ≠ None →
     (∃ e, load_file st f = report_error f.1 e st)
     ∨ (∃ c df, category_of f.1 = Some c ∧ load_file st f = append_to c df st)).
Proof.
  assert (keyword_of f.1 ≠ None →
          (∃ e, load_file st f = report_error f.1 e st)
          ∨ (∃ c df, category_of f.1 = Some c ∧ load_file st f = append_to c df st)) as Hsome.
  { intros Hk. unfold load_file. destruct (keyword_of f.1) as [k|] eqn:Ek; [|done].
    destruct (keyword_category _ _ Ek) as [c Hc].
    destruct (preprocess f.1 k f.2) as [[[c' df]|]|e] eqn:E.
    - right. exists c', df. split; [by eapply preprocess_category|done].
    - exfalso. eapply preprocess_some; [|exact E]. by rewrite Hc.
    - left. eauto. }
  split; [|exact Hsome]. split.
  - intros Hst. destruct (keyword_of f.1) eqn:Ek; [|done].
    destruct Hsome as [[e He]|(c & df & _ & He)]; [done| |]; rewrite He in Hst.
    + by apply report_error_neq in Hst.
    + by apply append_to_neq in Hst.
  - intros Hk. unfold load_file. by rewrite Hk.
Qed.

Lemma load_file_merge st f : load_file st f = merge_states st (load_file no_frames f).
Proof.
  unfold load_file. destruct (keyword_of f.1); [|by rewrite merge_states_no_frames_r].
  destruct (preprocess _ _ _) as [[[[] df]|]|e];
    try (by rewrite merge_states_no_frames_r);
    destruct st; unfold merge_states, append_to, report_error; simpl;
    by rewrite ?app_nil_r.
Qed.

Lemma foldl_load_file_merge st l :
  foldl load_file st l = merge_states st (foldl load_file no_frames l).
Proof.
  revert st. induction l as [|f l IH]; intros st; simpl.
  - by rewrite merge_states_no_frames_r.
  - rewrite IH, (IH (load_file no_frames f)), <- merge_states_assoc.
    by rewrite <- load_file_merge.
Qed.

Lemma foldl_load_file_app l1 l2 :
  foldl load_file no_frames (l1 ++ l2)
  = merge_states (foldl load_file no_frames l1) (foldl load_file no_frames l2).
Proof. by rewrite foldl_app, foldl_load_file_merge. Qed.

Lemma concat_or_empty_rows l : df_rows (concat_or_empty l) = concat (df_rows <$> l).
Proof. by destruct l. Qed.

Lemma elem_of_concat_or_empty_columns l x :
  x ∈ df_columns (concat_or_empty l) ↔ ∃ df, df ∈ l ∧ x ∈ df_columns df.
Proof.
  destruct l as [|d l].
  - simpl. split; [by intros ?%elem_of_nil|]. by intros (df & ?%elem_of_nil & _).
  - unfold concat_or_empty, concat_frames. cbn [df_columns].
    rewrite elem_of_foldl_add_label, elem_of_nil, elem_of_concat. split.
    + intros [[]|(cols & (df & -> & Hdf)%list_elem_of_fmap & Hx)]. eauto.
    + intros (df & Hdf & Hx). right. exists (df_columns df). split; [|done].
      apply list_elem_of_fmap. eauto.
Qed.

Lemma frames_of_merge a b c :
  frames_of (merge_states a b) c = frames_of a c ++ frames_of b c.
Proof. by destruct c. Qed.

Lemma table_of_load files c :
  table_of (load_and_preprocess_data files) c
  = concat_or_empty (frames_of (foldl load_file no_frames files) c).
Proof. by destruct c. Qed.

(** X3. Loading a listing is loading its parts one after the other: the
    rows of each table are the rows the first part gives followed by the
    rows the second part gives, its columns are those of either, and the
    errors reported are those of the first part followed by those of the
    second. *)
Theorem loading_concatenates (l1 l2 : list (pystr * result DataFrame)) (c : category) :
  df_rows (table_of (load_and_preprocess_data (l1 ++ l2)) c)
  = df_rows (table_of (load_and_preprocess_data l1) c)
    ++ df_rows (table_of (load_and_preprocess_data l2) c)
  ∧ (∀ x, x ∈ df_columns (table_of (load_and_preprocess_data (l1 ++ l2)) c)
          ↔ x ∈ df_columns (table_of (load_and_preprocess_data l1) c)
            ∨ x ∈ df_columns (table_of (load_and_preprocess_data l2) c))
  ∧ reported (load_and_preprocess_data (l1 ++ l2))
    = reported (load_and_preprocess_data l1) ++ reported (load_and_preprocess_data l2).
Proof.
  rewrite !table_of_load, foldl_load_file_app, frames_of_merge.
  split; [|split].
  - by rewrite !concat_or_empty_rows, fmap_app, concat_app.
  - intros x. rewrite !elem_of_concat_or_empty_columns.
    split.
    + intros (df & [?|?]%elem_of_app & ?); [left|right]; eauto.
    + intros [(df & ? & ?)|(df & ? & ?)]; exists df; rewrite elem_of_app; auto.
  - unfold load_and_preprocess_data. simpl. by rewrite foldl_load_file_app.
Qed.

(** *** What a file has to hold *)

Lemma parse_column_inv df label fmt df' :
  parse_column df label fmt = Ok df' →
  label ∈ df_columns df
  ∧ df' = {| df_columns := df_columns df;
             df_rows := (λ r, <[label := datetime_cell (to_datetime fmt (cell_at label r))]> r)
                        <$> df_rows df |}.
Proof.
  intros H. assert (label ∈ df_columns df) as Hl.
  { unfold parse_column in H. apply bind_Ok_inv in H as (col & Hc & _).
    by apply getitem_inv in Hc as [? _]. }
  split; [done|]. rewrite parse_column_Ok in H by done. by injection H as <-.
Qed.

Lemma parse_column_missing df label fmt :
  label ∉ df_columns df → parse_column df label fmt = Raise (KeyError label).
Proof. intros Hl. unfold parse_column, getitem. by rewrite decide_False. Qed.

Lemma elem_of_labelled_columns df keyword label :
  label ∈ df_columns (setitem_scalar df "target_keyword" (VStr keyword))
  ↔ label ∈ df_columns df ∨ label = "target_keyword".
Proof. apply elem_of_add_label. Qed.

(** X4. What the body of the [try] does with one file: it raises exactly
    when [pd.read_csv] raised, with that error, or when the file is a blog,
    trend or news file whose frame lacks the date column of its category,
    with the [KeyError] of that column; a shop file needs no column at
    all. *)
Theorem preprocess_raises_iff (filename keyword : pystr) (csv : result DataFrame)
    (c : category) (e : exn) :
  category_of filename = Some c →
  (preprocess filename keyword csv = Raise e ↔
   csv = Raise e
   ∨ ∃ df label, csv = Ok df ∧ date_label c = Some label
                 ∧ (label ∉ df_columns df) ∧ e = KeyError label).
Proof.
  intros Hc. unfold preprocess. destruct csv as [df|e']; simpl.
  2: { split; [intros [= ->]; by left|]. intros [[= ->]|(? & ? & ? & _)]; done. }
  rewrite Hc.
  assert (∀ label, label ≠ "target_keyword" →
            label ∈ df_columns (setitem_scalar df "target_keyword" (VStr keyword))
            ↔ label ∈ df_columns df) as Hcol.
  { intros label Hne. rewrite elem_of_labelled_columns. tauto. }
  destruct c; simpl.
  - destruct (decide ("postdate" ∈ df_columns df)) as [Hin|Hin].
    + rewrite parse_column_Ok by (by apply Hcol). simpl. split; [done|].
      intros [?|(df' & label & [= <-] & [= <-] & ? & _)]; done.
    + rewrite parse_column_missing by (by rewrite Hcol). simpl. split.
      * intros [= <-]. right. by exists df, "postdate".
      * by intros [?|(df' & label & [= <-] & [= <-] & ? & ->)].
  - split; [done|]. by intros [?|(df' & label & _ & ? & _)].
  - destruct (decide ("period" ∈ df_columns df)) as [Hin|Hin].
    + rewrite parse_column_Ok by (by apply Hcol). simpl. split; [done|].
      intros [?|(df' & label & [= <-] & [= <-] & ? & _)]; done.
    + rewrite parse_column_missing by (by rewrite Hcol). simpl. split.
      * intros [= <-]. right. by exists df, "period".
      * by intros [?|(df' & label & [= <-] & [= <-] & ? & ->)].
  - destruct (decide ("pubDate" ∈ df_columns df)) as [Hin|Hin].
    + rewrite parse_column_Ok by (by apply Hcol). simpl. split; [done|].
      intros [?|(df' & label & [= <-] & [= <-] & ? & _)]; done.
    + rewrite parse_column_missing by (by rewrite Hcol). simpl. split.
      * intros [= <-]. right. by exists df, "pubDate".
      * by intros [?|(df' & label & [= <-] & [= <-] & ? & ->)].
Qed.

(** X5. A file on which the body of the [try] raises changes no table: the
    four tables are those of the listing without it, and the report gains
    its name and its error at its place. *)
Theorem failing_file_changes_no_table (l1 l2 : list (pystr * result DataFrame))
    (filename keyword : pystr) (csv : result DataFrame) (e : exn) :
  keyword_of filename = Some keyword →
  preprocess filename keyword csv = Raise e →
  (∀ c, table_of (load_and_preprocess_data (l1 ++ (filename, csv) :: l2)) c
        = table_of (load_and_preprocess_data (l1 ++ l2)) c)
  ∧ reported (load_and_preprocess_data (l1 ++ (filename, csv) :: l2))
    = reported (load_and_preprocess_data l1) ++ (filename, e)
      :: reported (load_and_preprocess_data l2).
Proof.
  intros Hk He.
  assert (load_file no_frames (filename, csv) = report_error filename e no_frames) as Hf.
  { unfold load_file. simpl. by rewrite Hk, He. }
  assert (foldl load_file no_frames (l1 ++ (filename, csv) :: l2)
          = merge_states (foldl load_file no_frames l1)
              (merge_states (report_error filename e no_frames)
                            (foldl load_file no_frames l2))) as Hst.
  { rewrite foldl_load_file_app. f_equal. simpl. by rewrite foldl_load_file_merge, Hf. }
  split.
  - intros c. rewrite !table_of_load, Hst, foldl_load_file_app. by destruct c.
  - unfold load_and_preprocess_data. cbn [reported]. by rewrite Hst.
Qed.

End LoaderFacts.

Lemma preprocess_raises_iff_witness :
  category_of (py "blog_foo_20240101.csv") = Some Blog
  ∧ preprocess (rt := ascii_runtime) (py "blog_foo_20240101.csv") (py "foo")
      (Ok (trend_csv [trend_row "2024-01-01" 57])) = Raise (KeyError "postdate").
Proof.
  split; [by vm_compute|].
  apply (preprocess_raises_iff (rt := ascii_runtime) _ _ _ Blog); [by vm_compute|].
  right. exists (trend_csv [trend_row "2024-01-01" 57]), "postdate".
  repeat split. apply (bool_decide_unpack _). vm_compute. exact I.
Defined.

Lemma failing_file_changes_no_table_witness :
  let bad := (py "news_bar_20240102.csv", Raise ReadError) in
  keyword_of bad.1 = Some (py "bar")
  ∧ preprocess (rt := ascii_runtime) bad.1 (py "bar") bad.2 = Raise ReadError
  ∧ (∀ c, table_of (load_and_preprocess_data (rt := ascii_runtime)
                      (only_trend_files ++ bad :: only_blog_files)) c
          = table_of (load_and_preprocess_data (rt := ascii_runtime)
                        (only_trend_files ++ only_blog_files)) c)
  ∧ reported (load_and_preprocess_data (rt := ascii_runtime)
                (only_trend_files ++ bad :: only_blog_files))
    = [(py "news_bar_20240102.csv", ReadError)].
Proof.
  intros bad.
  assert (keyword_of bad.1 = Some (py "bar")) as Hk by (by vm_compute).
  assert (preprocess (rt := ascii_runtime) bad.1 (py "bar") bad.2 = Raise ReadError) as He
    by done.
  split; [exact Hk|]. split; [exact He|].
  exact (failing_file_changes_no_table (rt := ascii_runtime) only_trend_files
           only_blog_files _ _ _ _ Hk He).
Defined.

(** ** What the loader hands on *)

Lemma cell_at_insert label v r : cell_at label (<[label := v]> r) = v.
Proof. unfold cell_at. by rewrite lookup_insert_eq. Qed.

Lemma cell_at_insert_ne label label' v r :
  label ≠ label' → cell_at label' (<[label := v]> r) = cell_at label' r.
Proof. intros. unfold cell_at. by rewrite lookup_insert_ne. Qed.

Lemma is_datetime_datetime_cell o : is_datetime (datetime_cell o) = true.
Proof. by destruct o. Qed.

Lemma labelled_setitem df keyword :
  labelled (setitem_scalar df "target_keyword" (VStr keyword)).
Proof.
  split; simpl.
  - apply elem_of_add_label. by right.
  - apply Forall_fmap, Forall_forall. intros r _. exists keyword. apply cell_at_insert.
Qed.

Section Handed.
Context {rt : Runtime}.

Lemma parsed_well_loaded df label fmt df' :
  label ≠ "target_keyword" → labelled df → parse_column df label fmt = Ok df' →
  labelled df' ∧ datetime_column df' label.
Proof.
  intros Hne [Hc Hr] [Hl ->]%parse_column_inv. split; split; simpl; try done.
  - apply Forall_fmap. eapply Forall_impl; [exact Hr|]. intros r [k Hk]. simpl.
    exists k. by rewrite cell_at_insert_ne.
  - apply Forall_fmap, Forall_forall. intros r _. simpl.
    rewrite cell_at_insert. apply is_datetime_datetime_cell.
Qed.

Lemma preprocess_well_loaded filename keyword csv c df :
  preprocess filename keyword csv = Ok (Some (c, df)) → well_loaded c df.
Proof.
  unfold preprocess. destruct csv as [d|]; [|done]. rewrite bind_Ok. cbv zeta.
  pose proof (labelled_setitem d keyword) as Hlab.
  destruct (category_of filename) as [[]|]; [| | | |done].
  - intros (df' & Hp & [= <- <-])%bind_Ok_inv.
    by apply parsed_well_loaded in Hp.
  - by intros [= <- <-].
  - intros (df' & Hp & [= <- <-])%bind_Ok_inv.
    by apply parsed_well_loaded in Hp.
  - intros (df' & Hp & [= <- <-])%bind_Ok_inv.
    by apply parsed_well_loaded in Hp.
Qed.

Lemma load_file_well_loaded st f :
  (∀ c, Forall (well_loaded c) (frames_of st c)) →
  ∀ c, Forall (well_loaded c) (frames_of (load_file st f) c).
Proof.
  intros Hst c. unfold load_file. destruct (keyword_of f.1); [|done].
  destruct (preprocess _ _ _) as [[[c' df]|]|e] eqn:E; [|done|by destruct c].
  apply preprocess_well_loaded in E.
  destruct c, c'; simpl; try apply Hst; apply Forall_app; split;
    try apply (Hst Blog); try apply (Hst Shop); try apply (Hst Trend);
    try apply (Hst News); by constructor.
Qed.

Lemma foldl_load_file_well_loaded files c :
  Forall (well_loaded c) (frames_of (foldl load_file no_frames files) c).
Proof.
  revert c.
  assert (∀ st, (∀ c, Forall (well_loaded c) (frames_of st c)) →
                ∀ c, Forall (well_loaded c) (frames_of (foldl load_file st files) c)) as H.
  { induction files as [|f files IH]; intros st Hst; simpl; [done|].
    by apply IH, load_file_well_loaded. }
  apply H. intros c. destruct c; constructor.
Qed.

Lemma concat_or_empty_well_loaded c l :
  Forall (well_loaded c) l → l ≠ [] → well_loaded c (concat_or_empty l).
Proof.
  intros Hl Hne. destruct l as [|d l]; [done|].
  assert (well_loaded c d) as Hd by (by inversion Hl).
  assert (d ∈ d :: l) as Hin by apply list_elem_of_here.
  split; [split|].
  - apply elem_of_concat_or_empty_columns. exists d. split; [done|apply Hd].
  - rewrite concat_or_empty_rows. apply Forall_concat, Forall_fmap.
    eapply Forall_impl; [exact Hl|]. by intros df [[_ ?] _].
  - destruct (date_label c) as [label|] eqn:El; [|done]. split.
    + apply elem_of_concat_or_empty_columns. exists d. split; [done|].
      destruct Hd as [_ Hd]. rewrite El in Hd. apply Hd.
    + rewrite concat_or_empty_rows. apply Forall_concat, Forall_fmap.
      eapply Forall_impl; [exact Hl|]. intros df [_ Hdf]. rewrite El in Hdf. apply Hdf.
Qed.

Lemma loaded_table_cases files c :
  table_of (load_and_preprocess_data files) c = empty_frame
  ∨ well_loaded c (table_of (load_and_preprocess_data files) c).
Proof.
  rewrite table_of_load.
  destruct (frames_of (foldl load_file no_frames files) c) as [|d l] eqn:E; [by left|].
  right. rewrite <- E. apply concat_or_empty_well_loaded; [|by rewrite E].
  apply foldl_load_file_well_loaded.
Qed.

(** X6. Each table the loader returns is [pd.DataFrame()] or has the keyword
    column, with a string in every row, and, for the blog, trend and news
    tables, its date column, with a timestamp or NaT in every row. *)
Theorem loaded_tables_well_formed (files : list (pystr * result DataFrame))
    (c : category) :
  let table := table_of (load_and_preprocess_data files) c in
  (table = empty_frame ∨ well_loaded c table)
  ∧ (table = empty_frame ↔ frames_of (foldl load_file no_frames files) c = [])
  ∧ (∀ r, r ∈ df_rows table → ∃ k, cell_at "target_keyword" r = VStr k)
  ∧ (∀ label r, date_label c = Some label → r ∈ df_rows table →
       is_datetime (cell_at label r) = true).
Proof.
  intros table. pose proof (loaded_table_cases files c) as Hcases. fold table in Hcases.
  split; [done|]. split; [|split].
  - unfold table. rewrite table_of_load. split.
    + destruct (frames_of _ c) as [|d l] eqn:E; [done|]. intros Hempty.
      pose proof (concat_or_empty_well_loaded c (d :: l)) as Hw.
      rewrite Hempty in Hw. destruct Hw as [[Hcol _] _]; [|done|by apply elem_of_nil in Hcol].
      rewrite <- E. apply foldl_load_file_well_loaded.
    + by intros ->.
  - intros r Hr. destruct Hcases as [He|[[_ Hrows] _]].
    + rewrite He in Hr. by apply elem_of_nil in Hr.
    + by apply (proj1 (Forall_forall _ _) Hrows).
  - intros label r Hl Hr. destruct Hcases as [He|[_ Hd]].
    + rewrite He in Hr. by apply elem_of_nil in Hr.
    + rewrite Hl in Hd. destruct Hd as [_ Hd].
      by apply (proj1 (Forall_forall _ _) Hd).
Qed.

End Handed.

(** ** Two blog files *)

Section TwoBlogFiles.
Context {rt : Runtime}.








End TwoBlogFiles.



(** ** The sidebar on loaded data *)

Lemma str_le_total : Total str_le.
Proof.
  unfold str_le. intros a. induction a as [|x a IH]; intros [|y b]; simpl; auto.
  destruct (IH b) as [H|H]; rewrite H;
    destruct (N.lt_trichotomy x y) as [Hlt|[->|Hgt]];
    rewrite ?N.eqb_refl, ?andb_true_r, ?orb_true_r; auto;
    [left|right|left|right]; apply orb_true_iff; left; by apply N.ltb_lt.
Qed.

Lemma str_le_trans : Transitive str_le.
Proof.
  unfold str_le. intros a. induction a as [|x a IH]; intros [|y b] [|z c]; simpl; try done.
  rewrite !orb_true_iff, !andb_true_iff, !N.ltb_lt, !N.eqb_eq.
  intros [Hxy|[-> Hab]] [Hyz|[-> Hbc]]; try (left; lia); try (by left).
  right. split; [done|]. by eapply IH.
Qed.

Lemma as_strs_fmap ks : as_strs (VStr <$> ks) = Ok ks.
Proof.
  induction ks as [|k ks IH]; [done|].
  change (as_strs (VStr <$> k :: ks)) with (as_strs (VStr <$> ks) ≫= λ ss, Ok (k :: ss)).
  by rewrite IH.
Qed.

Lemma strings_fmap (l : list cell) :
  Forall (λ v, ∃ k, v = VStr k) l → ∃ ks, l = VStr <$> ks.
Proof.
  induction 1 as [|v l [k ->] _ [ks ->]]; [by exists []|]. by exists (k :: ks).
Qed.

Lemma take_default_keywords ks : default_keywords ks = take 3 ks.
Proof.
  unfold default_keywords. case_decide; [done|]. by rewrite take_ge by lia.
Qed.

Lemma empty_rows_or_columns df :
  empty df = true ↔ df_columns df = [] ∨ df_rows df = [].
Proof. unfold empty. by rewrite orb_true_iff, !bool_decide_eq_true. Qed.

Lemma sidebar_labelled trend ui :
  labelled trend → "period" ∈ df_columns trend →
  ∃ ks, uniq (cell_at "target_keyword" <$> df_rows trend) = VStr <$> ks
        ∧ sidebar trend ui
          = Ok {| offered_keywords := sorted ks;
                  selected_keywords :=
                    multiselect (sorted ks) (default_keywords (sorted ks))
                                (picked_keywords ui);
                  date_range := if empty trend then [] else date_input_value ui |}.
Proof.
  intros [Hcol Hrows] Hperiod.
  destruct (strings_fmap (uniq (cell_at "target_keyword" <$> df_rows trend))) as [ks Hks].
  { apply Forall_forall. intros v Hv%elem_of_uniq%list_elem_of_fmap.
    destruct Hv as (r & -> & Hr). by apply (proj1 (Forall_forall _ _) Hrows). }
  exists ks. split; [done|]. unfold sidebar, all_keywords.
  destruct (empty trend) eqn:He.
  - apply empty_rows_or_columns in He as [He|He].
    { rewrite He in Hcol. by apply elem_of_nil in Hcol. }
    rewrite He in Hks. destruct ks; [|done]. done.
  - rewrite (getitem_Ok _ _ Hcol), bind_Ok. cbv beta.
    rewrite Hks, as_strs_fmap, !bind_Ok. cbv beta. cbn [negb].
    by rewrite (getitem_Ok _ _ Hperiod), bind_Ok.
Qed.

Section SidebarLoaded.
Context {rt : Runtime}.

Lemma sidebar_loaded_returns (files : list (pystr * result DataFrame)) (ui : session) :
  let trend := trend_df (load_and_preprocess_data files) in
  ∃ sb, sidebar trend ui = Ok sb
    ∧ date_range sb = (if empty trend then [] else date_input_value ui).
Proof.
  intros trend.
  destruct (loaded_table_cases files Trend) as [He|[Hlab [Hperiod _]]];
    change (table_of (load_and_preprocess_data files) Trend) with trend in *.
  - exists {| offered_keywords := []; selected_keywords := []; date_range := [] |}.
    rewrite He. split; [by apply sidebar_empty_trend|done].
  - destruct (sidebar_labelled trend ui Hlab Hperiod) as (ks & Hks & Hsb).
    eexists. split; [exact Hsb|done].
Qed.

(** X7. The keywords of the sidebar.  Whenever the sidebar returns on the
    trend table of a listing, the keywords it offers are the keywords of the
    rows of the trend table, each once, in code-point order; the keywords
    selected are among them and, before any interaction, are the first
    three. *)
Theorem sidebar_offers_trend_keywords (files : list (pystr * result DataFrame))
    (ui : session) (sb : sidebar_values) :
  let trend := trend_df (load_and_preprocess_data files) in
  sidebar trend ui = Ok sb →
  NoDup (offered_keywords sb)
  ∧ Sorted str_le (offered_keywords sb)
  ∧ (∀ k, k ∈ offered_keywords sb
          ↔ ∃ r, r ∈ df_rows trend ∧ cell_at "target_keyword" r = VStr k)
  ∧ (∀ k, k ∈ selected_keywords sb → k ∈ offered_keywords sb)
  ∧ (picked_keywords ui = None → selected_keywords sb = take 3 (offered_keywords sb)).
Proof.
  intros trend Hreturned.
  destruct (loaded_table_cases files Trend) as [He|[Hlab [Hperiod _]]];
    change (table_of (load_and_preprocess_data files) Trend) with trend in *.
  - rewrite He, (sidebar_empty_trend empty_frame ui eq_refl) in Hreturned.
    assert (sb = {| offered_keywords := []; selected_keywords := []; date_range := [] |})
      as -> by congruence.
    rewrite He. simpl.
    split; [constructor|]. split; [constructor|]. split.
    { intros k. split; [by intros ?%elem_of_nil|]. by intros (r & ?%elem_of_nil & _). }
    split; [done|]. done.
  - destruct (sidebar_labelled trend ui Hlab Hperiod) as (ks & Hks & Hsb).
    rewrite Hsb in Hreturned.
    assert (sb = {| offered_keywords := sorted ks;
                    selected_keywords :=
                      multiselect (sorted ks) (default_keywords (sorted ks))
                                  (picked_keywords ui);
                    date_range := if empty trend then [] else date_input_value ui |})
      as -> by congruence.
    cbn [offered_keywords selected_keywords].
    assert (NoDup ks) as Hnd.
    { apply (NoDup_fmap_1 VStr). rewrite <- Hks. apply NoDup_uniq. }
    split; [unfold sorted; by rewrite merge_sort_Permutation|].
    split; [apply Sorted_merge_sort, str_le_total|]. split.
    { intros k. unfold sorted. rewrite merge_sort_Permutation.
      trans (VStr k ∈ uniq (cell_at "target_keyword" <$> df_rows trend)).
      - rewrite Hks, list_elem_of_fmap. split; [eauto|]. by intros (k' & [= ->] & ?).
      - rewrite elem_of_uniq, list_elem_of_fmap. split.
        + intros (r & Hr & ?). eauto.
        + intros (r & ? & Hr). eauto. }
    split.
    { intros k. unfold multiselect. destruct (picked_keywords ui) as [l|].
      - by intros [? _]%list_elem_of_filter.
      - rewrite take_default_keywords. apply (subseteq_take 3). }
    intros ->. apply take_default_keywords.
Qed.

(** X8. A category without files stops the script.  On any listing, when
    the trend table has records and the date picker holds two dates, and
    the blog, the shop or the news category has given no table, the script
    raises and no tab is drawn: the filter block cannot read the keyword
    column of a table that is [pd.DataFrame()]. *)
Theorem missing_category_stops_script (files : list (pystr * result DataFrame))
    (ui : session) :
  let data := load_and_preprocess_data files in
  empty (trend_df data) = false →
  length (date_input_value ui) = 2%nat →
  blog_df data = empty_frame ∨ shop_df data = empty_frame ∨ news_df data = empty_frame →
  ∃ e, filtered_tables files ui = Raise e ∧ dashboard files ui = Raise e.
Proof.
  intros data He Hlen Hmissing.
  destruct (sidebar_loaded_returns files ui) as (sb & Hsb & Hdr).
  fold data in Hsb, Hdr. rewrite He in Hdr.
  assert (∃ e, filtered_tables files ui = Raise e) as [e Hraise].
  { unfold filtered_tables. fold data. rewrite Hsb, bind_Ok. cbv beta. rewrite Hdr.
    destruct (date_input_value ui) as [|a [|b [|? ?]]]; try done.
    destruct (filter_block _ _ _ _ _ _) as [f|e] eqn:E; [|by exists e]. exfalso.
    apply filter_block_active in E as [(_ & _ & Hb & _ & Hn & Hs) _].
    destruct Hmissing as [Hm|[Hm|Hm]].
    - rewrite Hm in Hb. by apply elem_of_nil in Hb.
    - rewrite Hm in Hs. by apply elem_of_nil in Hs.
    - rewrite Hm in Hn. by apply elem_of_nil in Hn. }
  exists e. split; [exact Hraise|]. unfold dashboard. by rewrite Hraise.
Qed.

End SidebarLoaded.

Lemma sidebar_offers_trend_keywords_witness :
  let trend := trend_df (load_and_preprocess_data (rt := ascii_runtime) full_files) in
  ∃ sb, sidebar trend (first_run [jan_2024 1; jan_2024 5]) = Ok sb
    ∧ offered_keywords sb = [py "bar"; py "foo"]
    ∧ selected_keywords sb = [py "bar"; py "foo"]
    ∧ NoDup (offered_keywords sb)
    ∧ Sorted str_le (offered_keywords sb)
    ∧ (∀ k, k ∈ offered_keywords sb
            ↔ ∃ r, r ∈ df_rows trend ∧ cell_at "target_keyword" r = VStr k)
    ∧ (∀ k, k ∈ selected_keywords sb → k ∈ offered_keywords sb)
    ∧ (picked_keywords (first_run [jan_2024 1; jan_2024 5]) = None →
       selected_keywords sb = take 3 (offered_keywords sb)).
Proof.
  intros trend. eexists.
  match goal with |- ?eq ∧ _ => assert eq as Hsb end.
  { vm_compute. reflexivity. }
  split; [exact Hsb|]. split; [by vm_compute|]. split; [by vm_compute|].
  exact (sidebar_offers_trend_keywords (rt := ascii_runtime) full_files _ _ Hsb).
Defined.

Lemma missing_category_stops_script_witness :
  let data := load_and_preprocess_data (rt := ascii_runtime) only_trend_files in
  let ui := first_run [jan_2024 1; jan_2024 1] in
  empty (trend_df data) = false
  ∧ length (date_input_value ui) = 2%nat
  ∧ blog_df data = empty_frame
  ∧ ∃ e, filtered_tables (rt := ascii_runtime) only_trend_files ui = Raise e
         ∧ dashboard (rt := ascii_runtime) only_trend_files ui = Raise e.
Proof.
  intros data ui.
  assert (empty (trend_df data) = false) as He by (by vm_compute).
  assert (blog_df data = empty_frame) as Hb by (by vm_compute).
  split; [exact He|]. split; [done|]. split; [exact Hb|].
  exact (missing_category_stops_script (rt := ascii_runtime) only_trend_files ui
           He eq_refl (or_introl Hb)).
Defined.

(** ** What the filter block keeps *)

Lemma in_range_true label a b r :
  in_range label a b r = true
  ↔ ∃ t, cell_at label r = VTime t ∧ a ≤ ts_day t ∧ ts_day t ≤ b.
Proof.
  unfold in_range, date_of. destruct (cell_at label r) as [| |t| |]; simpl;
    try (split; [done|by intros (? & ? & _)]).
  rewrite andb_true_iff, !bool_decide_eq_true. split.
  - intros [? ?]. by exists t.
  - by intros (? & [= <-] & ? & ?).
Qed.

Lemma elem_of_kept_by_keyword df selected r :
  r ∈ df_rows (kept_by_keyword df selected)
  ↔ r ∈ df_rows df ∧ ∃ k, cell_at "target_keyword" r = VStr k ∧ k ∈ selected.
Proof.
  unfold kept_by_keyword. simpl.
  rewrite list_elem_of_filter, keyword_selected_true, list_elem_of_fmap.
  split; intros [H1 H2]; (split; [|done]) || split; try done;
    destruct H2 as (k & ? & ?); eauto.
Qed.

Lemma elem_of_kept_by_keyword_date df label selected a b r :
  r ∈ df_rows (kept_by_keyword_date df label selected a b)
  ↔ r ∈ df_rows df
    ∧ (∃ k, cell_at "target_keyword" r = VStr k ∧ k ∈ selected)
    ∧ ∃ t, cell_at label r = VTime t ∧ a ≤ ts_day t ∧ ts_day t ≤ b.
Proof.
  unfold kept_by_keyword_date. simpl.
  rewrite list_elem_of_filter, andb_true_iff, keyword_selected_true, in_range_true,
    list_elem_of_fmap.
  split.
  - intros [[(k & ? & ?) ?] ?]. eauto 6.
  - intros (? & (k & ? & ?) & ?). eauto 6.
Qed.

(** X9. What reaches the tabs under a range of two dates.  A record is in
    the filtered trend table (by its period) or blog table (by its postdate)
    exactly when it is in the table, its keyword is selected, and its date
    is a timestamp of a day from the first date to the second; a record whose
    date did not parse, or lies before the first or after the second date,
    is left out.  A record is in the filtered shop or news table exactly
    when it is in the table and its keyword is selected, whatever the
    dates. *)
Theorem filtered_records_characterised (trend blog shop news : DataFrame)
    (selected : list pystr) (a b : Z) (f : filtered) (r : gmap string cell) :
  filter_block trend blog shop news selected [a; b] = Ok f →
  (r ∈ df_rows (f_trend f)
   ↔ r ∈ df_rows trend
     ∧ (∃ k, cell_at "target_keyword" r = VStr k ∧ k ∈ selected)
     ∧ ∃ t, cell_at "period" r = VTime t ∧ a ≤ ts_day t ∧ ts_day t ≤ b)
  ∧ (r ∈ df_rows (f_blog f)
     ↔ r ∈ df_rows blog
       ∧ (∃ k, cell_at "target_keyword" r = VStr k ∧ k ∈ selected)
       ∧ ∃ t, cell_at "postdate" r = VTime t ∧ a ≤ ts_day t ∧ ts_day t ≤ b)
  ∧ (r ∈ df_rows (f_shop f)
     ↔ r ∈ df_rows shop ∧ ∃ k, cell_at "target_keyword" r = VStr k ∧ k ∈ selected)
  ∧ (r ∈ df_rows (f_news f)
     ↔ r ∈ df_rows news ∧ ∃ k, cell_at "target_keyword" r = VStr k ∧ k ∈ selected).
Proof.
  intros [_ ->]%filter_block_active. cbn [f_trend f_blog f_shop f_news].
  split; [apply elem_of_kept_by_keyword_date|].
  split; [apply elem_of_kept_by_keyword_date|].
  split; apply elem_of_kept_by_keyword.
Qed.

Lemma filtered_records_characterised_witness :
  let data := load_and_preprocess_data (rt := ascii_runtime) full_files in
  let f := {| f_trend := kept_by_keyword_date (trend_df data) "period" [py "foo"]
                           (jan_2024 1) (jan_2024 5);
              f_blog := kept_by_keyword_date (blog_df data) "postdate" [py "foo"]
                          (jan_2024 1) (jan_2024 5);
              f_shop := kept_by_keyword (shop_df data) [py "foo"];
              f_news := kept_by_keyword (news_df data) [py "foo"] |} in
  let late := default ∅ (df_rows (blog_df data) !! 2%nat) in
  filter_block (trend_df data) (blog_df data) (shop_df data) (news_df data)
               [py "foo"] [jan_2024 1; jan_2024 5] = Ok f
  ∧ late ∈ df_rows (blog_df data)
  ∧ cell_at "postdate" late = VTime {| ts_day := jan_2024 9; ts_nanos := 0 |}
  ∧ (late ∉ df_rows (f_blog f)).
Proof.
  intros data f late.
  assert (filter_block (trend_df data) (blog_df data) (shop_df data) (news_df data)
                       [py "foo"] [jan_2024 1; jan_2024 5] = Ok f) as Hf
    by (apply filter_block_active; split; [apply full_files_ready|done]).
  assert (cell_at "postdate" late = VTime {| ts_day := jan_2024 9; ts_nanos := 0 |})
    as Hpost by (by vm_compute).
  split; [exact Hf|]. split; [by_computation|]. split; [exact Hpost|].
  destruct (filtered_records_characterised _ _ _ _ _ _ _ _ late Hf) as (_ & Hblog & _).
  rewrite Hblog. intros (_ & _ & t & Ht & _ & Hle).
  rewrite Hpost in Ht. injection Ht as <-. vm_compute in Hle. by apply Hle.
Defined.

Lemma filter_block_cases trend blog shop news selected dr f :
  filter_block trend blog shop news selected dr = Ok f →
  (∃ a b, dr = [a; b] ∧ filter_ready trend blog shop news
          ∧ f = {| f_trend := kept_by_keyword_date trend "period" selected a b;
                   f_blog := kept_by_keyword_date blog "postdate" selected a b;
                   f_shop := kept_by_keyword shop selected;
                   f_news := kept_by_keyword news selected |})
  ∨ (length dr ≠ 2%nat ∧ f = unfiltered trend blog shop news).
Proof.
  intros Hf. destruct (decide (length dr = 2%nat)) as [Hlen|Hlen].
  - destruct dr as [|a [|b [|? ?]]]; try done.
    apply filter_block_active in Hf as [? ->]. left. by exists a, b.
  - right. rewrite filter_block_inactive in Hf by done. by injection Hf as <-.
Qed.

(** X10. The filter block changes no column, and the records of each table
    it returns are records of the table it was given, in their order, none
    twice over: it only leaves records out. *)
Theorem filter_only_leaves_out (trend blog shop news : DataFrame)
    (selected : list pystr) (dr : list Z) (f : filtered) :
  filter_block trend blog shop news selected dr = Ok f →
  (df_columns (f_trend f) = df_columns trend ∧ df_rows (f_trend f) `sublist_of` df_rows trend)
  ∧ (df_columns (f_blog f) = df_columns blog ∧ df_rows (f_blog f) `sublist_of` df_rows blog)
  ∧ (df_columns (f_shop f) = df_columns shop ∧ df_rows (f_shop f) `sublist_of` df_rows shop)
  ∧ (df_columns (f_news f) = df_columns news ∧ df_rows (f_news f) `sublist_of` df_rows news).
Proof.
  intros [(a & b & _ & _ & ->)|[_ ->]]%filter_block_cases; simpl.
  - repeat split; apply sublist_filter.
  - done.
Qed.

Lemma filter_only_leaves_out_witness :
  let data := load_and_preprocess_data (rt := ascii_runtime) full_files in
  ∃ f, filter_block (trend_df data) (blog_df data) (shop_df data) (news_df data)
                    [py "foo"] [jan_2024 1; jan_2024 5] = Ok f
    ∧ length (df_rows (blog_df data)) = 4%nat
    ∧ length (df_rows (f_blog f)) = 2%nat
    ∧ df_rows (f_blog f) `sublist_of` df_rows (blog_df data).
Proof.
  intros data. eexists.
  match goal with |- ?eq ∧ _ => assert eq as Hf end.
  { apply filter_block_active. split; [apply full_files_ready|reflexivity]. }
  split; [exact Hf|]. split; [by vm_compute|]. split; [by vm_compute|].
  apply (filter_only_leaves_out _ _ _ _ _ _ _ Hf).
Defined.

Lemma datetime_column_kept df label (P : gmap string cell → Prop) `{∀ r, Decision (P r)} :
  datetime_column df label →
  datetime_column {| df_columns := df_columns df; df_rows := filter P (df_rows df) |} label.
Proof.
  intros [Hc Hr]. split; [done|]. simpl. apply Forall_forall.
  intros r [_ Hin]%list_elem_of_filter. by apply (proj1 (Forall_forall _ _) Hr).
Qed.

(** X11. Filtering what the filter block returned, with the same selection
    and the same two dates, returns it unchanged. *)
Theorem filter_block_idempotent (trend blog shop news : DataFrame)
    (selected : list pystr) (a b : Z) (f : filtered) :
  filter_block trend blog shop news selected [a; b] = Ok f →
  filter_block (f_trend f) (f_blog f) (f_shop f) (f_news f) selected [a; b] = Ok f.
Proof.
  intros [(Ht & Hp & Hb & Hd & Hn & Hs) ->]%filter_block_active.
  apply filter_block_active. cbn [f_trend f_blog f_shop f_news]. split.
  - unfold filter_ready, kept_by_keyword, kept_by_keyword_date.
    repeat split; simpl; try done; try apply Hp; try apply Hd;
      by apply datetime_column_kept.
  - unfold kept_by_keyword, kept_by_keyword_date. simpl.
    by rewrite !list_filter_filter_l.
Qed.

Lemma filter_block_idempotent_witness :
  let data := load_and_preprocess_data (rt := ascii_runtime) full_files in
  ∃ f, filter_block (trend_df data) (blog_df data) (shop_df data) (news_df data)
                    [py "foo"] [jan_2024 1; jan_2024 5] = Ok f
    ∧ filter_block (f_trend f) (f_blog f) (f_shop f) (f_news f)
                   [py "foo"] [jan_2024 1; jan_2024 5] = Ok f.
Proof.
  intros data. eexists.
  match goal with |- ?eq ∧ _ => assert eq as Hf end.
  { apply filter_block_active. split; [apply full_files_ready|reflexivity]. }
  split; [exact Hf|]. exact (filter_block_idempotent _ _ _ _ _ _ _ _ Hf).
Defined.

(** ** Tabs without records *)

Lemma no_rows_empty df : df_rows df = [] → empty df = true.
Proof. intros H. apply empty_rows_or_columns. by right. Qed.

Section Notices.
Context {rt : Runtime}.

Lemma tabs_without_rows df :
  df_rows df = [] →
  tab1 df = Ok (Info SelectKeywords) ∧ tab2 df = Ok (Info NoData)
  ∧ tab3 df = Ok (Info NoData) ∧ tab4 df = Ok (Info NoNewsData).
Proof.
  intros He%no_rows_empty. unfold tab1, tab2, tab3, tab4. by rewrite He.
Qed.

(** X12. With the two dates in the wrong order, the first after the second,
    no trend record and no blog record passes the filter, and the trend tab
    and the blog tab show their notices. *)
Theorem reversed_range_empties_dated_tabs (trend blog shop news : DataFrame)
    (selected : list pystr) (a b : Z) (f : filtered) :
  filter_block trend blog shop news selected [a; b] = Ok f →
  b < a →
  df_rows (f_trend f) = [] ∧ df_rows (f_blog f) = []
  ∧ tab1 (f_trend f) = Ok (Info SelectKeywords)
  ∧ tab2 (f_blog f) = Ok (Info NoData).
Proof.
  intros [_ ->]%filter_block_active Hba. cbn [f_trend f_blog].
  assert (∀ df label, df_rows (kept_by_keyword_date df label selected a b) = []) as Hnone.
  { intros df label. unfold kept_by_keyword_date. simpl. apply filter_none, Forall_forall.
    intros r _ [_ (t & _ & ? & ?)%in_range_true]%andb_true_iff. lia. }
  split; [apply Hnone|]. split; [apply Hnone|].
  split; apply tabs_without_rows, Hnone.
Qed.

(** X13. With no keyword selected under a range of two dates, every table
    that reaches the tabs is without records and the four tabs show their
    notices; the script draws the page and raises nothing. *)
Theorem nothing_selected_shows_notices (trend blog shop news : DataFrame)
    (a b : Z) (f : filtered) :
  filter_block trend blog shop news [] [a; b] = Ok f →
  render f = Ok {| trend_tab := Info SelectKeywords; blog_tab := Info NoData;
                   shop_tab := Info NoData; news_tab := Info NoNewsData |}.
Proof.
  intros [_ ->]%filter_block_active.
  assert (∀ df label, df_rows (kept_by_keyword_date df label [] a b) = []) as Hdated.
  { intros df label. unfold kept_by_keyword_date. cbn [df_rows].
    apply filter_none, Forall_forall.
    by intros r _ [?%keyword_selected_true%elem_of_nil _]%andb_true_iff. }
  assert (∀ df, df_rows (kept_by_keyword df []) = []) as Hkw.
  { intros df. unfold kept_by_keyword. cbn [df_rows]. apply filter_none, Forall_forall.
    by intros r _ ?%keyword_selected_true%elem_of_nil. }
  unfold render. cbn [f_trend f_blog f_shop f_news].
  destruct (tabs_without_rows _ (Hdated trend "period")) as (-> & _).
  destruct (tabs_without_rows _ (Hdated blog "postdate")) as (_ & -> & _).
  destruct (tabs_without_rows _ (Hkw shop)) as (_ & _ & -> & _).
  destruct (tabs_without_rows _ (Hkw news)) as (_ & _ & _ & ->).
  done.
Qed.

End Notices.

Lemma reversed_range_empties_dated_tabs_witness :
  let data := load_and_preprocess_data (rt := ascii_runtime) full_files in
  ∃ f, filter_block (trend_df data) (blog_df data) (shop_df data) (news_df data)
                    [py "foo"] [jan_2024 5; jan_2024 1] = Ok f
    ∧ jan_2024 1 < jan_2024 5
    ∧ df_rows (f_trend f) = [] ∧ df_rows (f_blog f) = []
    ∧ tab1 (f_trend f) = Ok (Info SelectKeywords)
    ∧ tab2 (rt := ascii_runtime) (f_blog f) = Ok (Info NoData).
Proof.
  intros data. eexists.
  match goal with |- ?eq ∧ _ => assert eq as Hf end.
  { apply filter_block_active. split; [apply full_files_ready|reflexivity]. }
  split; [exact Hf|]. split; [by vm_compute|].
  apply (reversed_range_empties_dated_tabs (rt := ascii_runtime) _ _ _ _ _ _ _ _ Hf).
  by vm_compute.
Defined.

Lemma nothing_selected_shows_notices_witness :
  let data := load_and_preprocess_data (rt := ascii_runtime) full_files in
  ∃ f, filter_block (trend_df data) (blog_df data) (shop_df data) (news_df data)
                    [] [jan_2024 1; jan_2024 5] = Ok f
    ∧ render (rt := ascii_runtime) f
      = Ok {| trend_tab := Info SelectKeywords; blog_tab := Info NoData;
              shop_tab := Info NoData; news_tab := Info NoNewsData |}.
Proof.
  intros data. eexists.
  match goal with |- ?eq ∧ _ => assert eq as Hf end.
  { apply filter_block_active. split; [apply full_files_ready|reflexivity]. }
  split; [exact Hf|].
  exact (nothing_selected_shows_notices (rt := ascii_runtime) _ _ _ _ _ _ _ Hf).
Defined.

(** ** Counting values *)

Lemma StronglySorted_opp (l : list Z) :
  StronglySorted Z.le (Z.opp <$> l) → StronglySorted (λ x y, y ≤ x) l.
Proof.
  induction l as [|x l IH]; [constructor|].
  change (Z.opp <$> x :: l) with (- x :: (Z.opp <$> l)).
  intros [Hx Hl]%StronglySorted_cons. constructor; [by apply IH|].
  rewrite Forall_fmap in Hx. eapply Forall_impl; [exact Hx|]. simpl. lia.
Qed.

Lemma nth_opp (l : list Z) i : nth i (Z.opp <$> l) 0 = - nth i l 0.
Proof. exact (map_nth Z.opp l 0 i). Qed.

Section Counts.
Context {rt : Runtime} {laws : RuntimeLaws rt}.
Variable s : list cell.

Let values := uniq (filter (λ v, isna v = false) s).
Let counts := (λ v, count_of v s) <$> values.
Let order := argsort (Z.opp <$> counts).

Lemma counts_length : length (Z.opp <$> counts) = length values.
Proof. unfold counts. by rewrite !length_fmap. Qed.

Lemma order_in_range i : i ∈ order → (i < length values)%nat.
Proof. unfold order. rewrite argsort_elem, counts_length. done. Qed.

Lemma nth_counts i :
  (i < length values)%nat → nth i counts 0 = count_of (nth i values VNaN) s.
Proof. intros Hi. exact (nth_fmap_lt (λ v, count_of v s) values i VNaN 0 Hi). Qed.

Lemma head_value_counts_values k :
  (take k (value_counts s)).*1 = (λ i, nth i values VNaN) <$> take k order.
Proof. unfold value_counts. by rewrite <- fmap_take, <- list_fmap_compose. Qed.

Lemma head_value_counts_counts k :
  (take k (value_counts s)).*2 = (λ i, nth i counts 0) <$> take k order.
Proof. unfold value_counts. by rewrite <- fmap_take, <- list_fmap_compose. Qed.

Lemma take_order_in_range k i : i ∈ take k order → (i < length values)%nat.
Proof.
  intros Hi. apply order_in_range. rewrite <- (take_drop k order), elem_of_app. auto.
Qed.

Lemma value_of_count_positive v : v ∈ values → 0 < count_of v s.
Proof.
  intros [_ Hv]%elem_of_uniq%list_elem_of_filter.
  pose proof (count_of_pos v s Hv). pose proof (count_of_nonneg v s). lia.
Qed.

(** The first [k] entries of [value_counts]. *)
Lemma head_value_counts k :
  let top := take k (value_counts s) in
  (length top ≤ k)%nat
  ∧ NoDup top.*1
  ∧ (∀ v c, (v, c) ∈ top → v ∈ values ∧ c = count_of v s ∧ 0 < c)
  ∧ StronglySorted (λ x y, y ≤ x) top.*2
  ∧ (∀ v v', v ∈ top.*1 → v' ∈ values → v' ∉ top.*1 → count_of v' s ≤ count_of v s)
  ∧ ((length values ≤ k)%nat → ∀ v, v ∈ top.*1 ↔ v ∈ values).
Proof.
  intros top. unfold top.
  assert (NoDup values) as Hnd by apply NoDup_uniq.
  assert (NoDup (take k order)) as Hndo.
  { pose proof (argsort_NoDup (Z.opp <$> counts)) as Hn. fold order in Hn.
    rewrite <- (take_drop k order) in Hn. by apply NoDup_app in Hn as (? & _ & _). }
  split; [rewrite length_take; lia|]. split; [|split; [|split; [|split]]].
  - rewrite head_value_counts_values. apply NoDup_fmap_2_strong; [|done].
    intros i j Hi%take_order_in_range Hj%take_order_in_range.
    by apply NoDup_nth_inj.
  - intros v c Hin. unfold value_counts in Hin. fold values counts order in Hin.
    rewrite <- fmap_take in Hin.
    apply list_elem_of_fmap in Hin as (i & [= -> ->] & Hi%take_order_in_range).
    assert (nth i values VNaN ∈ values) as Hv by (apply (elem_of_nth_lt _ _ VNaN); eauto).
    split; [done|]. rewrite nth_counts by done. split; [done|].
    by apply value_of_count_positive.
  - rewrite head_value_counts_counts. apply StronglySorted_opp.
    pose proof (argsort_sorted (Z.opp <$> counts)) as Hs. fold order in Hs.
    rewrite <- (take_drop k order), fmap_app in Hs. apply StronglySorted_app_1_l in Hs.
    rewrite <- list_fmap_compose.
    erewrite list_fmap_ext; [exact Hs|]. intros _ i _. simpl. symmetry. apply nth_opp.
  - rewrite head_value_counts_values. intros v v' Hv Hv' Hnv'.
    apply list_elem_of_fmap in Hv as (i & -> & Hi).
    apply (elem_of_nth_lt _ _ VNaN) in Hv' as (j & Hj & <-).
    assert (j ∉ take k order) as Hnj.
    { intros Hin. apply Hnv', list_elem_of_fmap. eauto. }
    destruct (argsort_take_or_drop (Z.opp <$> counts) k j) as [?|Hd];
      [by rewrite counts_length|done|].
    pose proof (argsort_take_le_drop (Z.opp <$> counts) k i j Hi Hd) as Hle.
    rewrite !nth_opp in Hle.
    rewrite !nth_counts in Hle by (done || by apply (take_order_in_range k)).
    by apply Z.opp_le_mono.
  - intros Hk v. rewrite head_value_counts_values.
    rewrite take_ge by (unfold order; rewrite argsort_length, counts_length; lia).
    rewrite list_elem_of_fmap. split.
    + intros (i & -> & Hi%order_in_range). apply (elem_of_nth_lt _ _ VNaN). eauto.
    + intros (i & Hi & <-)%(elem_of_nth_lt _ _ VNaN). exists i. split; [done|].
      unfold order. apply argsort_elem. by rewrite counts_length.
Qed.

End Counts.

(** ** The brands of the price chart *)

Section Brands.
Context {rt : Runtime} {laws : RuntimeLaws rt}.

Lemma brand_restriction_rows shop :
  "brand" ∈ df_columns shop →
  brand_restriction shop
  = Ok {| df_columns := df_columns shop;
          df_rows := filter (λ r, cell_at "brand" r
                                  ∈ (take 10 (value_counts (cell_at "brand" <$> df_rows shop))).*1)
                            (df_rows shop) |}.
Proof.
  intros Hcol. unfold brand_restriction, top_brands.
  rewrite (getitem_Ok _ _ Hcol), !bind_Ok. f_equal.
  unfold isin. rewrite <- list_fmap_compose, select_fmap. f_equal.
  apply list_filter_iff. intros r. simpl. by rewrite bool_decide_eq_true.
Qed.

(** X14. For any shop table with a brand column the restriction returns.
    The brands it keeps are at most ten brands of the table, no brand twice,
    and no brand left out has more rows than a brand kept; the rows it keeps
    are the rows of those brands, each as often as in the table and in the
    order of the table, so a row without brand is never kept; the columns
    are unchanged. *)
Theorem top_brands_most_frequent (shop : DataFrame) :
  "brand" ∈ df_columns shop →
  ∃ top f_brand,
    top_brands shop = Ok top
    ∧ brand_restriction shop = Ok f_brand
    ∧ (length top ≤ 10)%nat
    ∧ NoDup top
    ∧ (∀ b, b ∈ top → b ∈ brands_of shop)
    ∧ (∀ b b', b ∈ top → b' ∈ brands_of shop → b' ∉ top →
               brand_rows shop b' ≤ brand_rows shop b)
    ∧ df_columns f_brand = df_columns shop
    ∧ df_rows f_brand = filter (λ r, cell_at "brand" r ∈ top) (df_rows shop)
    ∧ (∀ r, r ∈ df_rows f_brand → isna (cell_at "brand" r) = false).
Proof.
  intros Hcol.
  destruct (head_value_counts (cell_at "brand" <$> df_rows shop) 10)
    as (Hlen & Hnd & Hin & _ & Hord & _).
  eexists. eexists.
  split; [unfold top_brands; by rewrite (getitem_Ok _ _ Hcol), bind_Ok|].
  split; [by apply brand_restriction_rows|].
  split; [by rewrite length_fmap|]. split; [done|].
  assert (∀ b, b ∈ (take 10 (value_counts (cell_at "brand" <$> df_rows shop))).*1 →
               b ∈ brands_of shop) as Hsub.
  { intros b ([b' c] & -> & Hbc)%list_elem_of_fmap. by apply Hin in Hbc as [? _]. }
  split; [done|]. split; [exact Hord|]. split; [done|]. split.
  - done.
  - intros r [Hr%Hsub _]%list_elem_of_filter.
    by apply elem_of_uniq, list_elem_of_filter in Hr as [? _].
Qed.

(** X15. With ten brands or fewer nothing is cut: the restriction keeps
    every row that has a brand. *)
Theorem few_brands_all_kept (shop : DataFrame) :
  "brand" ∈ df_columns shop →
  (length (brands_of shop) ≤ 10)%nat →
  brand_restriction shop
  = Ok {| df_columns := df_columns shop;
          df_rows := filter (λ r, isna (cell_at "brand" r) = false) (df_rows shop) |}.
Proof.
  intros Hcol Hfew. rewrite brand_restriction_rows by done. do 2 f_equal.
  destruct (head_value_counts (cell_at "brand" <$> df_rows shop) 10)
    as (_ & _ & _ & _ & _ & Hall).
  apply filter_ext_elem. intros r Hr. rewrite (Hall Hfew).
  rewrite elem_of_uniq, list_elem_of_filter. split; [tauto|]. intros Hna.
  split; [done|]. apply list_elem_of_fmap. eauto.
Qed.

End Brands.

Lemma top_brands_most_frequent_witness :
  "brand" ∈ df_columns eleven_brand_table
  ∧ ∃ top f_brand,
      top_brands (rt := ascii_runtime) eleven_brand_table = Ok top
      ∧ brand_restriction (rt := ascii_runtime) eleven_brand_table = Ok f_brand
      ∧ (length top ≤ 10)%nat
      ∧ NoDup top
      ∧ (∀ b, b ∈ top → b ∈ brands_of eleven_brand_table)
      ∧ (∀ b b', b ∈ top → b' ∈ brands_of eleven_brand_table → b' ∉ top →
                 brand_rows eleven_brand_table b' ≤ brand_rows eleven_brand_table b)
      ∧ df_columns f_brand = df_columns eleven_brand_table
      ∧ df_rows f_brand
        = filter (λ r, cell_at "brand" r ∈ top) (df_rows eleven_brand_table)
      ∧ (∀ r, r ∈ df_rows f_brand → isna (cell_at "brand" r) = false).
Proof.
  assert ("brand" ∈ df_columns eleven_brand_table) as Hcol by by_computation.
  split; [exact Hcol|].
  exact (top_brands_most_frequent (rt := ascii_runtime) eleven_brand_table Hcol).
Defined.

Lemma few_brands_all_kept_witness :
  "brand" ∈ df_columns few_brand_table
  ∧ (length (brands_of few_brand_table) ≤ 10)%nat
  ∧ brand_restriction (rt := ascii_runtime) few_brand_table
    = Ok {| df_columns := df_columns few_brand_table;
            df_rows := filter (λ r, isna (cell_at "brand" r) = false)
                              (df_rows few_brand_table) |}.
Proof.
  assert ("brand" ∈ df_columns few_brand_table) as Hcol by by_computation.
  assert ((length (brands_of few_brand_table) ≤ 10)%nat) as Hfew by by_computation.
  split; [exact Hcol|]. split; [exact Hfew|].
  exact (few_brands_all_kept (rt := ascii_runtime) few_brand_table Hcol Hfew).
Defined.

(** ** The blog tab and the news tab *)

Lemma getitems_Ok_iff df labels :
  (∃ sub, getitems df labels = Ok sub) ↔ Forall (λ l, l ∈ df_columns df) labels.
Proof.
  unfold getitems. destruct (filter _ labels) as [|l rest] eqn:E.
  - split; [|by eexists]. intros _. apply Forall_forall. intros l Hl.
    destruct (decide (l ∈ df_columns df)) as [|Hn]; [done|].
    assert (l ∈ filter (λ l, l ∉ df_columns df) labels) as Hin
      by (by apply list_elem_of_filter).
    rewrite E in Hin. by apply elem_of_nil in Hin.
  - split; [by intros [? ?]|]. intros Hall. exfalso.
    assert (l ∈ filter (λ l, l ∉ df_columns df) labels) as [Hn Hl]%list_elem_of_filter
      by (rewrite E; apply list_elem_of_here).
    by apply Hn, (proj1 (Forall_forall _ _) Hall).
Qed.

Section TextTabs.
Context {rt : Runtime}.

Lemma getitems_missing df labels :
  ¬ Forall (λ l, l ∈ df_columns df) labels →
  ∃ l, l ∈ labels ∧ (l ∉ df_columns df) ∧ getitems df labels = Raise (KeyError l).
Proof.
  intros Hn. unfold getitems. destruct (filter _ labels) as [|l rest] eqn:E.
  - exfalso. apply Hn, Forall_forall. intros l Hl.
    destruct (decide (l ∈ df_columns df)) as [|Hm]; [done|].
    assert (l ∈ filter (λ l, l ∉ df_columns df) labels) as Hin
      by (by apply list_elem_of_filter).
    rewrite E in Hin. by apply elem_of_nil in Hin.
  - assert (l ∈ filter (λ l, l ∉ df_columns df) labels) as [Hm Hl]%list_elem_of_filter
      by (rewrite E; apply list_elem_of_here).
    by exists l.
Qed.

(** X16. The columns the blog tab and the news tab need.  A blog table
    with records that lacks one of the columns postdate, bloggername, title
    and target_keyword makes the blog tab raise the [KeyError] of a column
    that is missing, and so does a news table with records that lacks one of
    target_keyword, title and pubDate for the news tab.  The description
    column is not among them: when the blog tab returns on a table without
    it, the place of the treemap holds the not-enough-data notice. *)
Theorem text_tabs_need_their_columns (blog news : DataFrame) :
  (empty blog = false →
   ¬ Forall (λ l, l ∈ df_columns blog)
            ["postdate"; "bloggername"; "title"; "target_keyword"] →
   ∃ l, l ∈ ["postdate"; "bloggername"; "title"; "target_keyword"]
        ∧ (l ∉ df_columns blog)
        ∧ tab2 blog = Raise (KeyError l))
  ∧ (empty news = false →
     ¬ Forall (λ l, l ∈ df_columns news) ["target_keyword"; "title"; "pubDate"] →
     ∃ l, l ∈ ["target_keyword"; "title"; "pubDate"]
          ∧ (l ∉ df_columns news)
          ∧ tab4 news = Raise (KeyError l))
  ∧ (∀ shown, tab2 blog = Ok (Shown shown) →
              "description" ∉ df_columns blog →
              blog_keywords shown = NotEnoughData).
Proof.
  split; [|split].
  - intros He Hn. unfold tab2. rewrite He. cbn [negb].
    destruct (decide ("bloggername" ∈ df_columns blog)) as [Hb|Hb].
    + rewrite (getitem_Ok _ _ Hb), bind_Ok.
      destruct (getitems_missing blog _ Hn) as (l & Hl & Hm & ->).
      by exists l.
    + exists "bloggername". split; [by_computation|]. split; [done|].
      unfold getitem. by rewrite decide_False.
  - intros He Hn. unfold tab4. rewrite He. cbn [negb].
    destruct (getitems_missing news _ Hn) as (l & Hl & Hm & ->).
    by exists l.
  - intros shown Htab Hd. unfold tab2 in Htab.
    destruct (negb (empty blog)); [|done].
    apply bind_Ok_inv in Htab as (bloggers & _ & Htab).
    apply bind_Ok_inv in Htab as (sub & _ & Htab).
    assert (shown = {| blogger_top := take 20 (value_counts bloggers);
                       blog_keywords := tfidf_panel 30 blog "description" |})
      as -> by congruence.
    cbn [blog_keywords]. unfold tfidf_panel, getitem. by rewrite decide_False.
Qed.

End TextTabs.

Lemma text_tabs_need_their_columns_witness :
  let blog := {| df_columns := ["postdate"; "bloggername"; "target_keyword"];
                 df_rows := df_rows five_posts |} in
  let news := news_csv [news_row "2024-01-02" "bar in the news"] in
  empty blog = false
  ∧ ¬ Forall (λ l, l ∈ df_columns blog)
             ["postdate"; "bloggername"; "title"; "target_keyword"]
  ∧ tab2 (rt := ascii_runtime) blog = Raise (KeyError "title")
  ∧ empty news = false
  ∧ ¬ Forall (λ l, l ∈ df_columns news) ["target_keyword"; "title"; "pubDate"]
  ∧ tab4 (rt := ascii_runtime) news = Raise (KeyError "target_keyword")
  ∧ (∃ l, l ∈ ["postdate"; "bloggername"; "title"; "target_keyword"]
          ∧ (l ∉ df_columns blog)
          ∧ tab2 (rt := ascii_runtime) blog = Raise (KeyError l))
  ∧ (∃ l, l ∈ ["target_keyword"; "title"; "pubDate"]
          ∧ (l ∉ df_columns news)
          ∧ tab4 (rt := ascii_runtime) news = Raise (KeyError l))
  ∧ ∃ shown,
      tab2 (rt := ascii_runtime)
           {| df_columns := ["postdate"; "bloggername"; "title"; "target_keyword"];
              df_rows := df_rows five_posts |} = Ok (Shown shown)
      ∧ blog_keywords shown = NotEnoughData.
Proof.
  intros blog news.
  assert (empty blog = false) as Heb by (by vm_compute).
  assert (¬ Forall (λ l, l ∈ df_columns blog)
                   ["postdate"; "bloggername"; "title"; "target_keyword"]) as Hnb
    by by_computation.
  assert (empty news = false) as Hen by (by vm_compute).
  assert (¬ Forall (λ l, l ∈ df_columns news) ["target_keyword"; "title"; "pubDate"])
    as Hnn by by_computation.
  split; [exact Heb|]. split; [exact Hnb|]. split; [by vm_compute|].
  split; [exact Hen|]. split; [exact Hnn|]. split; [by vm_compute|].
  destruct (text_tabs_need_their_columns (rt := ascii_runtime) blog news)
    as (Hb & Hn & _).
  split; [exact (Hb Heb Hnb)|]. split; [exact (Hn Hen Hnn)|].
  eexists.
  match goal with |- ?eq ∧ _ => assert eq as Htab end.
  { vm_compute. reflexivity. }
  split; [exact Htab|].
  destruct (text_tabs_need_their_columns (rt := ascii_runtime)
              {| df_columns := ["postdate"; "bloggername"; "title"; "target_keyword"];
                 df_rows := df_rows five_posts |} news) as (_ & _ & Hd).
  apply (Hd _ Htab). by_computation.
Defined.

Section Bloggers.
Context {rt : Runtime} {laws : RuntimeLaws rt}.

(** X17. The bloggers the blog tab charts: at most twenty, no blogger
    twice, each with the number of records that carry the name, a positive
    number; the counts do not rise along the list, and no blogger left out
    has more records than a blogger listed. *)
Theorem blogger_top_most_active (blog : DataFrame) (shown : blog_view) :
  tab2 blog = Ok (Shown shown) →
  let names := cell_at "bloggername" <$> df_rows blog in
  (length (blogger_top shown) ≤ 20)%nat
  ∧ NoDup (blogger_top shown).*1
  ∧ (∀ b c, (b, c) ∈ blogger_top shown →
            b ∈ names ∧ isna b = false ∧ c = count_of b names ∧ 0 < c)
  ∧ StronglySorted (λ x y, y ≤ x) (blogger_top shown).*2
  ∧ (∀ b b', b ∈ (blogger_top shown).*1 → b' ∈ names → isna b' = false →
             b' ∉ (blogger_top shown).*1 → count_of b' names ≤ count_of b names).
Proof.
  intros Htab names.
  assert (blogger_top shown = take 20 (value_counts names)) as ->.
  { unfold tab2 in Htab. destruct (negb (empty blog)); [|done].
    apply bind_Ok_inv in Htab as (bloggers & [_ ->]%getitem_inv & Htab).
    apply bind_Ok_inv in Htab as (sub & _ & Htab). by injection Htab as <-. }
  destruct (head_value_counts names 20) as (Hlen & Hnd & Hin & Hsorted & Hord & _).
  split; [done|]. split; [done|]. split; [|split; [done|]].
  - intros b c Hbc. apply Hin in Hbc as (Hb & -> & Hpos).
    apply elem_of_uniq, list_elem_of_filter in Hb as [? ?]. done.
  - intros b b' Hb Hb' Hna Hnb'. apply Hord; [done| |done].
    by apply elem_of_uniq, list_elem_of_filter.
Qed.

End Bloggers.

Lemma blogger_top_most_active_witness :
  let blog := blog_df (load_and_preprocess_data (rt := ascii_runtime) full_files) in
  ∃ shown, tab2 (rt := ascii_runtime) blog = Ok (Shown shown)
    ∧ blogger_top shown !! 0%nat = Some (VStr (py "kim"), 2)
    ∧ (blogger_top shown).*2 = [2; 1; 1]
    ∧ (length (blogger_top shown) ≤ 20)%nat
    ∧ NoDup (blogger_top shown).*1
    ∧ StronglySorted (λ x y, y ≤ x) (blogger_top shown).*2.
Proof.
  intros blog.
  assert (∃ shown, tab2 (rt := ascii_runtime) blog = Ok (Shown shown)
                   ∧ blogger_top shown = take 20 (value_counts (rt := ascii_runtime)
                                                    (cell_at "bloggername" <$> df_rows blog)))
    as (shown & Htab & Htop).
  { unfold tab2.
    assert (negb (empty blog) = true) as -> by (by vm_compute).
    rewrite getitem_Ok by by_computation. rewrite bind_Ok.
    destruct (proj2 (getitems_Ok_iff blog ["postdate"; "bloggername"; "title"; "target_keyword"]))
      as [sub ->]; [by_computation|].
    rewrite bind_Ok. by eexists. }
  exists shown. split; [exact Htab|].
  split; [rewrite Htop; by vm_compute|]. split; [rewrite Htop; by vm_compute|].
  destruct (blogger_top_most_active (rt := ascii_runtime) blog shown Htab)
    as (H1 & H2 & _ & H4 & _).
  done.
Defined.

(** ** Tokens and ranked terms *)

Lemma documents_inv texts docs : documents texts = Ok docs → texts = VStr <$> docs.
Proof.
  revert docs. induction texts as [|v texts IH]; intros docs; simpl.
  - by intros [= <-].
  - intros (d & Hd & H)%bind_Ok_inv. apply bind_Ok_inv in H as (ds & Hds & [= <-]).
    rewrite (IH _ Hds). destruct v; try done. simpl in Hd. by injection Hd as ->.
Qed.

Lemma documents_fmap docs : documents (VStr <$> docs) = Ok docs.
Proof.
  induction docs as [|d docs IH]; [done|].
  change (documents (VStr <$> d :: docs))
    with (document (VStr d) ≫= λ d', documents (VStr <$> docs) ≫= λ ds, Ok (d' :: ds)).
  simpl. by rewrite IH.
Qed.

Section Tokens.
Context {rt : Runtime}.

Lemma emit_words run :
  forallb is_word run = true →
  Forall (λ t, (2 ≤ length t)%nat ∧ forallb is_word t = true) (emit run).
Proof. intros Hrun. unfold emit. case_decide; by repeat constructor. Qed.

Lemma tokens_from_words run s :
  forallb is_word run = true →
  Forall (λ t, (2 ≤ length t)%nat ∧ forallb is_word t = true) (tokens_from run s).
Proof.
  revert run. induction s as [|c s IH]; intros run Hrun; simpl.
  - by apply emit_words.
  - destruct (is_word c) eqn:Hc.
    + apply IH. rewrite forallb_app, Hrun. simpl. by rewrite Hc.
    + apply Forall_app. split; [by apply emit_words|by apply IH].
Qed.

Lemma ranked_terms_from_vocabulary max_features texts ranking t :
  tfidf_ranking max_features texts = Ok ranking →
  t ∈ ranking.*1 →
  ∃ docs, texts = VStr <$> docs ∧ t ∈ first_seen (analyze <$> docs).
Proof.
  unfold tfidf_ranking. intros H Ht.
  apply bind_Ok_inv in H as (docs & Hdocs%documents_inv & H).
  apply bind_Ok_inv in H as ([X' terms] & Hfit & [= <-]).
  rewrite ranking_terms in Ht. simpl in Ht.
  apply count_fit_transform_inv in Hfit as [_ Hterms]. cbv zeta in Hterms.
  rewrite Hterms in Ht. apply list_elem_of_fmap in Ht as (j & -> & Hj%kept_in_range).
  exists docs. split; [done|].
  assert (nth j (sorted (first_seen (analyze <$> docs))) []
          ∈ sorted (first_seen (analyze <$> docs))) as Hin
    by (apply (elem_of_nth_lt _ _ []); eauto).
  revert Hin. generalize (nth j (sorted (first_seen (analyze <$> docs))) []).
  intros t Hin. by rewrite sorted_Permutation in Hin.
Qed.

(** X18. What the ranking can hold.  Every term of a ranking is a token of
    the lower-cased text of some record: a run of two or more word
    characters.  One-character words, punctuation and blanks never make a
    term. *)
Theorem ranked_terms_are_tokens (max_features : nat) (texts : list cell)
    (ranking : list (pystr * R)) (t : pystr) :
  tfidf_ranking max_features texts = Ok ranking →
  t ∈ ranking.*1 →
  (∃ s, VStr s ∈ texts ∧ t ∈ tokenize (str_lower s))
  ∧ (2 ≤ length t)%nat
  ∧ forallb is_word t = true.
Proof.
  intros Hrank Ht.
  destruct (ranked_terms_from_vocabulary _ _ _ _ Hrank Ht) as (docs & -> & Hvoc).
  apply elem_of_first_seen in Hvoc as (d & (s & -> & Hs)%list_elem_of_fmap & Htd).
  split.
  - exists s. split; [|done]. apply list_elem_of_fmap. eauto.
  - clear Hrank Ht. revert t Htd. apply Forall_forall. by apply tokens_from_words.
Qed.

End Tokens.

(** ** When the keyword chart is drawn *)

Lemma documents_fillna_Ok texts :
  Forall (λ v, text_or_missing v = true) texts →
  documents (fillna_str texts) = Ok (text_of <$> texts).
Proof.
  induction 1 as [|v texts Hv _ IH]; [done|].
  change (documents (fillna_str (v :: texts)))
    with (document (if isna v then VStr [] else v)
          ≫= λ d, documents (fillna_str texts) ≫= λ ds, Ok (d :: ds)).
  rewrite IH. by destruct v.
Qed.

Lemma documents_fillna_inv texts docs :
  documents (fillna_str texts) = Ok docs →
  Forall (λ v, text_or_missing v = true) texts.
Proof.
  revert docs. induction texts as [|v texts IH]; intros docs; [constructor|].
  change (documents (fillna_str (v :: texts)))
    with (document (if isna v then VStr [] else v)
          ≫= λ d, documents (fillna_str texts) ≫= λ ds, Ok (d :: ds)).
  intros (d & Hd & H)%bind_Ok_inv. apply bind_Ok_inv in H as (ds & Hds & _).
  constructor; [by destruct v|by eapply IH].
Qed.

Lemma first_seen_nonempty (docs : list (list pystr)) :
  first_seen docs ≠ [] ↔ ∃ d, d ∈ docs ∧ d ≠ [].
Proof.
  split.
  - intros Hne. destruct (first_seen docs) as [|t l] eqn:E; [done|].
    assert (t ∈ first_seen docs) as (d & Hd & Ht)%elem_of_first_seen
      by (rewrite E; apply list_elem_of_here).
    exists d. split; [done|]. intros ->. by apply elem_of_nil in Ht.
  - intros (d & Hd & Hne) He. destruct d as [|t d]; [done|].
    assert (t ∈ first_seen docs) as Hin.
    { apply elem_of_first_seen. exists (t :: d). split; [done|apply list_elem_of_here]. }
    rewrite He in Hin. by apply elem_of_nil in Hin.
Qed.

Section Chart.
Context {rt : Runtime} {laws : RuntimeLaws rt}.

Lemma count_fit_transform_Ok_iff max_features docs :
  (∃ fit, count_fit_transform max_features docs = Ok fit)
  ↔ max_features ≠ O ∧ first_seen (analyze <$> docs) ≠ [].
Proof.
  unfold count_fit_transform. split.
  - intros [fit H]. destruct (decide (max_features = O)); [done|].
    destruct (decide (first_seen (analyze <$> docs) = [])); done.
  - intros [Hk Hvoc]. rewrite decide_False by done. rewrite decide_False by done.
    assert (docs ≠ []) as Hdocs by (by intros ->).
    rewrite decide_False by (destruct docs; [done|simpl; lia]).
    unfold limit_features. rewrite decide_False; [by eexists|].
    intros Hkept. pose proof (kept_length docs max_features) as Hlen.
    cbv zeta in Hlen. rewrite Hkept in Hlen. simpl in Hlen.
    assert (length (sorted (first_seen (analyze <$> docs))) ≠ O) as Hn.
    { unfold sorted. rewrite merge_sort_Permutation.
      by destruct (first_seen (analyze <$> docs)). }
    lia.
Qed.

Lemma analyze_nothing : analyze [] = [].
Proof. by apply analyze_blank. Qed.

(** X19. When the keyword chart is drawn.  The panel around the ranking
    shows a chart exactly when the term bound is positive, the text column
    is there, each of its cells is a string or missing, and some text has a
    token; in every other case it shows the not-enough-data notice. *)
Theorem keyword_chart_drawn_iff (max_features : nat) (df : DataFrame) (label : string) :
  ((∃ ranking, tfidf_panel max_features df label = Chart ranking)
   ↔ max_features ≠ O
     ∧ label ∈ df_columns df
     ∧ Forall (λ r, text_or_missing (cell_at label r) = true) (df_rows df)
     ∧ ∃ r s, r ∈ df_rows df ∧ cell_at label r = VStr s ∧ tokenize (str_lower s) ≠ [])
  ∧ ((∀ ranking, tfidf_panel max_features df label ≠ Chart ranking)
     → tfidf_panel max_features df label = NotEnoughData).
Proof.
  split; [|destruct (tfidf_panel max_features df label) as [r|]; [intros H; by destruct (H r)|done]].
  unfold tfidf_panel, getitem. destruct (decide (label ∈ df_columns df)) as [Hcol|Hcol].
  2: { simpl. split; [by intros [? ?]|]. by intros (_ & ? & _). }
  rewrite bind_Ok. unfold tfidf_ranking.
  set (texts := cell_at label <$> df_rows df).
  destruct (documents (fillna_str texts)) as [docs|e] eqn:Hdocs.
  2: { simpl. split; [by intros [? ?]|]. intros (_ & _ & Hall & _). exfalso.
       assert (Forall (λ v, text_or_missing v = true) texts) as Hall'
         by (unfold texts; apply Forall_fmap; exact Hall).
       rewrite (documents_fillna_Ok _ Hall') in Hdocs. done. }
  pose proof (documents_fillna_inv _ _ Hdocs) as Hall.
  rewrite (documents_fillna_Ok _ Hall) in Hdocs. injection Hdocs as <-.
  rewrite bind_Ok.
  assert (first_seen (analyze <$> (text_of <$> texts)) ≠ []
          ↔ ∃ r s, r ∈ df_rows df ∧ cell_at label r = VStr s ∧ tokenize (str_lower s) ≠ [])
    as Hvoc.
  { rewrite first_seen_nonempty. unfold texts. rewrite <- !list_fmap_compose. split.
    - intros (d & (r & -> & Hr)%list_elem_of_fmap & Hne). simpl in Hne.
      destruct (cell_at label r) as [s| | | |] eqn:Hc; simpl in Hne;
        try (by rewrite analyze_nothing in Hne). eauto.
    - intros (r & s & Hr & Hc & Hne). exists (analyze s). split; [|done].
      apply list_elem_of_fmap. exists r. split; [|done]. simpl. by rewrite Hc. }
  destruct (count_fit_transform max_features (text_of <$> texts)) as [fit|e] eqn:Hfit.
  - assert (max_features ≠ O ∧ first_seen (analyze <$> (text_of <$> texts)) ≠ [])
      as [Hk Hne] by (apply count_fit_transform_Ok_iff; eauto).
    simpl. split; [|by eexists]. intros _. split; [done|]. split; [done|].
    split; [unfold texts in Hall; by rewrite Forall_fmap in Hall|by apply Hvoc].
  - simpl. split; [by intros [? ?]|]. intros (Hk & _ & _ & Hne%Hvoc). exfalso.
    destruct (proj2 (count_fit_transform_Ok_iff max_features (text_of <$> texts)))
      as [fit Hfit']; [done|congruence].
Qed.

End Chart.

(** ** The order of the ranked terms *)

Lemma StronglySorted_seq a n : StronglySorted lt (seq a n).
Proof.
  revert a. induction n as [|n IH]; intros a; simpl; constructor; [apply IH|].
  apply Forall_forall. intros i Hi%elem_of_seq. lia.
Qed.

Lemma StronglySorted_filter {A} (R : relation A) (P : A → Prop) `{∀ x, Decision (P x)}
    (l : list A) :
  StronglySorted R l → StronglySorted R (filter P l).
Proof.
  induction 1 as [|x l Hl IH Hx]; [constructor|].
  rewrite filter_cons. case_decide; [|done]. constructor; [done|].
  apply Forall_forall. intros y [_ Hy]%list_elem_of_filter.
  by apply (proj1 (Forall_forall _ _) Hx).
Qed.

Lemma StronglySorted_distinct {A} (R : relation A) (l : list A) :
  StronglySorted R l → NoDup l → StronglySorted (λ a b, R a b ∧ a ≠ b) l.
Proof.
  induction 1 as [|x l Hl IH Hx]; [constructor|].
  intros [Hnx Hnd]%NoDup_cons. constructor; [by apply IH|].
  apply Forall_forall. intros y Hy. split.
  - by apply (proj1 (Forall_forall _ _) Hx).
  - by intros ->.
Qed.

Lemma StronglySorted_nth {A} (R : relation A) (l : list A) i j d :
  StronglySorted R l → (i < j)%nat → (j < length l)%nat → R (nth i l d) (nth j l d).
Proof.
  intros Hl. revert i j. induction Hl as [|x l Hl IH Hx]; intros i j Hij Hj; simpl in *.
  - lia.
  - destruct j as [|j]; [lia|]. destruct i as [|i].
    + apply (proj1 (Forall_forall _ _) Hx). apply (elem_of_nth_lt _ _ d).
      exists j. split; [lia|done].
    + apply IH; lia.
Qed.

Lemma StronglySorted_fmap_nth {A} (R : relation A) (l : list A) (idx : list nat) d :
  StronglySorted R l → StronglySorted lt idx → Forall (λ i, (i < length l)%nat) idx →
  StronglySorted R ((λ i, nth i l d) <$> idx).
Proof.
  intros Hl Hidx. induction Hidx as [|i idx Hidx IH Hi]; [constructor|].
  intros [Hil Hall]%Forall_cons. simpl. constructor; [by apply IH|].
  apply Forall_fmap, Forall_forall. intros j Hj. simpl.
  apply StronglySorted_nth; [done| |].
  - by apply (proj1 (Forall_forall _ _) Hi).
  - by apply (proj1 (Forall_forall _ _) Hall).
Qed.

Section Order.
Context {rt : Runtime}.

(** X20. The terms of a ranking come in strictly rising code-point order,
    the order of [get_feature_names_out], whatever the scores are. *)
Theorem ranked_terms_in_order (max_features : nat) (texts : list cell)
    (ranking : list (pystr * R)) :
  tfidf_ranking max_features texts = Ok ranking →
  StronglySorted (λ a b, str_le a b ∧ a ≠ b) ranking.*1.
Proof.
  unfold tfidf_ranking. intros H.
  apply bind_Ok_inv in H as (docs & _ & H).
  apply bind_Ok_inv in H as ([X' terms] & Hfit & [= <-]).
  rewrite ranking_terms. simpl.
  apply count_fit_transform_inv in Hfit as [_ ->]. cbv zeta.
  apply StronglySorted_fmap_nth.
  - apply StronglySorted_distinct.
    + apply StronglySorted_merge_sort; [apply str_le_trans|apply str_le_total].
    + unfold sorted. rewrite merge_sort_Permutation. apply NoDup_first_seen.
  - unfold where_. apply StronglySorted_filter, StronglySorted_seq.
  - apply Forall_forall. intros j Hj. by eapply kept_in_range.
Qed.

End Order.

(** ** The size of the scores *)

Section Scores.
Open Scope R_scope.

Lemma idf_pos (n_samples df : Z) : (0 ≤ df ≤ n_samples)%Z → 0 < idf n_samples df.
Proof.
  intros [H0 Hn]. unfold idf.
  apply IZR_le in H0, Hn.
  assert (0 < 1 + IZR df) by lra.
  assert (1 <= (1 + IZR n_samples) / (1 + IZR df)) as H1.
  { apply (Rmult_le_reg_r (1 + IZR df)); [done|].
    unfold Rdiv. rewrite Rmult_assoc, Rinv_l by lra. lra. }
  destruct H1 as [H1| <-].
  - pose proof (ln_increasing 1 _ Rlt_0_1 H1) as Hln. rewrite ln_1 in Hln. lra.
  - rewrite ln_1. lra.
Qed.

Lemma elem_le_sum_R (l : list R) x : Forall (λ y, 0 <= y) l → x ∈ l → x <= sum_R l.
Proof.
  induction 1 as [|y l Hy Hl IH]; intros Hin; [by apply elem_of_nil in Hin|].
  pose proof (sum_R_nonneg l Hl) as Hs. unfold sum_R in *.
  apply elem_of_cons in Hin as [->|Hin]; simpl.
  - lra.
  - specialize (IH Hin). lra.
Qed.

Lemma elem_le_l2_norm (row : list R) x :
  Forall (λ y, 0 <= y) row → x ∈ row → x <= l2_norm row.
Proof.
  intros Hrow Hx. unfold l2_norm.
  assert (0 <= x) as H0 by (by apply (proj1 (Forall_forall _ _) Hrow)).
  rewrite <- (sqrt_square x) at 1 by done.
  apply sqrt_le_1_alt, elem_le_sum_R.
  - apply Forall_fmap, Forall_forall. intros y _. simpl. nra.
  - by apply (list_elem_of_fmap_2 (λ x, x * x)).
Qed.

Lemma l2_normalize_unit (row : list R) :
  Forall (λ x, 0 <= x) row → Forall (λ x, 0 <= x <= 1) (l2_normalize row).
Proof.
  intros Hrow. pose proof (l2_normalize_nonneg row Hrow) as Hnn.
  apply Forall_forall. intros y Hy. split; [by apply (proj1 (Forall_forall _ _) Hnn)|].
  unfold l2_normalize in Hy. destruct (Req_dec_T _ _) as [E|Hne].
  - pose proof (elem_le_l2_norm row y Hrow Hy). lra.
  - apply list_elem_of_fmap_1 in Hy as (x & -> & Hx).
    pose proof (elem_le_l2_norm row x Hrow Hx) as Hle.
    assert (0 < l2_norm row) as Hpos.
    { pose proof (sqrt_pos (sum_R ((λ x, x * x) <$> row))). unfold l2_norm in *. lra. }
    apply (Rmult_le_reg_r (l2_norm row)); [done|].
    unfold Rdiv. rewrite Rmult_assoc, Rinv_l by done. lra.
Qed.

Lemma l2_normalize_lookup_pos (row : list R) p v :
  Forall (λ x, 0 <= x) row → row !! p = Some v → 0 < v → 0 < nth p (l2_normalize row) 0.
Proof.
  intros Hrow Hp Hv.
  assert (v <= l2_norm row) as Hle.
  { apply elem_le_l2_norm; [done|]. by eapply list_elem_of_lookup_2. }
  unfold l2_normalize. destruct (Req_dec_T _ _) as [E|Hne]; [lra|].
  rewrite nth_lookup, list_lookup_fmap, Hp. simpl.
  apply Rdiv_lt_0_compat; lra.
Qed.

Lemma weighted_nonneg (X : list (list Z)) n_features (row : list Z) :
  Forall (λ x, (0 ≤ x)%Z) row →
  Forall (λ x, 0 <= x)
    (zip_with (λ x w, IZR x * w) row
       (idf (Z.of_nat (length X)) <$> document_frequency X n_features)).
Proof.
  intros Hrow. eapply Forall_zip_with_fst; [exact Hrow|].
  apply Forall_fmap.
  eapply Forall_impl; [apply document_frequency_bounds|].
  intros df Hdf x Hx. simpl. apply Rmult_le_pos; [by apply IZR_le|by apply idf_nonneg].
Qed.

Lemma tfidf_transform_unit (X : list (list Z)) n_features :
  Forall (Forall (λ x, (0 ≤ x)%Z)) X →
  Forall (Forall (λ x, 0 <= x <= 1)) (tfidf_transform X n_features).
Proof.
  intros HX. unfold tfidf_transform. apply Forall_fmap.
  eapply Forall_impl; [exact HX|]. intros row Hrow. simpl.
  by apply l2_normalize_unit, weighted_nonneg.
Qed.

Lemma sum_R_le_length (l : list R) : Forall (λ x, x <= 1) l → sum_R l <= INR (length l).
Proof.
  induction 1 as [|x l Hx _ IH]; [simpl; lra|].
  change (length (x :: l)) with (S (length l)). rewrite S_INR.
  unfold sum_R in *. simpl. lra.
Qed.

Lemma column_sums_bounded (M : list (list R)) n_features :
  Forall (Forall (λ x, 0 <= x <= 1)) M →
  Forall (λ x, x <= INR (length M)) (column_sums M n_features).
Proof.
  intros HM. unfold column_sums. apply Forall_fmap, Forall_forall. intros j _. simpl.
  replace (length M) with (length (column 0 M j)) by (unfold column; apply length_fmap).
  apply sum_R_le_length. unfold column. apply Forall_fmap.
  eapply Forall_impl; [exact HM|]. intros row Hrow. simpl.
  rewrite nth_lookup. destruct (row !! j) as [x|] eqn:E; simpl; [|lra].
  by apply (Forall_lookup_1 _ _ _ _ Hrow E).
Qed.

Lemma restricted_nonneg (kept : list nat) (X : list (list Z)) :
  Forall (Forall (λ x, (0 ≤ x)%Z)) X →
  Forall (Forall (λ x, (0 ≤ x)%Z)) ((λ row, (λ j, nth j row 0%Z) <$> kept) <$> X).
Proof.
  intros HX. apply Forall_fmap.
  eapply Forall_impl; [exact HX|]. intros row Hrow. simpl.
  apply Forall_fmap, Forall_forall. intros j _. simpl.
  rewrite nth_lookup. destruct (row !! j) as [x|] eqn:E; simpl; [|done].
  by eapply (Forall_lookup_1 _ _ _ _ Hrow).
Qed.

Context {rt : Runtime} {laws : RuntimeLaws rt}.

(** X21. Every score on a keyword chart is positive - the treemap of the blog tab
    has no tile of area zero - and none exceeds the number of texts ranked:
    a text adds at most 1 to a term, its row having norm 1.  (Real
    arithmetic stands for the floats.) *)
Theorem scores_positive_and_bounded (max_features : nat) (texts : list cell)
    (ranking : list (pystr * R)) :
  tfidf_ranking max_features texts = Ok ranking →
  Forall (λ entry, 0 < entry.2 <= INR (length texts)) ranking.
Proof.
  unfold tfidf_ranking. intros H.
  apply bind_Ok_inv in H as (docs & Hdocs%documents_inv & H).
  apply bind_Ok_inv in H as ([X' terms] & Hfit & [= <-]).
  apply count_fit_transform_inv in Hfit as [HX Hterms]. cbv zeta in HX, Hterms.
  set (analyzed := analyze <$> docs) in *.
  set (vocabulary := sorted (first_seen analyzed)) in *.
  set (X := count_matrix vocabulary analyzed) in *.
  set (kept := where_ _) in *.
  assert (Forall (Forall (λ x, (0 ≤ x)%Z)) X') as Hnn.
  { rewrite HX. apply restricted_nonneg, count_matrix_nonneg. }
  assert (length X' = length texts) as Hlen.
  { rewrite HX, Hdocs, !length_fmap. unfold X, count_matrix, analyzed.
    by rewrite !length_fmap. }
  unfold scored. simpl. set (m := length terms).
  set (M := tfidf_transform X' m).
  apply Forall_forall. intros [t w] Hin. simpl.
  split.
  - apply elem_of_lookup_zip_with in Hin as (p & t' & w' & [= <- <-] & Ht & Hw).
    unfold column_sums in Hw. rewrite list_lookup_fmap in Hw.
    destruct (seq 0 m !! p) as [p'|] eqn:Hp; [|done].
    apply lookup_seq in Hp as [-> Hp]. simpl in Hw. injection Hw as <-.
    rewrite Hterms, list_lookup_fmap in Ht.
    destruct (kept !! p) as [j|] eqn:Hj; [|done]. simpl in Ht. injection Ht as <-.
    assert (j < length vocabulary)%nat as Hjv.
    { eapply kept_in_range. by eapply list_elem_of_lookup_2. }
    assert (nth j vocabulary [] ∈ first_seen analyzed) as (d & Hd & Htd)%elem_of_first_seen.
    { rewrite <- (sorted_Permutation (first_seen analyzed)).
      apply (elem_of_nth_lt _ _ []). eauto. }
    set (row := (λ t, count_of t d) <$> vocabulary).
    set (row' := (λ j, nth j row 0%Z) <$> kept).
    set (idfs := idf (Z.of_nat (length X')) <$> document_frequency X' m).
    set (weighted := zip_with (λ x w, IZR x * w) row' idfs).
    assert (l2_normalize weighted ∈ M) as HM.
    { unfold M, tfidf_transform. cbv zeta.
      apply (list_elem_of_fmap_2 (λ row, l2_normalize (zip_with (λ x w, IZR x * w) row _))).
      rewrite HX. apply (list_elem_of_fmap_2 (λ row, (λ j, nth j row 0%Z) <$> kept)).
      unfold X, count_matrix.
      by apply (list_elem_of_fmap_2 (λ d, (λ t, count_of t d) <$> vocabulary)). }
    assert (Forall (λ x, (0 ≤ x)%Z) row') as Hrow'.
    { apply (proj1 (Forall_forall _ _) Hnn). rewrite HX.
      apply (list_elem_of_fmap_2 (λ row, (λ j, nth j row 0%Z) <$> kept)).
      unfold X, count_matrix.
      by apply (list_elem_of_fmap_2 (λ d, (λ t, count_of t d) <$> vocabulary)). }
    assert (∃ df, idfs !! p = Some (idf (Z.of_nat (length X')) df)
                  ∧ (0 ≤ df ≤ Z.of_nat (length X'))%Z) as (df & Hidf & Hdf).
    { unfold idfs. rewrite list_lookup_fmap.
      destruct (lookup_lt_is_Some_2 (document_frequency X' m) p) as [df Hdf].
      { unfold document_frequency. rewrite length_fmap, length_seq. exact Hp. }
      exists df. rewrite Hdf. split; [done|].
      apply (Forall_lookup_1 _ _ _ _ (document_frequency_bounds X' m) Hdf). }
    assert (weighted !! p
            = Some (IZR (count_of (nth j vocabulary []) d)
                    * idf (Z.of_nat (length X')) df)) as Hwp.
    { unfold weighted. apply lookup_zip_with_Some.
      eexists _, _. split; [reflexivity|]. split; [|exact Hidf].
      unfold row'. rewrite list_lookup_fmap, Hj. simpl. f_equal.
      exact (nth_fmap_lt (λ t, count_of t d) vocabulary j [] 0%Z Hjv). }
    apply (Rlt_le_trans _ (nth p (l2_normalize weighted) 0)).
    + apply (l2_normalize_lookup_pos _ _ _ (weighted_nonneg X' m row' Hrow') Hwp).
      apply Rmult_lt_0_compat; [|by apply idf_pos].
      apply IZR_lt. pose proof (count_of_nonneg (nth j vocabulary []) d).
      pose proof (count_of_pos _ _ Htd). lia.
    + apply elem_le_sum_R.
      * unfold column. apply Forall_fmap.
        eapply Forall_impl; [exact (tfidf_transform_nonneg X' m Hnn)|].
        intros r. apply nth_nonneg.
      * by apply (list_elem_of_fmap_2 (λ row, nth p row 0)).
  - apply elem_of_zip_r in Hin. rewrite <- Hlen.
    replace (length X') with (length M)
      by (unfold M, tfidf_transform; cbv zeta; apply length_fmap).
    revert w Hin. apply Forall_forall, column_sums_bounded, tfidf_transform_unit, Hnn.
Qed.

End Scores.

(** ** The rankings of two small collections *)

Lemma sample_descriptions_ranked :
  ∃ fit, tfidf_ranking (rt := ascii_runtime) 30 (fillna_str sample_descriptions)
         = Ok (scored fit)
    ∧ fit.2 = [py "and"; py "for"; py "more"; py "round"; py "sale"; py "summer";
               py "sunglasses"].
Proof.
  eexists. split.
  - unfold tfidf_ranking.
    change (documents (fillna_str sample_descriptions))
      with (Ok (A := list pystr)
              [py "Round sunglasses for summer"; [];
               py "summer sale: sunglasses, sunglasses and more"; py "a b c"]).
    rewrite bind_Ok.
    match goal with |- ?c ≫= _ = _ =>
      let r := eval vm_compute in c in change c with r end.
    by rewrite bind_Ok.
  - by vm_compute.
Qed.

Lemma ranked_terms_are_tokens_witness :
  ∃ ranking,
    tfidf_ranking (rt := ascii_runtime) 30 (fillna_str sample_descriptions) = Ok ranking
    ∧ py "sunglasses" ∈ ranking.*1
    ∧ (∃ s, VStr s ∈ fillna_str sample_descriptions
            ∧ py "sunglasses" ∈ tokenize (rt := ascii_runtime)
                                   (str_lower (Runtime := ascii_runtime) s))
    ∧ (2 ≤ length (py "sunglasses"))%nat
    ∧ forallb (is_word (rt := ascii_runtime)) (py "sunglasses") = true.
Proof.
  destruct sample_descriptions_ranked as (fit & Hrank & Hterms).
  exists (scored fit).
  assert (py "sunglasses" ∈ (scored fit).*1) as Hin.
  { rewrite ranking_terms, Hterms. by_computation. }
  split; [exact Hrank|]. split; [exact Hin|].
  exact (ranked_terms_are_tokens (rt := ascii_runtime) 30 _ _ _ Hrank Hin).
Defined.

Lemma keyword_chart_drawn_iff_witness :
  let blog := blog_df (load_and_preprocess_data (rt := ascii_runtime) full_files) in
  "description" ∈ df_columns blog
  ∧ Forall (λ r, text_or_missing (cell_at "description" r) = true) (df_rows blog)
  ∧ ∃ ranking, tfidf_panel (rt := ascii_runtime) 30 blog "description" = Chart ranking.
Proof.
  intros blog.
  assert ("description" ∈ df_columns blog) as Hcol by by_computation.
  assert (Forall (λ r, text_or_missing (cell_at "description" r) = true) (df_rows blog))
    as Hall by by_computation.
  split; [exact Hcol|]. split; [exact Hall|].
  apply (proj2 (proj1 (keyword_chart_drawn_iff (rt := ascii_runtime) 30 blog "description"))).
  split; [done|]. split; [exact Hcol|]. split; [exact Hall|].
  assert (Exists (λ r, match cell_at "description" r with
                       | VStr s => bool_decide (tokenize (rt := ascii_runtime)
                                                  (str_lower (Runtime := ascii_runtime) s) ≠ [])
                       | _ => false
                       end = true) (df_rows blog)) as Hex by by_computation.
  apply Exists_exists in Hex as (r & Hr & Hs).
  destruct (cell_at "description" r) as [s| | | |] eqn:E; try done.
  exists r, s. split; [exact Hr|]. split; [exact E|]. by apply bool_decide_eq_true in Hs.
Defined.

Lemma ranked_terms_in_order_witness :
  ∃ ranking,
    tfidf_ranking (rt := ascii_runtime) 30 (fillna_str sample_descriptions) = Ok ranking
    ∧ ranking.*1 = [py "and"; py "for"; py "more"; py "round"; py "sale"; py "summer";
                    py "sunglasses"]
    ∧ StronglySorted (λ a b, str_le a b ∧ a ≠ b) ranking.*1.
Proof.
  destruct sample_descriptions_ranked as (fit & Hrank & Hterms).
  exists (scored fit).
  split; [exact Hrank|]. split; [by rewrite ranking_terms|].
  exact (ranked_terms_in_order (rt := ascii_runtime) 30 _ _ Hrank).
Defined.

Lemma scores_positive_and_bounded_witness :
  ∃ ranking,
    tfidf_ranking (rt := ascii_runtime) 30 (fillna_str sample_descriptions) = Ok ranking
    ∧ length ranking = 7%nat
    ∧ length (fillna_str sample_descriptions) = 4%nat
    ∧ Forall (λ entry, (0 < entry.2 <= INR (length (fillna_str sample_descriptions)))%R)
        ranking.
Proof.
  destruct sample_descriptions_ranked as (fit & Hrank & Hterms).
  exists (scored fit).
  split; [exact Hrank|]. split; [by rewrite <- (length_fmap fst), ranking_terms, Hterms|].
  split; [reflexivity|].
  exact (scores_positive_and_bounded (rt := ascii_runtime) 30 _ _ Hrank).
Defined.

(** ** The table of the latest posts *)

Lemma fmap_nth_seq {A} (l : list A) d : (λ i, nth i l d) <$> seq 0 (length l) = l.
Proof.
  apply list_eq. intros i. rewrite list_lookup_fmap.
  destruct (decide (i < length l)%nat) as [Hi|Hi].
  - rewrite lookup_seq_lt by done. simpl. rewrite nth_lookup.
    destruct (lookup_lt_is_Some_2 l i Hi) as [x ->]. done.
  - rewrite lookup_seq_ge, lookup_ge_None_2 by lia. done.
Qed.

Lemma StronglySorted_reverse {A} (R : relation A) (l : list A) :
  StronglySorted R l → StronglySorted (flip R) (reverse l).
Proof.
  induction 1 as [|x l Hl IH Hx]; [constructor|].
  rewrite reverse_cons. apply StronglySorted_app_2; [|done|repeat constructor].
  intros a b Ha ->%list_elem_of_singleton. unfold flip.
  rewrite elem_of_reverse in Ha. by apply (proj1 (Forall_forall _ _) Hx).
Qed.

Lemma StronglySorted_transfer {A B C} (R1 : relation B) (R2 : relation C)
    (f : A → B) (g : A → C) (l : list A) :
  (∀ x y, x ∈ l → y ∈ l → R1 (f x) (f y) → R2 (g x) (g y)) →
  StronglySorted R1 (f <$> l) → StronglySorted R2 (g <$> l).
Proof.
  induction l as [|x l IH]; intros Himp; [constructor|].
  rewrite !fmap_cons. intros [Hx Hl]%StronglySorted_cons.
  constructor.
  - apply IH; [|done]. intros a b Ha Hb. apply Himp; by apply list_elem_of_further.
  - apply Forall_fmap, Forall_forall. intros y Hy. simpl.
    apply Himp; [apply list_elem_of_here|by apply list_elem_of_further|].
    apply (proj1 (Forall_forall _ _) Hx). by apply list_elem_of_fmap_2.
Qed.

Lemma where_complement (mask : list bool) :
  where_ (negb <$> mask) ++ where_ mask ≡ₚ seq 0 (length mask).
Proof.
  unfold where_. rewrite length_fmap.
  rewrite (filter_ext_elem (λ j, nth j (negb <$> mask) false = true)
             (λ j, ¬ nth j mask false = true) (seq 0 (length mask))).
  - rewrite (comm app). apply filter_app_complement.
  - intros j [_ Hj]%elem_of_seq. simpl in Hj.
    rewrite (nth_fmap_lt negb mask j false false Hj).
    destruct (nth j mask false); simpl; split; congruence.
Qed.

Lemma datetime_values_length s items :
  datetime_values s = Some items → length items = length s.
Proof. intros H%mapM_Some_1. symmetry. by eapply Forall2_length. Qed.

Lemma datetime_values_nth s items i :
  datetime_values s = Some items → (i < length s)%nat →
  datetime_value (nth i s VNaN) = Some (nth i items None).
Proof.
  intros H%mapM_Some_1 Hi.
  destruct (lookup_lt_is_Some_2 s i Hi) as [v Hv].
  destruct (Forall2_lookup_l _ _ _ _ _ H Hv) as (o & Ho & Hvo).
  by rewrite !nth_lookup, Hv, Ho.
Qed.

Lemma datetime_values_Some s :
  Forall (λ v, is_datetime v = true) s → ∃ items, datetime_values s = Some items.
Proof.
  intros Hall. apply (mapM_is_Some_2 datetime_value).
  eapply Forall_impl; [exact Hall|]. intros v Hv. simpl. by destruct v.
Qed.

Lemma not_less_not_older a b ka kb :
  datetime_value a = Some ka → datetime_value b = Some kb →
  not_less ka kb → not_older a b.
Proof.
  destruct a, b; simpl; intros [= <-] [= <-]; simpl; done.
Qed.

Lemma getitems_Ok df labels :
  Forall (λ l, l ∈ df_columns df) labels →
  getitems df labels
  = Ok {| df_columns := labels;
          df_rows := (λ r, filter (λ kv, kv.1 ∈ labels) r) <$> df_rows df |}.
Proof.
  intros Hall. unfold getitems.
  destruct (filter _ labels) as [|l rest] eqn:E; [done|]. exfalso.
  assert (l ∈ filter (λ l, l ∉ df_columns df) labels) as [Hn Hl]%list_elem_of_filter
    by (rewrite E; apply list_elem_of_here).
  by apply Hn, (proj1 (Forall_forall _ _) Hall).
Qed.

Lemma cell_at_chosen (labels : list string) label (r : gmap string cell) :
  label ∈ labels → cell_at label (filter (λ kv, kv.1 ∈ labels) r) = cell_at label r.
Proof.
  intros Hl. unfold cell_at. f_equal.
  destruct (r !! label) as [v|] eqn:E.
  - by apply map_lookup_filter_Some_2.
  - apply map_lookup_filter_None_2. by left.
Qed.

Section Latest.
Context {rt : Runtime} {laws : RuntimeLaws rt}.

Lemma nargsort_descending_perm (items : list (option Z)) :
  nargsort_descending items ≡ₚ seq 0 (length items).
Proof.
  unfold nargsort_descending.
  set (mask := (λ v, bool_decide (v = None)) <$> items).
  set (non_nan_idx := reverse (where_ (negb <$> mask))).
  set (non_nans := (λ i, default 0 (nth i items None)) <$> non_nan_idx).
  rewrite reverse_Permutation, (argsort_perm non_nans).
  unfold non_nans. rewrite length_fmap, fmap_nth_seq.
  unfold non_nan_idx. rewrite reverse_Permutation, where_complement.
  unfold mask. by rewrite length_fmap.
Qed.

Lemma nargsort_descending_sorted (items : list (option Z)) :
  StronglySorted not_less ((λ i, nth i items None) <$> nargsort_descending items).
Proof.
  unfold nargsort_descending.
  set (mask := (λ v, bool_decide (v = None)) <$> items).
  set (non_nan_idx := reverse (where_ (negb <$> mask))).
  set (non_nans := (λ i, default 0 (nth i items None)) <$> non_nan_idx).
  rewrite fmap_app. apply StronglySorted_app_2.
  - intros a b _ (j & -> & [Hj Hm]%elem_of_where)%list_elem_of_fmap_1.
    unfold mask in Hj, Hm. rewrite length_fmap in Hj.
    rewrite (nth_fmap_lt (λ v, bool_decide (v = None)) items j None false Hj) in Hm.
    apply bool_decide_eq_true in Hm. by rewrite Hm.
  - rewrite fmap_reverse, <- list_fmap_compose.
    assert ((λ i, nth i items None) ∘ (λ p, nth p non_nan_idx O) <$> argsort non_nans
            = Some <$> ((λ p, nth p non_nans 0) <$> argsort non_nans)) as ->.
    { rewrite <- list_fmap_compose. apply list_fmap_ext. intros _ p Hp%list_elem_of_lookup_2.
      simpl. apply argsort_elem in Hp. unfold non_nans in Hp. rewrite length_fmap in Hp.
      unfold non_nans.
      rewrite (nth_fmap_lt (λ i, default 0 (nth i items None)) non_nan_idx p O 0 Hp).
      assert (nth p non_nan_idx O ∈ where_ (negb <$> mask)) as [Hi Hm]%elem_of_where.
      { apply elem_of_reverse. fold non_nan_idx. apply (elem_of_nth_lt _ _ O). eauto. }
      unfold mask in Hi, Hm. rewrite !length_fmap in Hi.
      rewrite <- list_fmap_compose in Hm.
      rewrite (nth_fmap_lt (negb ∘ (λ v, bool_decide (v = None))) items _ None false Hi)
        in Hm.
      simpl in Hm. destruct (nth (nth p non_nan_idx O) items None); [done|].
      by rewrite bool_decide_eq_true_2 in Hm. }
    rewrite <- fmap_reverse.
    apply (StronglySorted_fmap _ (flip Z.le)); [done|].
    apply StronglySorted_reverse, argsort_sorted.
  - apply (StronglySorted_transfer (λ _ _, True) _ (λ _, ()) _).
    + intros i j _ (Hj & Hm)%elem_of_where _.
      unfold mask in Hj, Hm. rewrite length_fmap in Hj.
      rewrite (nth_fmap_lt (λ v, bool_decide (v = None)) items j None false Hj) in Hm.
      apply bool_decide_eq_true in Hm. by rewrite Hm.
    + generalize (where_ mask). intros l. induction l; constructor; [done|].
      by apply Forall_fmap, Forall_forall.
Qed.

Lemma latest_posts_Ok (blog : DataFrame) :
  let labels := ["postdate"; "bloggername"; "title"; "target_keyword"] in
  Forall (λ l, l ∈ df_columns blog) labels →
  datetime_column blog "postdate" →
  ∃ chosen items,
    getitems blog labels = Ok chosen
    ∧ df_columns chosen = labels
    ∧ df_rows chosen = (λ r, filter (λ kv, kv.1 ∈ labels) r) <$> df_rows blog
    ∧ datetime_values (cell_at "postdate" <$> df_rows chosen) = Some items
    ∧ latest_posts blog
      = Ok (Some (df_head 20 (df_take chosen (nargsort_descending items)))).
Proof.
  intros labels Hcols [_ Hdt].
  pose proof (getitems_Ok blog labels Hcols) as Hget.
  set (chosen := {| df_columns := labels; df_rows := _ |}) in Hget.
  assert (cell_at "postdate" <$> df_rows chosen = cell_at "postdate" <$> df_rows blog)
    as Hcol.
  { unfold chosen. cbn [df_rows]. rewrite <- list_fmap_compose.
    apply list_fmap_ext. intros _ r _. simpl. apply cell_at_chosen.
    unfold labels. apply list_elem_of_here. }
  destruct (datetime_values_Some (cell_at "postdate" <$> df_rows blog)) as [items Hitems].
  { by apply Forall_fmap. }
  exists chosen, items. split; [exact Hget|]. split; [done|]. split; [done|].
  split; [by rewrite Hcol|].
  unfold latest_posts. fold labels. rewrite Hget, bind_Ok. cbv beta.
  unfold sort_values_descending.
  rewrite getitem_Ok by (unfold chosen, labels; cbn [df_columns]; apply list_elem_of_here).
  rewrite bind_Ok. cbv beta. rewrite Hcol, Hitems. by rewrite bind_Ok.
Qed.

(** X22. The table of the latest posts.  On a blog table that has the four
    columns of the table, [postdate] holding timestamps and NaT, the table
    is drawn: it has those four columns and the twenty first records, or
    all of them when there are fewer, of an arrangement of the records in
    which no record stands above one of a later date and the records
    without date come last.  So no record left out is later than one
    shown. *)
Theorem latest_posts_are_latest (blog : DataFrame) :
  let labels := ["postdate"; "bloggername"; "title"; "target_keyword"] in
  Forall (λ l, l ∈ df_columns blog) labels →
  datetime_column blog "postdate" →
  ∃ chosen table rest,
    getitems blog labels = Ok chosen
    ∧ latest_posts blog = Ok (Some table)
    ∧ df_columns table = labels
    ∧ length (df_rows table) = (20 `min` length (df_rows blog))%nat
    ∧ df_rows table ++ rest ≡ₚ df_rows chosen
    ∧ StronglySorted not_older (cell_at "postdate" <$> df_rows table ++ rest).
Proof.
  intros labels Hcols Hdt.
  destruct (latest_posts_Ok blog Hcols Hdt)
    as (chosen & items & Hget & Hlabels & Hrows & Hitems & Hlatest).
  fold labels in Hget, Hlabels, Hrows.
  set (indexer := nargsort_descending items) in *.
  set (ordered := (λ i, nth i (df_rows chosen) ∅) <$> indexer).
  assert (length items = length (df_rows chosen)) as Hlen.
  { rewrite (datetime_values_length _ _ Hitems). by rewrite length_fmap. }
  assert (ordered ≡ₚ df_rows chosen) as Hperm.
  { unfold ordered, indexer. rewrite nargsort_descending_perm, Hlen.
    by rewrite fmap_nth_seq. }
  exists chosen, (df_head 20 (df_take chosen indexer)), (drop 20 ordered).
  split; [exact Hget|]. split; [exact Hlatest|]. split; [exact Hlabels|].
  cbn [df_head df_take df_rows]. fold ordered.
  split.
  { rewrite length_take, Hperm, Hrows. by rewrite length_fmap. }
  rewrite take_drop. split; [exact Hperm|].
  unfold ordered. rewrite <- list_fmap_compose.
  apply (StronglySorted_transfer not_less not_older (λ i, nth i items None)).
  2: apply nargsort_descending_sorted.
  assert (∀ i, i ∈ indexer →
            datetime_value (cell_at "postdate" (nth i (df_rows chosen) ∅))
            = Some (nth i items None)) as Hval.
  { intros i Hi. unfold indexer in Hi. rewrite nargsort_descending_perm in Hi.
    apply elem_of_seq in Hi as [_ Hi]. simpl in Hi. rewrite Hlen in Hi.
    rewrite <- (nth_fmap_lt (cell_at "postdate") (df_rows chosen) i ∅ VNaN Hi).
    apply datetime_values_nth; [done|]. by rewrite length_fmap. }
  intros i j Hi Hj. simpl. apply not_less_not_older; by apply Hval.
Qed.

(** X23. The table of the latest posts in a run of the script.  Whatever
    the files, the selection and the dates, when the filter block has
    returned and the blog table it hands on has the columns [bloggername]
    and [title], the sort finds [postdate] a column of timestamps and NaT,
    as the loader parsed it, and the table is drawn: nothing raises.  It
    shows at most twenty records, each a record of the blog table that was
    loaded, cut to the four columns. *)
Theorem latest_posts_of_run (files : list (pystr * result DataFrame))
    (selected : list pystr) (dr : list Z) (f : filtered) :
  let data := load_and_preprocess_data files in
  let labels := ["postdate"; "bloggername"; "title"; "target_keyword"] in
  filter_block (trend_df data) (blog_df data) (shop_df data) (news_df data) selected dr
  = Ok f →
  "bloggername" ∈ df_columns (f_blog f) →
  "title" ∈ df_columns (f_blog f) →
  ∃ table,
    latest_posts (f_blog f) = Ok (Some table)
    ∧ (length (df_rows table) ≤ 20)%nat
    ∧ ∀ r, r ∈ df_rows table →
        ∃ r0, r0 ∈ df_rows (blog_df data) ∧ r = filter (λ kv, kv.1 ∈ labels) r0.
Proof.
  intros data labels Hf Hblogger Htitle.
  assert (df_columns (f_blog f) = df_columns (blog_df data)
          ∧ (∀ r, r ∈ df_rows (f_blog f) → r ∈ df_rows (blog_df data))
          ∧ (well_loaded Blog (blog_df data) → well_loaded Blog (f_blog f)))
    as (Hcols & Hsub & Hkeep).
  { apply filter_block_cases in Hf as [(a & b & _ & _ & ->)|[_ ->]]; simpl.
    - split; [done|]. split; [by intros r [_ ?]%list_elem_of_filter|].
      intros [[Hk Hks] Hd]. split; [split; [done|]|].
      + simpl. apply Forall_forall. intros r [_ Hr]%list_elem_of_filter.
        by apply (proj1 (Forall_forall _ _) Hks).
      + simpl. by apply (datetime_column_kept (blog_df data) "postdate").
    - done. }
  assert (well_loaded Blog (f_blog f)) as [[Hkw _] Hdt].
  { apply Hkeep. destruct (loaded_table_cases files Blog) as [He|Hw]; [|exact Hw].
    change (table_of (load_and_preprocess_data files) Blog) with (blog_df data) in He.
    rewrite Hcols, He in Hblogger. by apply elem_of_nil in Hblogger. }
  simpl in Hdt.
  assert (Forall (λ l, l ∈ df_columns (f_blog f)) labels) as Hall.
  { destruct Hdt as [Hp _]. unfold labels. by repeat constructor. }
  destruct (latest_posts_Ok (f_blog f) Hall Hdt)
    as (chosen & items & _ & _ & Hrows & Hitems & Hlatest).
  fold labels in Hrows.
  eexists. split; [exact Hlatest|]. cbn [df_head df_take df_rows].
  split; [rewrite length_take; lia|].
  intros r Hr. apply (subseteq_take 20) in Hr.
  apply list_elem_of_fmap_1 in Hr as (i & -> & Hi).
  rewrite nargsort_descending_perm in Hi. apply elem_of_seq in Hi as [_ Hi]. simpl in Hi.
  rewrite (datetime_values_length _ _ Hitems), length_fmap in Hi.
  assert (nth i (df_rows chosen) ∅ ∈ df_rows chosen) as Hin
    by (apply (elem_of_nth_lt _ _ ∅); eauto).
  rewrite Hrows in Hin. apply list_elem_of_fmap_1 in Hin as (r0 & Hr & Hr0).
  exists r0. split; [by apply Hsub|]. rewrite Hrows. exact Hr.
Qed.

End Latest.

Lemma latest_posts_are_latest_witness :
  let labels := ["postdate"; "bloggername"; "title"; "target_keyword"] in
  Forall (λ l, l ∈ df_columns five_posts) labels
  ∧ datetime_column five_posts "postdate"
  ∧ ∃ chosen table rest,
      getitems five_posts labels = Ok chosen
      ∧ latest_posts (rt := ascii_runtime) five_posts = Ok (Some table)
      ∧ df_columns table = labels
      ∧ length (df_rows table) = (20 `min` length (df_rows five_posts))%nat
      ∧ df_rows table ++ rest ≡ₚ df_rows chosen
      ∧ StronglySorted not_older (cell_at "postdate" <$> df_rows table ++ rest).
Proof.
  intros labels.
  assert (Forall (λ l, l ∈ df_columns five_posts) labels) as Hcols by by_computation.
  assert (datetime_column five_posts "postdate") as Hdt by (split; by_computation).
  split; [exact Hcols|]. split; [exact Hdt|].
  exact (latest_posts_are_latest (rt := ascii_runtime) five_posts Hcols Hdt).
Defined.

Lemma latest_posts_of_run_witness :
  let data := load_and_preprocess_data (rt := ascii_runtime) full_files in
  let labels := ["postdate"; "bloggername"; "title"; "target_keyword"] in
  ∃ f, filter_block (trend_df data) (blog_df data) (shop_df data) (news_df data)
                    [py "foo"] [jan_2024 1; jan_2024 5] = Ok f
    ∧ "bloggername" ∈ df_columns (f_blog f)
    ∧ "title" ∈ df_columns (f_blog f)
    ∧ ∃ table,
        latest_posts (rt := ascii_runtime) (f_blog f) = Ok (Some table)
        ∧ (length (df_rows table) ≤ 20)%nat
        ∧ ∀ r, r ∈ df_rows table →
            ∃ r0, r0 ∈ df_rows (blog_df data) ∧ r = filter (λ kv, kv.1 ∈ labels) r0.
Proof.
  intros data labels. eexists.
  match goal with |- ?eq ∧ _ => assert eq as Hf end.
  { apply filter_block_active. split; [apply full_files_ready|reflexivity]. }
  split; [exact Hf|].
  match goal with |- ?a ∧ ?b ∧ _ => assert a as Hb by by_computation;
                                     assert b as Ht by by_computation end.
  split; [exact Hb|]. split; [exact Ht|].
  exact (latest_posts_of_run (rt := ascii_runtime) full_files _ _ _ Hf Hb Ht).
Defined.
